(** * historee: domain extraction, normalization, validation and batch merge

    A shallow embedding of [src/main.py].  Python [str] values are modelled
    as Rocq strings whose characters are code points 0..255, classified as
    Python classifies them; the TLD check is also given on lists of
    arbitrary code points, with the tables of Unicode, and the two agree
    below 256.  A value that is a [str] or [None] is an [option string];
    sets and [collections.Counter] are stdpp's [gset] and [gmap]; [print]
    is an explicit output list and exceptions are a sum. *)

From Stdlib Require Import Ascii String ZArith Lia Bool.
From stdpp Require Import gmap strings list fin_maps sorting.

Local Open Scope Z_scope.
Local Open Scope nat_scope.

(** ** Python string operations *)

Module PyStr.

Definition code (c : ascii) : N := N_of_ascii c.

Definition between (lo hi : N) (c : ascii) : bool :=
  ((lo <=? code c) && (code c <=? hi))%N.

(** [str.isupper], [str.islower] and [str.isalpha] on one character, for
    the code points below 256. *)
Definition char_isupper (c : ascii) : bool :=
  between 65 90 c || between 192 214 c || between 216 222 c.

Definition char_islower (c : ascii) : bool :=
  between 97 122 c || between 170 170 c || between 181 181 c
  || between 186 186 c || between 223 246 c || between 248 255 c.

(** No code point below 256 is a titlecase letter. *)
Definition char_istitle (c : ascii) : bool := false.

Definition char_isalpha (c : ascii) : bool :=
  between 65 90 c || between 97 122 c || between 170 170 c
  || between 181 181 c || between 186 186 c || between 192 214 c
  || between 216 246 c || between 248 255 c.

Definition char_isspace (c : ascii) : bool :=
  between 9 13 c || between 28 32 c || between 133 133 c
  || between 160 160 c.

(** [not s] for a string: the empty string is falsy. *)
Definition falsy (s : string) : bool :=
  match s with EmptyString => true | String _ _ => false end.

Fixpoint all (p : ascii -> bool) (s : string) : bool :=
  match s with
  | EmptyString => true
  | String c s' => p c && all p s'
  end.

Fixpoint any (p : ascii -> bool) (s : string) : bool :=
  match s with
  | EmptyString => false
  | String c s' => p c || any p s'
  end.

(** [s.isalpha()]: at least one character and all of them alphabetic. *)
Definition isalpha (s : string) : bool := negb (falsy s) && all char_isalpha s.

(** [s.islower()]: the loop of CPython's [unicode_islower]; an uppercase or
    titlecase character answers [False] at once, [cased] records that a
    lowercase character was seen. *)
Fixpoint islower_loop (cased : bool) (s : string) : bool :=
  match s with
  | EmptyString => cased
  | String c s' =>
      if char_isupper c || char_istitle c then false
      else islower_loop (cased || char_islower c) s'
  end.

Definition islower (s : string) : bool := islower_loop false s.

(** [c in s] for a one-character [c]. *)
Definition contains (c : ascii) (s : string) : bool := any (Ascii.eqb c) s.

(** [s.count(c)] for a one-character [c]. *)
Fixpoint count (c : ascii) (s : string) : nat :=
  match s with
  | EmptyString => 0
  | String a s' => (if Ascii.eqb a c then 1 else 0) + count c s'
  end.

(** [s.rfind(c)]: the highest index of [c], or [-1]. *)
Fixpoint rfind_from (c : ascii) (s : string) (i : Z) (found : Z) : Z :=
  match s with
  | EmptyString => found
  | String a s' => rfind_from c s' (i + 1)%Z (if Ascii.eqb a c then i else found)
  end.

Definition rfind (c : ascii) (s : string) : Z := rfind_from c s 0%Z (-1)%Z.

Fixpoint drop (n : nat) (s : string) : string :=
  match n, s with
  | O, _ => s
  | S n', EmptyString => EmptyString
  | S n', String _ s' => drop n' s'
  end.

Fixpoint take (n : nat) (s : string) : string :=
  match n, s with
  | O, _ => EmptyString
  | S n', EmptyString => EmptyString
  | S n', String a s' => String a (take n' s')
  end.

(** The start of a slice [x[i:]] of a sequence of length [len]: a negative
    index counts from the end, and the result is clipped to the sequence. *)
Definition slice_start (len : nat) (i : Z) : nat :=
  Z.to_nat (if (i <? 0)%Z then Z.max 0 (i + Z.of_nat len) else i).

(** [s[i:]]. *)
Definition slice_from (s : string) (i : Z) : string :=
  drop (slice_start (String.length s) i) s.

(** [s.split(c)] for a one-character separator: never empty. *)
Fixpoint split (sep : ascii) (s : string) : list string :=
  match s with
  | EmptyString => [EmptyString]
  | String a s' =>
      if Ascii.eqb a sep then EmptyString :: split sep s'
      else match split sep s' with
           | [] => [String a EmptyString]
           | part :: parts => String a part :: parts
           end
  end.

(** [sep.join(parts)]. *)
Fixpoint join (sep : string) (parts : list string) : string :=
  match parts with
  | [] => EmptyString
  | [p] => p
  | p :: rest => p +:+ sep +:+ join sep rest
  end.

Fixpoint lstrip (s : string) : string :=
  match s with
  | EmptyString => EmptyString
  | String a s' => if char_isspace a then lstrip s' else s
  end.

Fixpoint rstrip (s : string) : string :=
  match s with
  | EmptyString => EmptyString
  | String a s' =>
      let r := rstrip s' in
      if falsy r && char_isspace a then EmptyString else String a r
  end.

(** [s.strip()]. *)
Definition strip (s : string) : string := rstrip (lstrip s).

(** [s.startswith(p)]. *)
Fixpoint startswith (s p : string) : bool :=
  match p, s with
  | EmptyString, _ => true
  | String _ _, EmptyString => false
  | String b p', String a s' => Ascii.eqb a b && startswith s' p'
  end.

(** [str(n)] for a non-negative integer. *)
Definition digit (n : nat) : ascii := ascii_of_nat (48 + n).

Fixpoint show_nat_go (fuel n : nat) (acc : string) : string :=
  match fuel with
  | O => acc
  | S fuel' =>
      let acc' := String (digit (n mod 10)) acc in
      if n / 10 =? 0 then acc' else show_nat_go fuel' (n / 10) acc'
  end.

Definition show_nat (n : nat) : string := show_nat_go (S n) n EmptyString.

End PyStr.

(** [xs[i:]] on a list. *)
Definition list_slice_from {A} (xs : list A) (i : Z) : list A :=
  List.skipn (PyStr.slice_start (length xs) i) xs.

(** ** TLDValidator *)

(** [has_valid_tld(domain)]; [domain] is a [str] or [None]. *)
Definition has_valid_tld (domain : option string) : bool :=
  match domain with
  | None => false
  | Some domain =>
      if PyStr.falsy domain then false
      else if (String.length domain <? 3) || negb (PyStr.contains "." domain)
      then false
      else
        let last_dot := PyStr.rfind "." domain in
        if (last_dot =? -1)%Z
           || (last_dot =? Z.of_nat (String.length domain) - 1)%Z
        then false
        else
          let tld := PyStr.slice_from domain (last_dot + 1)%Z in
          (2 <=? String.length tld) && PyStr.islower tld && PyStr.isalpha tld
  end.

(** ** Strings beyond code point 255

    A [str] is a sequence of Unicode code points.  The functions above
    take the code points below 256; this module takes them all, for the
    TLD check.  The tables are those of Unicode 14.0, which Python 3.11
    carries: each is the list of the ranges of code points, both ends
    included, on which the method answers [True] for a one-character
    string. *)
Module Unicode.

(** A [str]: the list of its code points. *)
Definition str : Type := list N.

Definition in_table (table : list (N * N)) (c : N) : bool :=
  existsb (fun range => (fst range <=? c)%N && (c <=? snd range)%N) table.

(** [c.isalpha()]: the letters, general categories Lu, Ll, Lt, Lm and Lo. *)
Definition alpha_table : list (N * N) :=
  [ (65, 90); (97, 122); (170, 170); (181, 181); (186, 186); (192, 214); (216,
    246); (248, 705); (710, 721); (736, 740); (748, 748); (750, 750); (880,
    884); (886, 887); (890, 893); (895, 895); (902, 902); (904, 906); (908,
    908); (910, 929); (931, 1013); (1015, 1153); (1162, 1327); (1329, 1366);
    (1369, 1369); (1376, 1416); (1488, 1514); (1519, 1522); (1568, 1610); (1646,
    1647); (1649, 1747); (1749, 1749); (1765, 1766); (1774, 1775); (1786, 1788);
    (1791, 1791); (1808, 1808); (1810, 1839); (1869, 1957); (1969, 1969); (1994,
    2026); (2036, 2037); (2042, 2042); (2048, 2069); (2074, 2074); (2084, 2084);
    (2088, 2088); (2112, 2136); (2144, 2154); (2160, 2183); (2185, 2190); (2208,
    2249); (2308, 2361); (2365, 2365); (2384, 2384); (2392, 2401); (2417, 2432);
    (2437, 2444); (2447, 2448); (2451, 2472); (2474, 2480); (2482, 2482); (2486,
    2489); (2493, 2493); (2510, 2510); (2524, 2525); (2527, 2529); (2544, 2545);
    (2556, 2556); (2565, 2570); (2575, 2576); (2579, 2600); (2602, 2608); (2610,
    2611); (2613, 2614); (2616, 2617); (2649, 2652); (2654, 2654); (2674, 2676);
    (2693, 2701); (2703, 2705); (2707, 2728); (2730, 2736); (2738, 2739); (2741,
    2745); (2749, 2749); (2768, 2768); (2784, 2785); (2809, 2809); (2821, 2828);
    (2831, 2832); (2835, 2856); (2858, 2864); (2866, 2867); (2869, 2873); (2877,
    2877); (2908, 2909); (2911, 2913); (2929, 2929); (2947, 2947); (2949, 2954);
    (2958, 2960); (2962, 2965); (2969, 2970); (2972, 2972); (2974, 2975); (2979,
    2980); (2984, 2986); (2990, 3001); (3024, 3024); (3077, 3084); (3086, 3088);
    (3090, 3112); (3114, 3129); (3133, 3133); (3160, 3162); (3165, 3165); (3168,
    3169); (3200, 3200); (3205, 3212); (3214, 3216); (3218, 3240); (3242, 3251);
    (3253, 3257); (3261, 3261); (3293, 3294); (3296, 3297); (3313, 3314); (3332,
    3340); (3342, 3344); (3346, 3386); (3389, 3389); (3406, 3406); (3412, 3414);
    (3423, 3425); (3450, 3455); (3461, 3478); (3482, 3505); (3507, 3515); (3517,
    3517); (3520, 3526); (3585, 3632); (3634, 3635); (3648, 3654); (3713, 3714);
    (3716, 3716); (3718, 3722); (3724, 3747); (3749, 3749); (3751, 3760); (3762,
    3763); (3773, 3773); (3776, 3780); (3782, 3782); (3804, 3807); (3840, 3840);
    (3904, 3911); (3913, 3948); (3976, 3980); (4096, 4138); (4159, 4159); (4176,
    4181); (4186, 4189); (4193, 4193); (4197, 4198); (4206, 4208); (4213, 4225);
    (4238, 4238); (4256, 4293); (4295, 4295); (4301, 4301); (4304, 4346); (4348,
    4680); (4682, 4685); (4688, 4694); (4696, 4696); (4698, 4701); (4704, 4744);
    (4746, 4749); (4752, 4784); (4786, 4789); (4792, 4798); (4800, 4800); (4802,
    4805); (4808, 4822); (4824, 4880); (4882, 4885); (4888, 4954); (4992, 5007);
    (5024, 5109); (5112, 5117); (5121, 5740); (5743, 5759); (5761, 5786); (5792,
    5866); (5873, 5880); (5888, 5905); (5919, 5937); (5952, 5969); (5984, 5996);
    (5998, 6000); (6016, 6067); (6103, 6103); (6108, 6108); (6176, 6264); (6272,
    6276); (6279, 6312); (6314, 6314); (6320, 6389); (6400, 6430); (6480, 6509);
    (6512, 6516); (6528, 6571); (6576, 6601); (6656, 6678); (6688, 6740); (6823,
    6823); (6917, 6963); (6981, 6988); (7043, 7072); (7086, 7087); (7098, 7141);
    (7168, 7203); (7245, 7247); (7258, 7293); (7296, 7304); (7312, 7354); (7357,
    7359); (7401, 7404); (7406, 7411); (7413, 7414); (7418, 7418); (7424, 7615);
    (7680, 7957); (7960, 7965); (7968, 8005); (8008, 8013); (8016, 8023); (8025,
    8025); (8027, 8027); (8029, 8029); (8031, 8061); (8064, 8116); (8118, 8124);
    (8126, 8126); (8130, 8132); (8134, 8140); (8144, 8147); (8150, 8155); (8160,
    8172); (8178, 8180); (8182, 8188); (8305, 8305); (8319, 8319); (8336, 8348);
    (8450, 8450); (8455, 8455); (8458, 8467); (8469, 8469); (8473, 8477); (8484,
    8484); (8486, 8486); (8488, 8488); (8490, 8493); (8495, 8505); (8508, 8511);
    (8517, 8521); (8526, 8526); (8579, 8580); (11264, 11492); (11499, 11502);
    (11506, 11507); (11520, 11557); (11559, 11559); (11565, 11565); (11568,
    11623); (11631, 11631); (11648, 11670); (11680, 11686); (11688, 11694);
    (11696, 11702); (11704, 11710); (11712, 11718); (11720, 11726); (11728,
    11734); (11736, 11742); (11823, 11823); (12293, 12294); (12337, 12341);
    (12347, 12348); (12353, 12438); (12445, 12447); (12449, 12538); (12540,
    12543); (12549, 12591); (12593, 12686); (12704, 12735); (12784, 12799);
    (13312, 19903); (19968, 42124); (42192, 42237); (42240, 42508); (42512,
    42527); (42538, 42539); (42560, 42606); (42623, 42653); (42656, 42725);
    (42775, 42783); (42786, 42888); (42891, 42954); (42960, 42961); (42963,
    42963); (42965, 42969); (42994, 43009); (43011, 43013); (43015, 43018);
    (43020, 43042); (43072, 43123); (43138, 43187); (43250, 43255); (43259,
    43259); (43261, 43262); (43274, 43301); (43312, 43334); (43360, 43388);
    (43396, 43442); (43471, 43471); (43488, 43492); (43494, 43503); (43514,
    43518); (43520, 43560); (43584, 43586); (43588, 43595); (43616, 43638);
    (43642, 43642); (43646, 43695); (43697, 43697); (43701, 43702); (43705,
    43709); (43712, 43712); (43714, 43714); (43739, 43741); (43744, 43754);
    (43762, 43764); (43777, 43782); (43785, 43790); (43793, 43798); (43808,
    43814); (43816, 43822); (43824, 43866); (43868, 43881); (43888, 44002);
    (44032, 55203); (55216, 55238); (55243, 55291); (63744, 64109); (64112,
    64217); (64256, 64262); (64275, 64279); (64285, 64285); (64287, 64296);
    (64298, 64310); (64312, 64316); (64318, 64318); (64320, 64321); (64323,
    64324); (64326, 64433); (64467, 64829); (64848, 64911); (64914, 64967);
    (65008, 65019); (65136, 65140); (65142, 65276); (65313, 65338); (65345,
    65370); (65382, 65470); (65474, 65479); (65482, 65487); (65490, 65495);
    (65498, 65500); (65536, 65547); (65549, 65574); (65576, 65594); (65596,
    65597); (65599, 65613); (65616, 65629); (65664, 65786); (66176, 66204);
    (66208, 66256); (66304, 66335); (66349, 66368); (66370, 66377); (66384,
    66421); (66432, 66461); (66464, 66499); (66504, 66511); (66560, 66717);
    (66736, 66771); (66776, 66811); (66816, 66855); (66864, 66915); (66928,
    66938); (66940, 66954); (66956, 66962); (66964, 66965); (66967, 66977);
    (66979, 66993); (66995, 67001); (67003, 67004); (67072, 67382); (67392,
    67413); (67424, 67431); (67456, 67461); (67463, 67504); (67506, 67514);
    (67584, 67589); (67592, 67592); (67594, 67637); (67639, 67640); (67644,
    67644); (67647, 67669); (67680, 67702); (67712, 67742); (67808, 67826);
    (67828, 67829); (67840, 67861); (67872, 67897); (67968, 68023); (68030,
    68031); (68096, 68096); (68112, 68115); (68117, 68119); (68121, 68149);
    (68192, 68220); (68224, 68252); (68288, 68295); (68297, 68324); (68352,
    68405); (68416, 68437); (68448, 68466); (68480, 68497); (68608, 68680);
    (68736, 68786); (68800, 68850); (68864, 68899); (69248, 69289); (69296,
    69297); (69376, 69404); (69415, 69415); (69424, 69445); (69488, 69505);
    (69552, 69572); (69600, 69622); (69635, 69687); (69745, 69746); (69749,
    69749); (69763, 69807); (69840, 69864); (69891, 69926); (69956, 69956);
    (69959, 69959); (69968, 70002); (70006, 70006); (70019, 70066); (70081,
    70084); (70106, 70106); (70108, 70108); (70144, 70161); (70163, 70187);
    (70272, 70278); (70280, 70280); (70282, 70285); (70287, 70301); (70303,
    70312); (70320, 70366); (70405, 70412); (70415, 70416); (70419, 70440);
    (70442, 70448); (70450, 70451); (70453, 70457); (70461, 70461); (70480,
    70480); (70493, 70497); (70656, 70708); (70727, 70730); (70751, 70753);
    (70784, 70831); (70852, 70853); (70855, 70855); (71040, 71086); (71128,
    71131); (71168, 71215); (71236, 71236); (71296, 71338); (71352, 71352);
    (71424, 71450); (71488, 71494); (71680, 71723); (71840, 71903); (71935,
    71942); (71945, 71945); (71948, 71955); (71957, 71958); (71960, 71983);
    (71999, 71999); (72001, 72001); (72096, 72103); (72106, 72144); (72161,
    72161); (72163, 72163); (72192, 72192); (72203, 72242); (72250, 72250);
    (72272, 72272); (72284, 72329); (72349, 72349); (72368, 72440); (72704,
    72712); (72714, 72750); (72768, 72768); (72818, 72847); (72960, 72966);
    (72968, 72969); (72971, 73008); (73030, 73030); (73056, 73061); (73063,
    73064); (73066, 73097); (73112, 73112); (73440, 73458); (73648, 73648);
    (73728, 74649); (74880, 75075); (77712, 77808); (77824, 78894); (82944,
    83526); (92160, 92728); (92736, 92766); (92784, 92862); (92880, 92909);
    (92928, 92975); (92992, 92995); (93027, 93047); (93053, 93071); (93760,
    93823); (93952, 94026); (94032, 94032); (94099, 94111); (94176, 94177);
    (94179, 94179); (94208, 100343); (100352, 101589); (101632, 101640);
    (110576, 110579); (110581, 110587); (110589, 110590); (110592, 110882);
    (110928, 110930); (110948, 110951); (110960, 111355); (113664, 113770);
    (113776, 113788); (113792, 113800); (113808, 113817); (119808, 119892);
    (119894, 119964); (119966, 119967); (119970, 119970); (119973, 119974);
    (119977, 119980); (119982, 119993); (119995, 119995); (119997, 120003);
    (120005, 120069); (120071, 120074); (120077, 120084); (120086, 120092);
    (120094, 120121); (120123, 120126); (120128, 120132); (120134, 120134);
    (120138, 120144); (120146, 120485); (120488, 120512); (120514, 120538);
    (120540, 120570); (120572, 120596); (120598, 120628); (120630, 120654);
    (120656, 120686); (120688, 120712); (120714, 120744); (120746, 120770);
    (120772, 120779); (122624, 122654); (123136, 123180); (123191, 123197);
    (123214, 123214); (123536, 123565); (123584, 123627); (124896, 124902);
    (124904, 124907); (124909, 124910); (124912, 124926); (124928, 125124);
    (125184, 125251); (125259, 125259); (126464, 126467); (126469, 126495);
    (126497, 126498); (126500, 126500); (126503, 126503); (126505, 126514);
    (126516, 126519); (126521, 126521); (126523, 126523); (126530, 126530);
    (126535, 126535); (126537, 126537); (126539, 126539); (126541, 126543);
    (126545, 126546); (126548, 126548); (126551, 126551); (126553, 126553);
    (126555, 126555); (126557, 126557); (126559, 126559); (126561, 126562);
    (126564, 126564); (126567, 126570); (126572, 126578); (126580, 126583);
    (126585, 126588); (126590, 126590); (126592, 126601); (126603, 126619);
    (126625, 126627); (126629, 126633); (126635, 126651); (131072, 173791);
    (173824, 177976); (177984, 178205); (178208, 183969); (183984, 191456);
    (194560, 195101); (196608, 201546) ]%N.

(** [c.isupper()]: the code points with the property Uppercase. *)
Definition upper_table : list (N * N) :=
  [ (65, 90); (192, 214); (216, 222); (256, 256); (258, 258); (260, 260); (262,
    262); (264, 264); (266, 266); (268, 268); (270, 270); (272, 272); (274,
    274); (276, 276); (278, 278); (280, 280); (282, 282); (284, 284); (286,
    286); (288, 288); (290, 290); (292, 292); (294, 294); (296, 296); (298,
    298); (300, 300); (302, 302); (304, 304); (306, 306); (308, 308); (310,
    310); (313, 313); (315, 315); (317, 317); (319, 319); (321, 321); (323,
    323); (325, 325); (327, 327); (330, 330); (332, 332); (334, 334); (336,
    336); (338, 338); (340, 340); (342, 342); (344, 344); (346, 346); (348,
    348); (350, 350); (352, 352); (354, 354); (356, 356); (358, 358); (360,
    360); (362, 362); (364, 364); (366, 366); (368, 368); (370, 370); (372,
    372); (374, 374); (376, 377); (379, 379); (381, 381); (385, 386); (388,
    388); (390, 391); (393, 395); (398, 401); (403, 404); (406, 408); (412,
    413); (415, 416); (418, 418); (420, 420); (422, 423); (425, 425); (428,
    428); (430, 431); (433, 435); (437, 437); (439, 440); (444, 444); (452,
    452); (455, 455); (458, 458); (461, 461); (463, 463); (465, 465); (467,
    467); (469, 469); (471, 471); (473, 473); (475, 475); (478, 478); (480,
    480); (482, 482); (484, 484); (486, 486); (488, 488); (490, 490); (492,
    492); (494, 494); (497, 497); (500, 500); (502, 504); (506, 506); (508,
    508); (510, 510); (512, 512); (514, 514); (516, 516); (518, 518); (520,
    520); (522, 522); (524, 524); (526, 526); (528, 528); (530, 530); (532,
    532); (534, 534); (536, 536); (538, 538); (540, 540); (542, 542); (544,
    544); (546, 546); (548, 548); (550, 550); (552, 552); (554, 554); (556,
    556); (558, 558); (560, 560); (562, 562); (570, 571); (573, 574); (577,
    577); (579, 582); (584, 584); (586, 586); (588, 588); (590, 590); (880,
    880); (882, 882); (886, 886); (895, 895); (902, 902); (904, 906); (908,
    908); (910, 911); (913, 929); (931, 939); (975, 975); (978, 980); (984,
    984); (986, 986); (988, 988); (990, 990); (992, 992); (994, 994); (996,
    996); (998, 998); (1000, 1000); (1002, 1002); (1004, 1004); (1006, 1006);
    (1012, 1012); (1015, 1015); (1017, 1018); (1021, 1071); (1120, 1120); (1122,
    1122); (1124, 1124); (1126, 1126); (1128, 1128); (1130, 1130); (1132, 1132);
    (1134, 1134); (1136, 1136); (1138, 1138); (1140, 1140); (1142, 1142); (1144,
    1144); (1146, 1146); (1148, 1148); (1150, 1150); (1152, 1152); (1162, 1162);
    (1164, 1164); (1166, 1166); (1168, 1168); (1170, 1170); (1172, 1172); (1174,
    1174); (1176, 1176); (1178, 1178); (1180, 1180); (1182, 1182); (1184, 1184);
    (1186, 1186); (1188, 1188); (1190, 1190); (1192, 1192); (1194, 1194); (1196,
    1196); (1198, 1198); (1200, 1200); (1202, 1202); (1204, 1204); (1206, 1206);
    (1208, 1208); (1210, 1210); (1212, 1212); (1214, 1214); (1216, 1217); (1219,
    1219); (1221, 1221); (1223, 1223); (1225, 1225); (1227, 1227); (1229, 1229);
    (1232, 1232); (1234, 1234); (1236, 1236); (1238, 1238); (1240, 1240); (1242,
    1242); (1244, 1244); (1246, 1246); (1248, 1248); (1250, 1250); (1252, 1252);
    (1254, 1254); (1256, 1256); (1258, 1258); (1260, 1260); (1262, 1262); (1264,
    1264); (1266, 1266); (1268, 1268); (1270, 1270); (1272, 1272); (1274, 1274);
    (1276, 1276); (1278, 1278); (1280, 1280); (1282, 1282); (1284, 1284); (1286,
    1286); (1288, 1288); (1290, 1290); (1292, 1292); (1294, 1294); (1296, 1296);
    (1298, 1298); (1300, 1300); (1302, 1302); (1304, 1304); (1306, 1306); (1308,
    1308); (1310, 1310); (1312, 1312); (1314, 1314); (1316, 1316); (1318, 1318);
    (1320, 1320); (1322, 1322); (1324, 1324); (1326, 1326); (1329, 1366); (4256,
    4293); (4295, 4295); (4301, 4301); (5024, 5109); (7312, 7354); (7357, 7359);
    (7680, 7680); (7682, 7682); (7684, 7684); (7686, 7686); (7688, 7688); (7690,
    7690); (7692, 7692); (7694, 7694); (7696, 7696); (7698, 7698); (7700, 7700);
    (7702, 7702); (7704, 7704); (7706, 7706); (7708, 7708); (7710, 7710); (7712,
    7712); (7714, 7714); (7716, 7716); (7718, 7718); (7720, 7720); (7722, 7722);
    (7724, 7724); (7726, 7726); (7728, 7728); (7730, 7730); (7732, 7732); (7734,
    7734); (7736, 7736); (7738, 7738); (7740, 7740); (7742, 7742); (7744, 7744);
    (7746, 7746); (7748, 7748); (7750, 7750); (7752, 7752); (7754, 7754); (7756,
    7756); (7758, 7758); (7760, 7760); (7762, 7762); (7764, 7764); (7766, 7766);
    (7768, 7768); (7770, 7770); (7772, 7772); (7774, 7774); (7776, 7776); (7778,
    7778); (7780, 7780); (7782, 7782); (7784, 7784); (7786, 7786); (7788, 7788);
    (7790, 7790); (7792, 7792); (7794, 7794); (7796, 7796); (7798, 7798); (7800,
    7800); (7802, 7802); (7804, 7804); (7806, 7806); (7808, 7808); (7810, 7810);
    (7812, 7812); (7814, 7814); (7816, 7816); (7818, 7818); (7820, 7820); (7822,
    7822); (7824, 7824); (7826, 7826); (7828, 7828); (7838, 7838); (7840, 7840);
    (7842, 7842); (7844, 7844); (7846, 7846); (7848, 7848); (7850, 7850); (7852,
    7852); (7854, 7854); (7856, 7856); (7858, 7858); (7860, 7860); (7862, 7862);
    (7864, 7864); (7866, 7866); (7868, 7868); (7870, 7870); (7872, 7872); (7874,
    7874); (7876, 7876); (7878, 7878); (7880, 7880); (7882, 7882); (7884, 7884);
    (7886, 7886); (7888, 7888); (7890, 7890); (7892, 7892); (7894, 7894); (7896,
    7896); (7898, 7898); (7900, 7900); (7902, 7902); (7904, 7904); (7906, 7906);
    (7908, 7908); (7910, 7910); (7912, 7912); (7914, 7914); (7916, 7916); (7918,
    7918); (7920, 7920); (7922, 7922); (7924, 7924); (7926, 7926); (7928, 7928);
    (7930, 7930); (7932, 7932); (7934, 7934); (7944, 7951); (7960, 7965); (7976,
    7983); (7992, 7999); (8008, 8013); (8025, 8025); (8027, 8027); (8029, 8029);
    (8031, 8031); (8040, 8047); (8120, 8123); (8136, 8139); (8152, 8155); (8168,
    8172); (8184, 8187); (8450, 8450); (8455, 8455); (8459, 8461); (8464, 8466);
    (8469, 8469); (8473, 8477); (8484, 8484); (8486, 8486); (8488, 8488); (8490,
    8493); (8496, 8499); (8510, 8511); (8517, 8517); (8544, 8559); (8579, 8579);
    (9398, 9423); (11264, 11311); (11360, 11360); (11362, 11364); (11367,
    11367); (11369, 11369); (11371, 11371); (11373, 11376); (11378, 11378);
    (11381, 11381); (11390, 11392); (11394, 11394); (11396, 11396); (11398,
    11398); (11400, 11400); (11402, 11402); (11404, 11404); (11406, 11406);
    (11408, 11408); (11410, 11410); (11412, 11412); (11414, 11414); (11416,
    11416); (11418, 11418); (11420, 11420); (11422, 11422); (11424, 11424);
    (11426, 11426); (11428, 11428); (11430, 11430); (11432, 11432); (11434,
    11434); (11436, 11436); (11438, 11438); (11440, 11440); (11442, 11442);
    (11444, 11444); (11446, 11446); (11448, 11448); (11450, 11450); (11452,
    11452); (11454, 11454); (11456, 11456); (11458, 11458); (11460, 11460);
    (11462, 11462); (11464, 11464); (11466, 11466); (11468, 11468); (11470,
    11470); (11472, 11472); (11474, 11474); (11476, 11476); (11478, 11478);
    (11480, 11480); (11482, 11482); (11484, 11484); (11486, 11486); (11488,
    11488); (11490, 11490); (11499, 11499); (11501, 11501); (11506, 11506);
    (42560, 42560); (42562, 42562); (42564, 42564); (42566, 42566); (42568,
    42568); (42570, 42570); (42572, 42572); (42574, 42574); (42576, 42576);
    (42578, 42578); (42580, 42580); (42582, 42582); (42584, 42584); (42586,
    42586); (42588, 42588); (42590, 42590); (42592, 42592); (42594, 42594);
    (42596, 42596); (42598, 42598); (42600, 42600); (42602, 42602); (42604,
    42604); (42624, 42624); (42626, 42626); (42628, 42628); (42630, 42630);
    (42632, 42632); (42634, 42634); (42636, 42636); (42638, 42638); (42640,
    42640); (42642, 42642); (42644, 42644); (42646, 42646); (42648, 42648);
    (42650, 42650); (42786, 42786); (42788, 42788); (42790, 42790); (42792,
    42792); (42794, 42794); (42796, 42796); (42798, 42798); (42802, 42802);
    (42804, 42804); (42806, 42806); (42808, 42808); (42810, 42810); (42812,
    42812); (42814, 42814); (42816, 42816); (42818, 42818); (42820, 42820);
    (42822, 42822); (42824, 42824); (42826, 42826); (42828, 42828); (42830,
    42830); (42832, 42832); (42834, 42834); (42836, 42836); (42838, 42838);
    (42840, 42840); (42842, 42842); (42844, 42844); (42846, 42846); (42848,
    42848); (42850, 42850); (42852, 42852); (42854, 42854); (42856, 42856);
    (42858, 42858); (42860, 42860); (42862, 42862); (42873, 42873); (42875,
    42875); (42877, 42878); (42880, 42880); (42882, 42882); (42884, 42884);
    (42886, 42886); (42891, 42891); (42893, 42893); (42896, 42896); (42898,
    42898); (42902, 42902); (42904, 42904); (42906, 42906); (42908, 42908);
    (42910, 42910); (42912, 42912); (42914, 42914); (42916, 42916); (42918,
    42918); (42920, 42920); (42922, 42926); (42928, 42932); (42934, 42934);
    (42936, 42936); (42938, 42938); (42940, 42940); (42942, 42942); (42944,
    42944); (42946, 42946); (42948, 42951); (42953, 42953); (42960, 42960);
    (42966, 42966); (42968, 42968); (42997, 42997); (65313, 65338); (66560,
    66599); (66736, 66771); (66928, 66938); (66940, 66954); (66956, 66962);
    (66964, 66965); (68736, 68786); (71840, 71871); (93760, 93791); (119808,
    119833); (119860, 119885); (119912, 119937); (119964, 119964); (119966,
    119967); (119970, 119970); (119973, 119974); (119977, 119980); (119982,
    119989); (120016, 120041); (120068, 120069); (120071, 120074); (120077,
    120084); (120086, 120092); (120120, 120121); (120123, 120126); (120128,
    120132); (120134, 120134); (120138, 120144); (120172, 120197); (120224,
    120249); (120276, 120301); (120328, 120353); (120380, 120405); (120432,
    120457); (120488, 120512); (120546, 120570); (120604, 120628); (120662,
    120686); (120720, 120744); (120778, 120778); (125184, 125217); (127280,
    127305); (127312, 127337); (127344, 127369) ]%N.

(** [c.islower()]: the code points with the property Lowercase. *)
Definition lower_table : list (N * N) :=
  [ (97, 122); (170, 170); (181, 181); (186, 186); (223, 246); (248, 255); (257,
    257); (259, 259); (261, 261); (263, 263); (265, 265); (267, 267); (269,
    269); (271, 271); (273, 273); (275, 275); (277, 277); (279, 279); (281,
    281); (283, 283); (285, 285); (287, 287); (289, 289); (291, 291); (293,
    293); (295, 295); (297, 297); (299, 299); (301, 301); (303, 303); (305,
    305); (307, 307); (309, 309); (311, 312); (314, 314); (316, 316); (318,
    318); (320, 320); (322, 322); (324, 324); (326, 326); (328, 329); (331,
    331); (333, 333); (335, 335); (337, 337); (339, 339); (341, 341); (343,
    343); (345, 345); (347, 347); (349, 349); (351, 351); (353, 353); (355,
    355); (357, 357); (359, 359); (361, 361); (363, 363); (365, 365); (367,
    367); (369, 369); (371, 371); (373, 373); (375, 375); (378, 378); (380,
    380); (382, 384); (387, 387); (389, 389); (392, 392); (396, 397); (402,
    402); (405, 405); (409, 411); (414, 414); (417, 417); (419, 419); (421,
    421); (424, 424); (426, 427); (429, 429); (432, 432); (436, 436); (438,
    438); (441, 442); (445, 447); (454, 454); (457, 457); (460, 460); (462,
    462); (464, 464); (466, 466); (468, 468); (470, 470); (472, 472); (474,
    474); (476, 477); (479, 479); (481, 481); (483, 483); (485, 485); (487,
    487); (489, 489); (491, 491); (493, 493); (495, 496); (499, 499); (501,
    501); (505, 505); (507, 507); (509, 509); (511, 511); (513, 513); (515,
    515); (517, 517); (519, 519); (521, 521); (523, 523); (525, 525); (527,
    527); (529, 529); (531, 531); (533, 533); (535, 535); (537, 537); (539,
    539); (541, 541); (543, 543); (545, 545); (547, 547); (549, 549); (551,
    551); (553, 553); (555, 555); (557, 557); (559, 559); (561, 561); (563,
    569); (572, 572); (575, 576); (578, 578); (583, 583); (585, 585); (587,
    587); (589, 589); (591, 659); (661, 696); (704, 705); (736, 740); (837,
    837); (881, 881); (883, 883); (887, 887); (890, 893); (912, 912); (940,
    974); (976, 977); (981, 983); (985, 985); (987, 987); (989, 989); (991,
    991); (993, 993); (995, 995); (997, 997); (999, 999); (1001, 1001); (1003,
    1003); (1005, 1005); (1007, 1011); (1013, 1013); (1016, 1016); (1019, 1020);
    (1072, 1119); (1121, 1121); (1123, 1123); (1125, 1125); (1127, 1127); (1129,
    1129); (1131, 1131); (1133, 1133); (1135, 1135); (1137, 1137); (1139, 1139);
    (1141, 1141); (1143, 1143); (1145, 1145); (1147, 1147); (1149, 1149); (1151,
    1151); (1153, 1153); (1163, 1163); (1165, 1165); (1167, 1167); (1169, 1169);
    (1171, 1171); (1173, 1173); (1175, 1175); (1177, 1177); (1179, 1179); (1181,
    1181); (1183, 1183); (1185, 1185); (1187, 1187); (1189, 1189); (1191, 1191);
    (1193, 1193); (1195, 1195); (1197, 1197); (1199, 1199); (1201, 1201); (1203,
    1203); (1205, 1205); (1207, 1207); (1209, 1209); (1211, 1211); (1213, 1213);
    (1215, 1215); (1218, 1218); (1220, 1220); (1222, 1222); (1224, 1224); (1226,
    1226); (1228, 1228); (1230, 1231); (1233, 1233); (1235, 1235); (1237, 1237);
    (1239, 1239); (1241, 1241); (1243, 1243); (1245, 1245); (1247, 1247); (1249,
    1249); (1251, 1251); (1253, 1253); (1255, 1255); (1257, 1257); (1259, 1259);
    (1261, 1261); (1263, 1263); (1265, 1265); (1267, 1267); (1269, 1269); (1271,
    1271); (1273, 1273); (1275, 1275); (1277, 1277); (1279, 1279); (1281, 1281);
    (1283, 1283); (1285, 1285); (1287, 1287); (1289, 1289); (1291, 1291); (1293,
    1293); (1295, 1295); (1297, 1297); (1299, 1299); (1301, 1301); (1303, 1303);
    (1305, 1305); (1307, 1307); (1309, 1309); (1311, 1311); (1313, 1313); (1315,
    1315); (1317, 1317); (1319, 1319); (1321, 1321); (1323, 1323); (1325, 1325);
    (1327, 1327); (1376, 1416); (4304, 4346); (4349, 4351); (5112, 5117); (7296,
    7304); (7424, 7615); (7681, 7681); (7683, 7683); (7685, 7685); (7687, 7687);
    (7689, 7689); (7691, 7691); (7693, 7693); (7695, 7695); (7697, 7697); (7699,
    7699); (7701, 7701); (7703, 7703); (7705, 7705); (7707, 7707); (7709, 7709);
    (7711, 7711); (7713, 7713); (7715, 7715); (7717, 7717); (7719, 7719); (7721,
    7721); (7723, 7723); (7725, 7725); (7727, 7727); (7729, 7729); (7731, 7731);
    (7733, 7733); (7735, 7735); (7737, 7737); (7739, 7739); (7741, 7741); (7743,
    7743); (7745, 7745); (7747, 7747); (7749, 7749); (7751, 7751); (7753, 7753);
    (7755, 7755); (7757, 7757); (7759, 7759); (7761, 7761); (7763, 7763); (7765,
    7765); (7767, 7767); (7769, 7769); (7771, 7771); (7773, 7773); (7775, 7775);
    (7777, 7777); (7779, 7779); (7781, 7781); (7783, 7783); (7785, 7785); (7787,
    7787); (7789, 7789); (7791, 7791); (7793, 7793); (7795, 7795); (7797, 7797);
    (7799, 7799); (7801, 7801); (7803, 7803); (7805, 7805); (7807, 7807); (7809,
    7809); (7811, 7811); (7813, 7813); (7815, 7815); (7817, 7817); (7819, 7819);
    (7821, 7821); (7823, 7823); (7825, 7825); (7827, 7827); (7829, 7837); (7839,
    7839); (7841, 7841); (7843, 7843); (7845, 7845); (7847, 7847); (7849, 7849);
    (7851, 7851); (7853, 7853); (7855, 7855); (7857, 7857); (7859, 7859); (7861,
    7861); (7863, 7863); (7865, 7865); (7867, 7867); (7869, 7869); (7871, 7871);
    (7873, 7873); (7875, 7875); (7877, 7877); (7879, 7879); (7881, 7881); (7883,
    7883); (7885, 7885); (7887, 7887); (7889, 7889); (7891, 7891); (7893, 7893);
    (7895, 7895); (7897, 7897); (7899, 7899); (7901, 7901); (7903, 7903); (7905,
    7905); (7907, 7907); (7909, 7909); (7911, 7911); (7913, 7913); (7915, 7915);
    (7917, 7917); (7919, 7919); (7921, 7921); (7923, 7923); (7925, 7925); (7927,
    7927); (7929, 7929); (7931, 7931); (7933, 7933); (7935, 7943); (7952, 7957);
    (7968, 7975); (7984, 7991); (8000, 8005); (8016, 8023); (8032, 8039); (8048,
    8061); (8064, 8071); (8080, 8087); (8096, 8103); (8112, 8116); (8118, 8119);
    (8126, 8126); (8130, 8132); (8134, 8135); (8144, 8147); (8150, 8151); (8160,
    8167); (8178, 8180); (8182, 8183); (8305, 8305); (8319, 8319); (8336, 8348);
    (8458, 8458); (8462, 8463); (8467, 8467); (8495, 8495); (8500, 8500); (8505,
    8505); (8508, 8509); (8518, 8521); (8526, 8526); (8560, 8575); (8580, 8580);
    (9424, 9449); (11312, 11359); (11361, 11361); (11365, 11366); (11368,
    11368); (11370, 11370); (11372, 11372); (11377, 11377); (11379, 11380);
    (11382, 11389); (11393, 11393); (11395, 11395); (11397, 11397); (11399,
    11399); (11401, 11401); (11403, 11403); (11405, 11405); (11407, 11407);
    (11409, 11409); (11411, 11411); (11413, 11413); (11415, 11415); (11417,
    11417); (11419, 11419); (11421, 11421); (11423, 11423); (11425, 11425);
    (11427, 11427); (11429, 11429); (11431, 11431); (11433, 11433); (11435,
    11435); (11437, 11437); (11439, 11439); (11441, 11441); (11443, 11443);
    (11445, 11445); (11447, 11447); (11449, 11449); (11451, 11451); (11453,
    11453); (11455, 11455); (11457, 11457); (11459, 11459); (11461, 11461);
    (11463, 11463); (11465, 11465); (11467, 11467); (11469, 11469); (11471,
    11471); (11473, 11473); (11475, 11475); (11477, 11477); (11479, 11479);
    (11481, 11481); (11483, 11483); (11485, 11485); (11487, 11487); (11489,
    11489); (11491, 11492); (11500, 11500); (11502, 11502); (11507, 11507);
    (11520, 11557); (11559, 11559); (11565, 11565); (42561, 42561); (42563,
    42563); (42565, 42565); (42567, 42567); (42569, 42569); (42571, 42571);
    (42573, 42573); (42575, 42575); (42577, 42577); (42579, 42579); (42581,
    42581); (42583, 42583); (42585, 42585); (42587, 42587); (42589, 42589);
    (42591, 42591); (42593, 42593); (42595, 42595); (42597, 42597); (42599,
    42599); (42601, 42601); (42603, 42603); (42605, 42605); (42625, 42625);
    (42627, 42627); (42629, 42629); (42631, 42631); (42633, 42633); (42635,
    42635); (42637, 42637); (42639, 42639); (42641, 42641); (42643, 42643);
    (42645, 42645); (42647, 42647); (42649, 42649); (42651, 42653); (42787,
    42787); (42789, 42789); (42791, 42791); (42793, 42793); (42795, 42795);
    (42797, 42797); (42799, 42801); (42803, 42803); (42805, 42805); (42807,
    42807); (42809, 42809); (42811, 42811); (42813, 42813); (42815, 42815);
    (42817, 42817); (42819, 42819); (42821, 42821); (42823, 42823); (42825,
    42825); (42827, 42827); (42829, 42829); (42831, 42831); (42833, 42833);
    (42835, 42835); (42837, 42837); (42839, 42839); (42841, 42841); (42843,
    42843); (42845, 42845); (42847, 42847); (42849, 42849); (42851, 42851);
    (42853, 42853); (42855, 42855); (42857, 42857); (42859, 42859); (42861,
    42861); (42863, 42872); (42874, 42874); (42876, 42876); (42879, 42879);
    (42881, 42881); (42883, 42883); (42885, 42885); (42887, 42887); (42892,
    42892); (42894, 42894); (42897, 42897); (42899, 42901); (42903, 42903);
    (42905, 42905); (42907, 42907); (42909, 42909); (42911, 42911); (42913,
    42913); (42915, 42915); (42917, 42917); (42919, 42919); (42921, 42921);
    (42927, 42927); (42933, 42933); (42935, 42935); (42937, 42937); (42939,
    42939); (42941, 42941); (42943, 42943); (42945, 42945); (42947, 42947);
    (42952, 42952); (42954, 42954); (42961, 42961); (42963, 42963); (42965,
    42965); (42967, 42967); (42969, 42969); (42998, 42998); (43000, 43002);
    (43824, 43866); (43868, 43880); (43888, 43967); (64256, 64262); (64275,
    64279); (65345, 65370); (66600, 66639); (66776, 66811); (66967, 66977);
    (66979, 66993); (66995, 67001); (67003, 67004); (67456, 67456); (67459,
    67461); (67463, 67504); (67506, 67514); (68800, 68850); (71872, 71903);
    (93792, 93823); (119834, 119859); (119886, 119892); (119894, 119911);
    (119938, 119963); (119990, 119993); (119995, 119995); (119997, 120003);
    (120005, 120015); (120042, 120067); (120094, 120119); (120146, 120171);
    (120198, 120223); (120250, 120275); (120302, 120327); (120354, 120379);
    (120406, 120431); (120458, 120485); (120514, 120538); (120540, 120545);
    (120572, 120596); (120598, 120603); (120630, 120654); (120656, 120661);
    (120688, 120712); (120714, 120719); (120746, 120770); (120772, 120777);
    (120779, 120779); (122624, 122633); (122635, 122654); (125218, 125251) ]%N.

(** The titlecase letters, general category Lt. *)
Definition title_table : list (N * N) :=
  [ (453, 453); (456, 456); (459, 459); (498, 498); (8072, 8079); (8088, 8095);
    (8104, 8111); (8124, 8124); (8140, 8140); (8188, 8188) ]%N.

Definition char_isalpha (c : N) : bool := in_table alpha_table c.
Definition char_isupper (c : N) : bool := in_table upper_table c.
Definition char_islower (c : N) : bool := in_table lower_table c.
Definition char_istitle (c : N) : bool := in_table title_table c.

(** [not s]. *)
Definition falsy (s : str) : bool :=
  match s with [] => true | _ :: _ => false end.

(** [s.isalpha()]: at least one character and all of them alphabetic. *)
Definition isalpha (s : str) : bool := negb (falsy s) && forallb char_isalpha s.

(** [s.islower()]: the loop of CPython's [unicode_islower]; an uppercase or
    titlecase character answers [False] at once, [cased] records that a
    lowercase character was seen. *)
Fixpoint islower_loop (cased : bool) (s : str) : bool :=
  match s with
  | [] => cased
  | c :: s' =>
      if char_isupper c || char_istitle c then false
      else islower_loop (cased || char_islower c) s'
  end.

Definition islower (s : str) : bool := islower_loop false s.

(** [c in s] for a one-character [c]. *)
Definition contains (c : N) (s : str) : bool := existsb (N.eqb c) s.

(** [s.rfind(c)]: the highest index of [c], or [-1]. *)
Fixpoint rfind_from (c : N) (s : str) (i : Z) (found : Z) : Z :=
  match s with
  | [] => found
  | a :: s' => rfind_from c s' (i + 1)%Z (if N.eqb a c then i else found)
  end.

Definition rfind (c : N) (s : str) : Z := rfind_from c s 0%Z (-1)%Z.

(** [s[i:]]. *)
Definition slice_from (s : str) (i : Z) : str :=
  List.skipn (PyStr.slice_start (length s) i) s.

(** The code point of the dot. *)
Definition dot : N := 46.

(** [has_valid_tld(domain)]; [domain] is a [str] or [None]. *)
Definition has_valid_tld (domain : option str) : bool :=
  match domain with
  | None => false
  | Some domain =>
      if falsy domain then false
      else if (length domain <? 3) || negb (contains dot domain)
      then false
      else
        let last_dot := rfind dot domain in
        if (last_dot =? -1)%Z
           || (last_dot =? Z.of_nat (length domain) - 1)%Z
        then false
        else
          let tld := slice_from domain (last_dot + 1)%Z in
          (2 <=? length tld) && islower tld && isalpha tld
  end.

(** The code points of a string of code points below 256. *)
Fixpoint of_string (s : string) : str :=
  match s with
  | EmptyString => []
  | String a s' => PyStr.code a :: of_string s'
  end.

End Unicode.

(** ** Compiled patterns

    [re] is not part of the repository.  The code sees a compiled pattern
    only through [pattern.match(s)], and a match object only through
    [groups()] and [group(1)]; [Pattern] is that interface. *)

(** A match object: the text of the whole match, [group(0)], and the
    tuple [groups()], with [None] for a group that took no part. *)
Record Match := { m_group0 : string; m_groups : list (option string) }.

(** A compiled pattern: [p_match p s] is [p.match(s)], which looks for a
    match that starts at index 0 of [s]. *)
Record Pattern := { p_match : string -> option Match }.

(** [match.group(1)], for a match that has a group. *)
Definition group1 (m : Match) : option string :=
  match m_groups m with
  | [] => None
  | g :: _ => g
  end.

(** The exceptions the code raises or lets through. *)
Inductive exn :=
| FileNotFoundError (msg : string)
| ValueError (msg : string)
| Exception (msg : string)
| OverflowError (msg : string)
| RecursionError (msg : string).

(** What [re.compile(pattern)] does: it returns the compiled pattern, or
    raises [re.error], whose text [str(e)] is kept, or raises another
    exception: [OverflowError] for a repetition number of 4294967295 or
    more, [RecursionError] for a pattern nested too deep. *)
Inductive compile_result :=
| Compiled (p : Pattern)
| ReError (e : string)
| Raised (e : exn).

(** A backtracking matcher for the fragment of the [re] syntax the built-in
    rules are written in: literals, escaped punctuation, [.], character
    sets, [^], [$], [*], [+], [?], [|] and capturing groups.  It serves the
    examples; a pattern outside the fragment is refused, as if it were no
    regular expression, but for a repetition number that is too large,
    which raises [OverflowError] as in [re].  The [RecursionError] of a
    pattern nested too deep is not part of it. *)
Module Re.

Inductive regex :=
| Empty
| Char (c : ascii)
| AnyChar
| CharSet (negated : bool) (ranges : list (ascii * ascii))
| Bol
| Eol
| Seq (r1 r2 : regex)
| Alt (r1 r2 : regex)
| Star (r : regex)
| Plus (r : regex)
| Opt (r : regex)
| Group (index : nat) (r : regex).

(** Where the matcher stands: whether it is still at index 0, the text not
    yet consumed, and what the groups captured so far. *)
Record cursor := {
  at_start : bool;
  rest : string;
  caps : list (option string)
}.

Definition advance (c : cursor) (s : string) : cursor :=
  {| at_start := false; rest := s; caps := caps c |}.

Definition newline : ascii := ascii_of_nat 10.

(** [$] matches at the end and before a newline that ends the string. *)
Definition at_end (s : string) : bool :=
  match s with
  | EmptyString => true
  | String a EmptyString => Ascii.eqb a newline
  | _ => false
  end.

Definition in_ranges (a : ascii) (ranges : list (ascii * ascii)) : bool :=
  existsb (fun r => PyStr.between (PyStr.code (fst r)) (PyStr.code (snd r)) a)
          ranges.

(** The text consumed between two cursors of one run. *)
Definition consumed (from to : cursor) : string :=
  PyStr.take (String.length (rest from) - String.length (rest to)) (rest from).

Definition capture (index : nat) (from to : cursor) : cursor :=
  {| at_start := at_start to; rest := rest to;
     caps := <[pred index := Some (consumed from to)]> (caps to) |}.

Definition cont := cursor -> option cursor.

(** Greedy repetition: one more round of [step] if it consumes something,
    else go on with what follows. *)
Fixpoint star_loop (step : cursor -> cont -> option cursor) (fuel : nat)
    (c : cursor) (k : cont) : option cursor :=
  match fuel with
  | O => k c
  | S fuel' =>
      match step c (fun c' =>
                      if String.length (rest c') <? String.length (rest c)
                      then star_loop step fuel' c' k else None) with
      | Some r => Some r
      | None => k c
      end
  end.

Fixpoint run (r : regex) (c : cursor) (k : cont) : option cursor :=
  match r with
  | Empty => k c
  | Char a =>
      match rest c with
      | String b s => if Ascii.eqb a b then k (advance c s) else None
      | EmptyString => None
      end
  | AnyChar =>
      match rest c with
      | String b s => if Ascii.eqb b newline then None else k (advance c s)
      | EmptyString => None
      end
  | CharSet negated ranges =>
      match rest c with
      | String b s =>
          if xorb negated (in_ranges b ranges) then k (advance c s) else None
      | EmptyString => None
      end
  | Bol => if at_start c then k c else None
  | Eol => if at_end (rest c) then k c else None
  | Seq r1 r2 => run r1 c (fun c' => run r2 c' k)
  | Alt r1 r2 =>
      match run r1 c k with
      | Some x => Some x
      | None => run r2 c k
      end
  | Star r' => star_loop (run r') (String.length (rest c)) c k
  | Plus r' =>
      run r' c (fun c' => star_loop (run r') (String.length (rest c')) c' k)
  | Opt r' =>
      match run r' c k with
      | Some x => Some x
      | None => k c
      end
  | Group index r' => run r' c (fun c' => k (capture index c c'))
  end.

(** A compiled pattern of the fragment: its syntax tree and the number of
    its groups. *)
Record compiled := { ast : regex; ngroups : nat }.

Definition start (p : compiled) (s : string) : cursor :=
  {| at_start := true; rest := s; caps := replicate (ngroups p) None |}.

Definition to_match (s : string) (c : cursor) : Match :=
  {| m_group0 := PyStr.take (String.length s - String.length (rest c)) s;
     m_groups := caps c |}.

(** [p.match(s)]. *)
Definition match_ (p : compiled) (s : string) : option Match :=
  to_match s <$> run (ast p) (start p s) Some.

(** [p.fullmatch(s)]: the match has to reach the end of [s]. *)
Definition fullmatch (p : compiled) (s : string) : option Match :=
  to_match s <$>
    run (ast p) (start p s) (fun c => if PyStr.falsy (rest c) then Some c else None).

Definition to_pattern (p : compiled) : Pattern := {| p_match := match_ p |}.

(** *** Reading a pattern's text *)

(** Why a pattern is refused: an [re.error] with its text, or the
    [OverflowError] of a repetition number that is too large. *)
Inductive failure :=
| Error (msg : string)
| Overflow.

Definition parsed (A : Type) : Type := (failure + (A * string * nat))%type.

Definition is_alnum (c : ascii) : bool :=
  PyStr.between 48 57 c || PyStr.between 65 90 c || PyStr.between 97 122 c.

(** The members of a character set, up to its closing bracket. *)
Fixpoint parse_set (s : string) (acc : list (ascii * ascii))
    : failure + (list (ascii * ascii) * string) :=
  match s with
  | EmptyString => inl (Error "unterminated character set")
  | String "]" s' => inr (rev acc, s')
  | String "\" (String c s') =>
      if is_alnum c then inl (Error "unsupported escape")
      else parse_set s' ((c, c) :: acc)
  | String "\" EmptyString => inl (Error "bad escape (end of pattern)")
  | String lo (String "-" (String hi s' as close)) =>
      if Ascii.eqb hi "]"
      then parse_set close (("-", "-")%char :: (lo, lo) :: acc)
      else parse_set s' ((lo, hi) :: acc)
  | String c s' => parse_set s' ((c, c) :: acc)
  end.

(** The decimal digits at the head of a text, and what follows them. *)
Fixpoint digits (s : string) : string * string :=
  match s with
  | EmptyString => (EmptyString, EmptyString)
  | String c s' =>
      if PyStr.between 48 57 c
      then let (ds, rest) := digits s' in (String c ds, rest)
      else (EmptyString, s)
  end.

(** [int(ds)] for a text of decimal digits. *)
Fixpoint number_from (ds : string) (acc : N) : N :=
  match ds with
  | EmptyString => acc
  | String c ds' => number_from ds' (acc * 10 + (PyStr.code c - 48))%N
  end.

Definition number (ds : string) : N := number_from ds 0%N.

Definition MAXREPEAT : N := 4294967295.

(** A brace in a pattern, from the text that follows it: no repetition
    (the brace is a literal character), a repetition number that is too
    large, a minimum above the maximum, or a repetition with its bounds. *)
Inductive repeat :=
| NoRepeat
| TooLarge
| MinOverMax
| Bounded.

Definition repetition (s : string) : repeat :=
  match s with
  | String "}" _ => NoRepeat
  | _ =>
      let (lo, s1) := digits s in
      let (hi, s2) :=
        match s1 with
        | String "," s1' => digits s1'
        | _ => (lo, s1)
        end in
      match s2 with
      | String "}" _ =>
          let min := if PyStr.falsy lo then 0%N else number lo in
          if negb (PyStr.falsy lo) && (MAXREPEAT <=? min)%N then TooLarge
          else if negb (PyStr.falsy hi) && (MAXREPEAT <=? number hi)%N
          then TooLarge
          else if negb (PyStr.falsy hi) && (number hi <? min)%N
          then MinOverMax
          else Bounded
      | _ => NoRepeat
      end
  end.

(** A quantifier after an atom, if there is one.  A repetition with
    bounds is outside the fragment. *)
Definition quantified (atom : regex) (s : string) : failure + regex * string :=
  match s with
  | String "*" s' => inr (Star atom, s')
  | String "+" s' => inr (Plus atom, s')
  | String "?" s' => inr (Opt atom, s')
  | String "{" s' =>
      match repetition s' with
      | NoRepeat => inr (atom, s)
      | TooLarge => inl Overflow
      | MinOverMax => inl (Error "min repeat greater than max repeat")
      | Bounded => inl (Error "unsupported repetition")
      end
  | _ => inr (atom, s)
  end.

Fixpoint parse_alt (fuel : nat) (s : string) (g : nat) {struct fuel}
    : parsed regex :=
  match fuel with
  | O => inl (Error "pattern too deep")
  | S fuel' =>
      match parse_seq fuel' s g with
      | inr (r1, String "|" s', g') =>
          match parse_alt fuel' s' g' with
          | inr (r2, s'', g'') => inr (Alt r1 r2, s'', g'')
          | inl e => inl e
          end
      | other => other
      end
  end
with parse_seq (fuel : nat) (s : string) (g : nat) {struct fuel}
    : parsed regex :=
  match fuel with
  | O => inl (Error "pattern too deep")
  | S fuel' =>
      match s with
      | EmptyString | String ")" _ | String "|" _ => inr (Empty, s, g)
      | _ =>
          match parse_atom fuel' s g with
          | inr (a, s', g') =>
              match quantified a s' with
              | inr (a', s'') =>
                  match parse_seq fuel' s'' g' with
                  | inr (r, s3, g3) => inr (Seq a' r, s3, g3)
                  | inl e => inl e
                  end
              | inl e => inl e
              end
          | inl e => inl e
          end
      end
  end
with parse_atom (fuel : nat) (s : string) (g : nat) {struct fuel}
    : parsed regex :=
  match fuel with
  | O => inl (Error "pattern too deep")
  | S fuel' =>
      match s with
      | EmptyString => inl (Error "unexpected end of pattern")
      | String "(" (String "?" _) => inl (Error "unsupported group extension")
      | String "(" s' =>
          match parse_alt fuel' s' (S g) with
          | inr (r, String ")" s'', g') => inr (Group (S g) r, s'', g')
          | inr _ => inl (Error "missing ), unterminated subpattern")
          | inl e => inl e
          end
      | String "[" (String "^" s') =>
          match parse_set s' [] with
          | inr (ranges, s'') => inr (CharSet true ranges, s'', g)
          | inl e => inl e
          end
      | String "[" s' =>
          match parse_set s' [] with
          | inr (ranges, s'') => inr (CharSet false ranges, s'', g)
          | inl e => inl e
          end
      | String "\" (String c s') =>
          if is_alnum c then inl (Error "unsupported escape")
          else inr (Char c, s', g)
      | String "\" EmptyString => inl (Error "bad escape (end of pattern)")
      | String "." s' => inr (AnyChar, s', g)
      | String "^" s' => inr (Bol, s', g)
      | String "$" s' => inr (Eol, s', g)
      | String "*" _ | String "+" _ | String "?" _ =>
          inl (Error "nothing to repeat")
      | String "{" s' =>
          match repetition s' with
          | NoRepeat => inr (Char "{", s', g)
          | TooLarge => inl Overflow
          | MinOverMax => inl (Error "min repeat greater than max repeat")
          | Bounded => inl (Error "nothing to repeat")
          end
      | String c s' => inr (Char c, s', g)
      end
  end.

(** [re.compile(text)] on the fragment: the compiled pattern, or why the
    text is refused. *)
Definition compile_ast (text : string) : failure + compiled :=
  match parse_alt (4 * String.length text + 4) text 0 with
  | inr (r, EmptyString, g) => inr {| ast := r; ngroups := g |}
  | inr (_, String _ _, _) => inl (Error "unbalanced parenthesis")
  | inl e => inl e
  end.

Definition compile (text : string) : compile_result :=
  match compile_ast text with
  | inr p => Compiled (to_pattern p)
  | inl (Error e) => ReError e
  | inl Overflow => Raised (OverflowError "the repetition number is too large")
  end.

End Re.

(** ** PatternStore *)

(** What iterating over an opened text file gave: the lines read, and the
    error, if reading (or opening) then failed. *)
Record file := { f_lines : list string; f_error : option string }.

(** The files the loader can see; [None] where [os.path.exists] is false. *)
Definition filesystem : Type := string -> option file.

(** What a call printed, and what it returned or raised. *)
Definition outcome (A : Type) : Type := (list string * (exn + A))%type.

Definition default_patterns : list string :=
  [ "^.+\.(cloudfront\.net)$"; "^.+\.(amazonaws\.com)$"; "^.+\.(herokuapp\.com)$";
    "^.+\.(netlify\.app)$"; "^.+\.(vercel\.app)$"; "^.+\.(github\.io)$";
    "^.+\.(firebaseapp\.com)$"; "^.+\.(appspot\.com)$"; "^.+\.(azurewebsites\.net)$";
    "^.+\.(cloudflare\.com)$"; "^.+\.(fastly\.com)$"; "^.+\.(cdn\.com)$";
    "^.+\.(cdn\.net)$"; "^.+\.(cdn\.org)$"; "^.+\.(s3\.amazonaws\.com)$";
    "^.+\.(s3-website-[^.]+\.amazonaws\.com)$"; "^.+\.(elasticbeanstalk\.com)$";
    "^.+\.(railway\.app)$"; "^.+\.(render\.com)$"; "^.+\.(fly\.io)$";
    "^.+\.(digitaloceanspaces\.com)$"; "^.+\.(bunnycdn\.com)$";
    "^.+\.(stackpathcdn\.com)$"; "^.+\.(keycdn\.com)$" ].

Definition default_file : string := "domain_patterns.txt".

(** [enumerate(xs, start)]. *)
Fixpoint enumerate {A} (xs : list A) (start : nat) : list (A * nat) :=
  match xs with
  | [] => []
  | x :: xs' => (x, start) :: enumerate xs' (S start)
  end.

(** The loop over the file's lines: the stripped text and the line number
    of every line that is neither empty nor a comment. *)
Fixpoint read_patterns (lines : list string) (line_num : nat)
    : list (string * nat) :=
  match lines with
  | [] => []
  | line :: lines' =>
      let line := PyStr.strip line in
      if negb (PyStr.falsy line) && negb (PyStr.startswith line "#")
      then (line, line_num) :: read_patterns lines' (S line_num)
      else read_patterns lines' (S line_num)
  end.

Definition error_line (file_name : string) (line_num : nat) (e : string)
    : string :=
  file_name +:+ ":" +:+ PyStr.show_nat line_num
            +:+ ": invalid regex pattern: " +:+ e.

Section PatternStore.

(** [re.compile]. *)
Variable re_compile : string -> compile_result.

(** The compile loop: the patterns that compiled, and one error line for
    each that raised [re.error], both in the order of the input.  The loop
    catches [re.error] only: the first pattern on which [re.compile] raises
    another exception ends the loop, and the call, with that exception. *)
Fixpoint compile_patterns (file_name : string) (patterns : list (string * nat))
    : exn + list Pattern * list string :=
  match patterns with
  | [] => inr ([], [])
  | (pattern, line_num) :: patterns' =>
      match re_compile pattern with
      | Raised e => inl e
      | Compiled c =>
          match compile_patterns file_name patterns' with
          | inr (compiled_patterns, errors) => inr (c :: compiled_patterns, errors)
          | inl e => inl e
          end
      | ReError e =>
          match compile_patterns file_name patterns' with
          | inr (compiled_patterns, errors) =>
              inr (compiled_patterns, error_line file_name line_num e :: errors)
          | inl e => inl e
          end
      end
  end.

(** The branch of [load_domain_patterns] for an explicit path. *)
Definition load_strict (fs : filesystem) (pattern_file_path : string)
    : outcome (list Pattern) :=
  match fs pattern_file_path with
  | None =>
      ([], inl (FileNotFoundError
                  ("Pattern file not found: " +:+ pattern_file_path)))
  | Some f =>
      match f_error f with
      | Some e =>
          ([], inl (Exception ("Could not load patterns from "
                                 +:+ pattern_file_path +:+ ": " +:+ e)))
      | None =>
          let patterns := read_patterns (f_lines f) 1 in
          match compile_patterns pattern_file_path patterns with
          | inl e => ([], inl e)
          | inr (compiled_patterns, errors) =>
              match errors with
              | _ :: _ =>
                  (errors,
                   inl (Exception
                          "Invalid regex patterns found. Please fix the errors above."))
              | [] => ([], inr compiled_patterns)
              end
          end
      end
  end.

(** The branch for no path: [domain_patterns.txt] if it is there, read
    leniently, and the built-in patterns if nothing of it compiles. *)
Definition load_lenient (fs : filesystem) : outcome (list Pattern) :=
  let '(read_warning, patterns) :=
    match fs default_file with
    | Some f =>
        (match f_error f with
         | Some e =>
             ["Warning: Could not load patterns from " +:+ default_file
                +:+ ": " +:+ e]
         | None => []
         end,
         read_patterns (f_lines f) 1)
    | None => ([], [])
    end in
  match compile_patterns default_file patterns with
  | inl e => (read_warning, inl e)
  | inr (compiled_patterns, errors) =>
      match compiled_patterns with
      | [] =>
          let all_failed :=
            match errors with
            | _ :: _ =>
                ["Warning: All patterns in domain_patterns.txt failed to compile. Using default patterns."]
            | [] => []
            end in
          match compile_patterns "default_patterns.txt"
                  (enumerate default_patterns 1) with
          | inl e => (read_warning ++ all_failed, inl e)
          | inr (compiled_defaults, default_errors) =>
              match compiled_defaults with
              | [] =>
                  (read_warning ++ all_failed ++ errors ++ default_errors,
                   inl (Exception
                          "All available patterns failed to compile. Please fix the errors above."))
              | _ :: _ => (read_warning ++ all_failed, inr compiled_defaults)
              end
          end
      | _ :: _ =>
          (read_warning ++
           match errors with
           | _ :: _ =>
               "Warning: Some patterns in domain_patterns.txt failed to compile:"
                 :: errors
           | [] => []
           end,
           inr compiled_patterns)
      end
  end.

Definition load_domain_patterns (fs : filesystem)
    (pattern_file_path : option string) : outcome (list Pattern) :=
  match pattern_file_path with
  | Some path => load_strict fs path
  | None => load_lenient fs
  end.

End PatternStore.

(** ** DomainNormalizer *)

(** The loop over the patterns; an empty list returns the domain, as the
    early exit does.  [match and match.groups()] holds for a match of a
    pattern that has a group; [match.group(1)] is then a [str], or [None]
    when the first group took no part in the match. *)
Fixpoint apply_pattern_normalization (domain : string) (patterns : list Pattern)
    : option string :=
  match patterns with
  | [] => Some domain
  | pattern :: patterns' =>
      match p_match pattern domain with
      | Some m =>
          match m_groups m with
          | _ :: _ => group1 m
          | [] => apply_pattern_normalization domain patterns'
          end
      | None => apply_pattern_normalization domain patterns'
      end
  end.

(** [patterns] is a list; [None] takes the same branches as [[]]. *)
Definition normalize_domain (domain : option string) (patterns : list Pattern)
    : option string :=
  match domain with
  | None => None
  | Some domain =>
      if PyStr.falsy domain then Some domain
      else
        let dot_count := PyStr.count "." domain in
        let normalized_domain :=
          if dot_count <=? 2 then domain
          else
            let parts := PyStr.split "." domain in
            PyStr.join "." (list_slice_from parts (-3)) in
        match patterns with
        | _ :: _ => apply_pattern_normalization normalized_domain patterns
        | [] => Some normalized_domain
        end
  end.

(** ** BatchProcessor and Aggregator *)

(** The triple [(domains, counts, removed)] a batch returns and the
    orchestrator accumulates. *)
Record result := {
  domains : gset string;
  counts : gmap string nat;
  removed : nat
}.

Definition empty_result : result :=
  {| domains := ∅; counts := ∅; removed := 0 |}.

(** [counter[key]]: a missing key counts 0. *)
Definition count_of (counter : gmap string nat) (key : string) : nat :=
  default 0 (counter !! key).

(** [sum(counter.values())]. *)
Definition total_count (counter : gmap string nat) : nat :=
  map_fold (fun _ n acc => n + acc) 0 counter.

(** [counter.update(other)]: counts are added key by key. *)
Definition counter_update (counter other : gmap string nat) : gmap string nat :=
  union_with (fun a b => Some (a + b)) counter other.

(** The three merge statements of the orchestrator. *)
Definition merge (acc batch : result) : result :=
  {| domains := domains acc ∪ domains batch;
     counts := counter_update (counts acc) (counts batch);
     removed := removed acc + removed batch |}.

Definition reject (acc : result) : result :=
  {| domains := domains acc; counts := counts acc; removed := removed acc + 1 |}.

Definition accept (acc : result) (normalized_domain : string) : result :=
  {| domains := domains acc ∪ {[normalized_domain]};
     counts := <[normalized_domain := count_of (counts acc) normalized_domain + 1]>
                 (counts acc);
     removed := removed acc |}.

Inductive cursor :=
| Rows (all_urls : list string)
| QueryError (e : string).

Section BatchProcessor.

(** [urlparse(url).netloc]; [None] when [urlparse] raises. *)
Variable netloc : string -> option string.

(** The body of the loop of [process_url_batch].  An exception skips the
    URL; [has_valid_tld] rejects [None], so a normalized domain that passes
    is a [str]. *)
Definition process_url (patterns : list Pattern) (acc : result) (url : string)
    : result :=
  match netloc url with
  | None => acc
  | Some domain =>
      if PyStr.falsy domain then acc
      else if negb (has_valid_tld (Some domain)) then reject acc
      else
        let normalized_domain := normalize_domain (Some domain) patterns in
        if negb (has_valid_tld normalized_domain) then reject acc
        else
          match normalized_domain with
          | Some normalized_domain => accept acc normalized_domain
          | None => acc
          end
  end.

Definition process_url_batch (batch_urls : list string) (patterns : list Pattern)
    : result :=
  foldl (process_url patterns) empty_result batch_urls.

Definition total_batches (n batch_size : nat) : nat :=
  (n + batch_size - 1) / batch_size.

(** [all_urls[start_idx:end_idx]] for batch [batch_num]. *)
Definition batch_urls (all_urls : list string) (batch_size batch_num : nat)
    : list string :=
  let start_idx := batch_num * batch_size in
  let end_idx := Nat.min (start_idx + batch_size) (length all_urls) in
  take (end_idx - start_idx) (drop start_idx all_urls).

(** Merging the batches in the order [order] names them. *)
Definition merge_batches (all_urls : list string) (patterns : list Pattern)
    (batch_size : nat) (order : list nat) : result :=
  foldl (fun acc batch_num =>
           merge acc (process_url_batch (batch_urls all_urls batch_size batch_num)
                                        patterns))
        empty_result order.

(** The worker count: the argument, or [min(cpu_count(), 8)] for [None]. *)
Definition resolve_workers (cpu_count : Z) (max_workers : option Z) : Z :=
  match max_workers with
  | None => Z.min cpu_count 8
  | Some w => w
  end.

(** [extract_domains_from_urls] for a batch size [batch_size].  [cpu_count]
    is [multiprocessing.cpu_count()], and [completion] is the order in
    which [as_completed] hands the batches back.  [ThreadPoolExecutor]
    refuses a worker count below 1.  [process_url_batch] raises nothing, so
    no [future.result()] does. *)
Definition extract_domains_with (batch_size : nat) (cpu_count : Z)
    (completion : list nat) (cur : cursor) (patterns : list Pattern)
    (max_workers : option Z) : exn + result :=
  match cur with
  | QueryError e =>
      inl (Exception
             ("Error querying the database: " +:+ e +:+
              ". The 'urls' table might not exist or the database is corrupt."))
  | Rows all_urls =>
      let max_workers := resolve_workers cpu_count max_workers in
      let total := total_batches (length all_urls) batch_size in
      if (max_workers =? 1)%Z || (total <=? 2)
      then inr (merge_batches all_urls patterns batch_size (seq 0 total))
      else if (max_workers <=? 0)%Z
      then inl (ValueError "max_workers must be greater than 0")
      else inr (merge_batches all_urls patterns batch_size completion)
  end.

(** The code's batch size. *)
#[warnings="-abstract-large-number"]
Definition batch_size : nat := 25000.

Definition extract_domains_from_urls :=
  extract_domains_with batch_size.

End BatchProcessor.

(** A stand-in for [urlparse(url).netloc] on the URLs of the examples: the
    text between [//] and the next [/], [?] or [#]; unbalanced square
    brackets raise. *)
Module Url.

Fixpoint until_delim (s : string) : string :=
  match s with
  | EmptyString => EmptyString
  | String a s' =>
      if Ascii.eqb a "/" || Ascii.eqb a "?" || Ascii.eqb a "#" then EmptyString
      else String a (until_delim s')
  end.

Fixpoint after_slashes (s : string) : option string :=
  match s with
  | EmptyString => None
  | String a s' =>
      if PyStr.startswith s "//" then Some (PyStr.drop 2 s)
      else if Ascii.eqb a "/" || Ascii.eqb a "?" || Ascii.eqb a "#" then None
      else after_slashes s'
  end.

Definition netloc (url : string) : option string :=
  match after_slashes url with
  | None => Some EmptyString
  | Some s =>
      let host := until_delim s in
      if xorb (PyStr.contains "[" host) (PyStr.contains "]" host) then None
      else Some host
  end.

End Url.

(** ** Report *)

(** [xs[i]] on a list: a negative index counts from the end; [None] stands
    for [IndexError]. *)
Definition list_index {A} (xs : list A) (i : Z) : option A :=
  let n := Z.of_nat (length xs) in
  let i := if (i <? 0)%Z then (i + n)%Z else i in
  if (i <? 0)%Z || (n <=? i)%Z then None else xs !! Z.to_nat i.

(** [xs[:i]] on a list. *)
Definition list_slice_to {A} (xs : list A) (i : Z) : list A :=
  List.firstn (PyStr.slice_start (length xs) i) xs.

(** [s * n]. *)
Fixpoint str_mul (s : string) (n : nat) : string :=
  match n with
  | O => EmptyString
  | S n' => s +:+ str_mul s n'
  end.

(** [redact_domain(domain)] for a [str]; [None] stands for [IndexError]. *)
Definition redact_domain (domain : string) : option string :=
  if PyStr.falsy domain then Some domain
  else
    let parts := PyStr.split "." domain in
    if length parts <=? 1 then Some domain
    else
      short ← (if 2 <=? length parts
               then part ← list_index parts (-2);
                    Some (String.length part <=? 3)
               else Some false);
      if short : bool
      then tld ← list_index parts (-1); Some ("???." +:+ tld)
      else
        let redacted_parts :=
          map (fun part => str_mul "*" (String.length part))
              (list_slice_to parts (-1)) in
        tld ← list_index parts (-1);
        Some (PyStr.join "." (redacted_parts ++ [tld])).

(** The digits of a number with a comma wherever the digits that follow
    are a positive multiple of three. *)
Fixpoint group_digits (digits : string) : string :=
  match digits with
  | EmptyString => EmptyString
  | String a digits' =>
      let n := String.length digits' in
      if (0 <? n) && (n mod 3 =? 0)
      then String a (String "," (group_digits digits'))
      else String a (group_digits digits')
  end.

(** [str(num)] for an [int]. *)
Definition show_int (num : Z) : string :=
  if (num <? 0)%Z then String "-" (PyStr.show_nat (Z.abs_nat num))
  else PyStr.show_nat (Z.to_nat num).

(** [format_number(num)], that is [f"{num:,}"], for an [int]. *)
Definition format_number (num : Z) : string :=
  if (num <? 0)%Z
  then String "-" (group_digits (PyStr.show_nat (Z.abs_nat num)))
  else group_digits (PyStr.show_nat (Z.to_nat num)).

(** The suffix that [format_date] in [get_date_range] gives the day of the
    month. *)
Definition day_suffix (day : Z) : option string :=
  if ((4 <=? day) && (day <=? 20) || (24 <=? day) && (day <=? 30))%Z
  then Some "th"
  else list_index ["st"; "nd"; "rd"] (day mod 10 - 1).

(** [sorted(xs, key=...)]: stable, so an insertion sort that puts an
    element behind those it is not strictly before.  [before y x] says that
    [y] sorts strictly before [x]. *)
Fixpoint insert_sorted {A} (before : A -> A -> bool) (x : A) (ys : list A)
    : list A :=
  match ys with
  | [] => [x]
  | y :: ys' => if before y x then y :: insert_sorted before x ys' else x :: ys
  end.

Definition sorted {A} (before : A -> A -> bool) (xs : list A) : list A :=
  foldr (insert_sorted before) [] xs.

(** [key=lambda x: x[1]], ascending, and the same with [reverse=True]. *)
Definition fewer (y x : string * nat) : bool := snd y <? snd x.
Definition more (y x : string * nat) : bool := snd x <? snd y.

(** [counter.most_common(n)] for an [int] [n], on the items of the counter
    in the order of the dict: [heapq.nlargest], which gives nothing for
    [n <= 0] and else the first [n] of the items sorted by count,
    descending. *)
Definition most_common (items : list (string * nat)) (n : Z)
    : list (string * nat) :=
  if (n <=? 0)%Z then [] else take (Z.to_nat n) (sorted more items).

(** The dict [analyze_browser_history] returns.  [domain_counts] holds the
    items of the counter in the order of the dict. *)
Record analysis := {
  date_range : string * string * Z;
  unique_domains : gset string;
  domain_counts : list (string * nat);
  total_unique_domains : nat;
  top_domains : list (string * nat);
  domains_removed : nat
}.

(** The [return] of [analyze_browser_history]: the dict made of the date
    range, the triple [extract_domains_from_urls] gave, with [items] the
    items of its counter in the order of the dict, and the top list. *)
Definition analysis_results (dates : string * string * Z) (r : result)
    (items : list (string * nat)) (top : Z) : analysis :=
  {| date_range := dates;
     unique_domains := domains r;
     domain_counts := items;
     total_unique_domains := size (domains r);
     top_domains := most_common items top;
     domains_removed := removed r |}.

(** One of the two loops of [print_analysis_results]: a line for every
    listed domain.  The flag is [false] when [redact_domain] raised, which
    ends the loop. *)
Fixpoint print_domains (redact : bool) (listed : list (string * nat))
    : list string * bool :=
  match listed with
  | [] => ([], true)
  | (domain, count) :: listed' =>
      match (if redact then redact_domain domain else Some domain) with
      | None => ([], false)
      | Some display_domain =>
          let (lines, ok) := print_domains redact listed' in
          (("- " +:+ display_domain +:+ ": "
              +:+ format_number (Z.of_nat count) +:+ " visits") :: lines, ok)
      end
  end.

(** [print_analysis_results]: the lines printed; a line that starts with a
    line feed in the code is two lines here.  The flag is [false] when an
    exception ended the call. *)
Definition print_analysis_results (results : analysis) (browser_name : string)
    (top bottom : option Z) (redact : bool) : list string * bool :=
  let '(earliest_date, latest_date, days_between) := date_range results in
  let head :=
    [ ""; "--- " +:+ browser_name +:+ " History Analysis ---";
      (if (0 <? days_between)%Z
       then "Date range: " +:+ earliest_date +:+ " to " +:+ latest_date
              +:+ " (" +:+ format_number days_between +:+ " days)"
       else "Date range: " +:+ earliest_date +:+ " to " +:+ latest_date);
      "Total unique domains found: "
        +:+ format_number (Z.of_nat (total_unique_domains results));
      "Domains removed (no valid TLD): "
        +:+ format_number (Z.of_nat (domains_removed results)) ] in
  let '(top_lines, top_ok) :=
    match top with
    | Some n =>
        let (lines, ok) :=
          print_domains redact (list_slice_to (top_domains results) n) in
        ("" :: ("Top "
                  +:+ show_int
                        (Z.min n (Z.of_nat (length (top_domains results))))
                  +:+ " most visited domains:") :: lines, ok)
    | None => ([], true)
    end in
  if negb top_ok then (head ++ top_lines, false)
  else
    match bottom with
    | Some n =>
        if (0 <? n)%Z
        then
          let sorted_domains := sorted fewer (domain_counts results) in
          let bottom_domains_list := list_slice_to sorted_domains n in
          let (lines, ok) := print_domains redact bottom_domains_list in
          (head ++ top_lines
             ++ "" :: ("Bottom "
                         +:+ PyStr.show_nat (length bottom_domains_list)
                         +:+ " least visited domains:") :: lines, ok)
        else (head ++ top_lines, true)
    | None => (head ++ top_lines, true)
    end.

(** ** Command line *)

(** The namespace [parse_args] returns. *)
Record args := {
  arg_browser : string;
  arg_top : option Z;
  arg_bottom : option Z;
  arg_pattern_file_path : option string;
  arg_no_patterns : bool;
  arg_temp_path : option string;
  arg_quiet : bool;
  arg_verbose : bool;
  arg_workers : option Z;
  arg_redact : bool
}.

(** What a run printed on the standard output and on the standard error
    (the log is not part of it), and its exit status: [None] when the
    function returned. *)
Record run := { out : list string; err : list string; status : option Z }.

Definition exit_with (message : string) : run :=
  {| out := []; err := [message]; status := Some 1%Z |}.

(** [value is not None and value < bound]. *)
Definition below (bound : Z) (value : option Z) : bool :=
  match value with
  | Some n => (n <? bound)%Z
  | None => false
  end.

Section CommandLine.

(** [analyze_browser_history(browser_name, temp_path, top_domains,
    pattern_file_path, max_workers)]: what it printed, and the dict it
    returned or the text [str(e)] of the [Exception] it raised. *)
Variable analyze_browser_history :
  string -> option string -> Z -> option string -> option Z ->
  list string * (string + analysis).

(** [main_cli], from the parsed arguments on.  [setup_logging] and the
    warnings filter of [--quiet] print nothing with [print] and are left
    out.  [show_top] and [top_count] are set together: by the first branch
    when neither list is asked for, else from [args.top]. *)
Definition main_cli (a : args) : run :=
  let pattern_file_path :=
    if arg_no_patterns a then None
    else match arg_pattern_file_path a with
         | Some path => Some path
         | None => None
         end in
  if below 0 (arg_top a) then exit_with "Error: --top must be non-negative"
  else if below 0 (arg_bottom a)
  then exit_with "Error: --bottom must be non-negative"
  else if below 1 (arg_workers a)
  then exit_with "Error: --workers must be at least 1"
  else
    let '(show_top, top_count) :=
      match arg_top a, arg_bottom a with
      | None, None => (true, 10%Z)
      | Some n, _ => (true, n)
      | None, Some _ => (false, 1%Z)
      end in
    let '(printed, outcome) :=
      analyze_browser_history (arg_browser a) (arg_temp_path a) top_count
        pattern_file_path (arg_workers a) in
    match outcome with
    | inl e =>
        {| out := printed; err := ["Error: " +:+ e]; status := Some 1%Z |}
    | inr results =>
        let '(lines, ok) :=
          print_analysis_results results (arg_browser a)
            (if show_top : bool then Some top_count else None)
            (arg_bottom a) (arg_redact a) in
        if ok : bool
        then {| out := printed ++ lines; err := []; status := None |}
        else {| out := printed ++ lines;
                err := ["Error: list index out of range"];
                status := Some 1%Z |}
    end.

(** [main]: the lines printed. *)
Definition main (browser_name : string) (top : Z)
    (temp_path pattern_file_path : option string) (redact : bool)
    : list string :=
  let '(printed, outcome) :=
    analyze_browser_history browser_name temp_path top pattern_file_path None in
  match outcome with
  | inl e => printed ++ ["An error occurred: " +:+ e]
  | inr results =>
      let '(lines, ok) :=
        print_analysis_results results browser_name None None redact in
      if ok : bool then printed ++ lines
      else printed ++ lines ++ ["An error occurred: list index out of range"]
  end.

End CommandLine.

(** ** History path *)

(** [c.lower()] and [s.lower()], for the code points below 256: an
    uppercase character is 32 below its lowercase one. *)
Definition lower_char (c : ascii) : ascii :=
  if PyStr.char_isupper c then ascii_of_N (PyStr.code c + 32) else c.

Fixpoint lower (s : string) : string :=
  match s with
  | EmptyString => EmptyString
  | String a s' => String (lower_char a) (lower s')
  end.

Inductive path_error :=
| OSError (msg : string)
| KeyError (key : string).

Definition unsupported (browser_name system : string) : path_error :=
  OSError ("Unsupported browser '" +:+ browser_name
             +:+ "' or operating system '" +:+ system +:+ "'.").

Section HistoryPath.

(** [platform.system()], [os.environ], [os.path.expanduser] and
    [os.path.join] on the list of its arguments. *)
Variable system : string.
Variable environ : string -> option string.
Variable expanduser : string -> string.
Variable path_join : list string -> string.

Definition get_browser_history_path (browser_name : string)
    : path_error + string :=
  if String.eqb (lower browser_name) "vivaldi" then
    if String.eqb system "Windows" then
      match environ "LOCALAPPDATA" with
      | Some local =>
          inr (path_join [local; "Vivaldi"; "User Data"; "Default"; "History"])
      | None => inl (KeyError "LOCALAPPDATA")
      end
    else if String.eqb system "Darwin" then
      inr (path_join [expanduser "~"; "Library"; "Application Support";
                      "Vivaldi"; "Default"; "History"])
    else if String.eqb system "Linux" then
      inr (path_join [expanduser "~"; ".config"; "vivaldi"; "default"; "History"])
    else inl (unsupported browser_name system)
  else inl (unsupported browser_name system).

End HistoryPath.

(** ** Notions of the specification *)

(** The text after the last [c] of [s] (all of [s] if it has no [c]). *)
Fixpoint after_last (c : ascii) (s : string) : string :=
  match s with
  | EmptyString => EmptyString
  | String a s' =>
      if PyStr.contains c s' then after_last c s'
      else if Ascii.eqb c a then s' else s
  end.

(** The same for a list of code points. *)
Fixpoint after_last_point (c : N) (s : Unicode.str) : Unicode.str :=
  match s with
  | [] => []
  | a :: s' =>
      if Unicode.contains c s' then after_last_point c s'
      else if N.eqb c a then s' else s
  end.

(** [a.中国]: the text after the dot is made of two letters that have no
    case. *)
Definition caseless_domain : Unicode.str := [97; 46; 20013; 22269]%N.

(** [a.ǅa]: the text after the dot starts with the titlecase letter
    U+01C5. *)
Definition titlecase_domain : Unicode.str := [97; 46; 453; 97]%N.

(** A label: a piece of a domain that holds no dot. *)
Definition dot_free (label : string) : bool := negb (PyStr.contains "." label).


(** A domain in canonical form, as the spec uses the word: what the
    normalizer reduces a host to, with at most three labels (at most two
    dots) and the rules applied. *)
Definition canonical (d : string) (rules : list Pattern) : Prop :=
  PyStr.count "." d <= 2
  /\ exists raw, normalize_domain (Some raw) rules = Some d.

(** A domain the normalizer has nothing left to do on: at most three
    labels, and the rule step returns the domain itself. *)
Definition settled (d : string) (rules : list Pattern) : Prop :=
  PyStr.count "." d <= 2 /\ apply_pattern_normalization d rules = Some d.

(** Rules whose step only ever returns settled domains. *)
Definition settling (rules : list Pattern) : Prop :=
  forall d g : string,
    PyStr.count "." d <= 2 ->
    apply_pattern_normalization d rules = Some g -> settled g rules.

(** [pattern.match(domain)] gives a match and the pattern has a group: the
    test of the loop of [apply_pattern_normalization]. *)
Definition group_match (domain : string) (pattern : Pattern) : bool :=
  match p_match pattern domain with
  | Some m => negb (bool_decide (m_groups m = []))
  | None => false
  end.

(** The rule step in the words of the spec: the first rule that matches
    the domain from start to end with a non-empty first group gives the
    result, and no such rule leaves the domain as it is. *)
Fixpoint anchored_rule_step (domain : string) (rules : list Re.compiled)
    : option string :=
  match rules with
  | [] => Some domain
  | rule :: rules' =>
      match Re.fullmatch rule domain with
      | Some m =>
          match group1 m with
          | Some g =>
              if PyStr.falsy g then anchored_rule_step domain rules'
              else Some g
          | None => anchored_rule_step domain rules'
          end
      | None => anchored_rule_step domain rules'
      end
  end.

(** The pattern that matches exactly the text [l]. *)
Fixpoint literal (l : string) : Re.regex :=
  match l with
  | EmptyString => Re.Empty
  | String a l' => Re.Seq (Re.Char a) (literal l')
  end.

(** The text of a pattern made of characters only. *)
Fixpoint text_of (r : Re.regex) : string :=
  match r with
  | Re.Char a => String a EmptyString
  | Re.Seq r1 r2 => text_of r1 +:+ text_of r2
  | _ => EmptyString
  end.

(** A suffix rule: the pattern [^.+\.(l)$] for a text [l], as the built-in
    rules with a fixed suffix are. *)
Definition suffix_rule (l : string) : Re.compiled :=
  {| Re.ast :=
       Re.Seq Re.Bol
         (Re.Seq (Re.Plus Re.AnyChar)
            (Re.Seq (Re.Char ".")
               (Re.Seq (Re.Group 1 (literal l)) (Re.Seq Re.Eol Re.Empty))));
     Re.ngroups := 1 |}.

(** A run from [c] that ends in [r] reached its continuation [k] after it
    consumed a text with at least [n] dots. *)
Definition reaches (n : nat) (c : Re.cursor) (k : Re.cont) (r : Re.cursor)
    : Prop :=
  exists c' w,
    Re.rest c = w +:+ Re.rest c' /\ n <= PyStr.count "." w /\ k c' = Some r.

(** A number of dots that every text a pattern matches holds. *)
Fixpoint min_dots (r : Re.regex) : nat :=
  match r with
  | Re.Char c => if Ascii.eqb c "." then 1 else 0
  | Re.Seq r1 r2 => min_dots r1 + min_dots r2
  | Re.Alt r1 r2 => Nat.min (min_dots r1) (min_dots r2)
  | Re.Plus r' | Re.Group _ r' => min_dots r'
  | _ => 0
  end.

(** The built-in rules, compiled by the fragment's [re.compile]. *)
Definition builtin_rules : list Re.compiled :=
  Eval vm_compute in
    omap (fun text => match Re.compile_ast text with
                      | inr p => Some p
                      | inl _ => None
                      end) default_patterns.

(** [^.+\.(cloudfront\.net)$], compiled. *)
Definition cloudfront_rule : Re.compiled :=
  Eval vm_compute in
    match Re.compile_ast "^.+\.(cloudfront\.net)$" with
    | inr p => p
    | inl _ => {| Re.ast := Re.Empty; Re.ngroups := 0 |}
    end.

(** [^.+\.(cdn\.com)], a rule with no [$] at its end, compiled. *)
Definition open_ended_rule : Re.compiled :=
  Eval vm_compute in
    match Re.compile_ast "^.+\.(cdn\.com)" with
    | inr p => p
    | inl _ => {| Re.ast := Re.Empty; Re.ngroups := 0 |}
    end.



Section Compiling.

Variable re_compile : string -> compile_result.

(** The rules among [entries] that compile, in order. *)
Definition compiled_of (entries : list (string * nat)) : list Pattern :=
  omap (fun entry => match re_compile (fst entry) with
                     | Compiled c => Some c
                     | _ => None
                     end) entries.




End Compiling.




(** A rule whose group takes the leading [a]s of a domain, and is empty
    on a domain that has none. *)
Definition empty_capture_rule : Re.compiled :=
  Eval vm_compute in
    match Re.compile_ast "^(a*).*$" with
    | inr p => p
    | inl _ => {| Re.ast := Re.Empty; Re.ngroups := 0 |}
    end.

(** A rule that drops a leading [a] and so matches its own output,
    compiled. *)
Definition strip_a_rule : Re.compiled :=
  Eval vm_compute in
    match Re.compile_ast "^a(.*)$" with
    | inr p => p
    | inl _ => {| Re.ast := Re.Empty; Re.ngroups := 0 |}
    end.

(** How [process_url_batch] treats one URL. *)
Inductive url_class :=
| Skipped
| RejectedRaw
| RejectedNormalized
| Counted (normalized_domain : string).

Section Classes.

Variable netloc : string -> option string.

(** The URL has a host: extraction succeeds and the host is not empty. *)
Definition has_host (url : string) : bool :=
  match netloc url with
  | Some host => negb (PyStr.falsy host)
  | None => false
  end.

(** The four cases of the spec, each with its condition. *)
Inductive classified (patterns : list Pattern) (url : string)
    : url_class -> Prop :=
| class_skipped :
    netloc url = None \/ netloc url = Some EmptyString ->
    classified patterns url Skipped
| class_rejected_raw host :
    netloc url = Some host -> host <> EmptyString ->
    has_valid_tld (Some host) = false ->
    classified patterns url RejectedRaw
| class_rejected_normalized host :
    netloc url = Some host -> host <> EmptyString ->
    has_valid_tld (Some host) = true ->
    has_valid_tld (normalize_domain (Some host) patterns) = false ->
    classified patterns url RejectedNormalized
| class_counted host normalized_domain :
    netloc url = Some host -> host <> EmptyString ->
    has_valid_tld (Some host) = true ->
    normalize_domain (Some host) patterns = Some normalized_domain ->
    has_valid_tld (Some normalized_domain) = true ->
    classified patterns url (Counted normalized_domain).

End Classes.

(** The unique-domain set is the key set of the counts, and every count is
    at least 1. *)
Definition well_formed (r : result) : Prop :=
  domains r = dom (counts r) /\ map_Forall (fun _ n => 1 <= n) (counts r).

(** URLs for the examples. *)
Definition sample_urls : list string :=
  [ "https://a.b.github.io/x"; "http://localhost:80/"; "foo";
    "http://example.com/"; "http://u.github.io"; "http://[::1/";
    "https://example.com/again" ].

(** [^.+\.(github\.io)$], compiled. *)
Definition github_rule : Re.compiled :=
  Eval vm_compute in
    match Re.compile_ast "^.+\.(github\.io)$" with
    | inr p => p
    | inl _ => {| Re.ast := Re.Empty; Re.ngroups := 0 |}
    end.

(** ** Notions for the tally of a batch *)

Section Tally.

Variable netloc : string -> option string.
Variable patterns : list Pattern.

(** [url] is counted, and under the domain [d]: it has a host, the host
    passes the TLD check, and its normal form is [d] and passes too. *)
Definition counted_as (d url : string) : bool :=
  match netloc url with
  | Some host =>
      negb (PyStr.falsy host) && has_valid_tld (Some host)
      && bool_decide (normalize_domain (Some host) patterns = Some d)
      && has_valid_tld (Some d)
  | None => false
  end.

(** [url] has a host, and the host or its normal form fails the TLD
    check. *)
Definition rejected (url : string) : bool :=
  match netloc url with
  | Some host =>
      negb (PyStr.falsy host)
      && negb (has_valid_tld (Some host)
               && has_valid_tld (normalize_domain (Some host) patterns))
  | None => false
  end.

End Tally.

(** The tests of [has_valid_tld] on the text after the last dot. *)
Definition valid_tld (tld : string) : bool :=
  (2 <=? String.length tld) && PyStr.islower tld && PyStr.isalpha tld.

(** ** Notions for the report *)

(** A label redacted to asterisks. *)
Definition starred (label : string) : bool := PyStr.all (Ascii.eqb "*") label.

(** The suffix of an English ordinal number. *)
Definition ordinal_suffix (n : Z) : string :=
  if ((n mod 100 =? 11) || (n mod 100 =? 12) || (n mod 100 =? 13))%Z then "th"
  else if (n mod 10 =? 1)%Z then "st"
  else if (n mod 10 =? 2)%Z then "nd"
  else if (n mod 10 =? 3)%Z then "rd"
  else "th".

(** The counts of a list of items do not grow, or do not fall, along the
    list. *)
Definition falling (items : list (string * nat)) : Prop :=
  StronglySorted (fun x y => snd y <= snd x) items.

Definition rising (items : list (string * nat)) : Prop :=
  StronglySorted (fun x y => snd x <= snd y) items.

(** [items] are the items of the counter [counter], in some order. *)
Definition items_of (counter : gmap string nat) (items : list (string * nat))
    : Prop :=
  items ≡ₚ map_to_list counter.

(** The line of the report for one listed domain: the domain, redacted
    if asked for, and its count. *)
Definition domain_line (redact : bool) (item : string * nat) : string :=
  "- " +:+ (if redact then default (fst item) (redact_domain (fst item))
            else fst item)
       +:+ ": " +:+ format_number (Z.of_nat (snd item)) +:+ " visits".

(** The first lines of the report: the title, the date range, the number
    of unique domains and the number of rejections. *)
Definition report_head (results : analysis) (browser_name : string)
    : list string :=
  [ ""; "--- " +:+ browser_name +:+ " History Analysis ---";
    (let '(earliest_date, latest_date, days_between) := date_range results in
     if (0 <? days_between)%Z
     then "Date range: " +:+ earliest_date +:+ " to " +:+ latest_date
            +:+ " (" +:+ format_number days_between +:+ " days)"
     else "Date range: " +:+ earliest_date +:+ " to " +:+ latest_date);
    "Total unique domains found: "
      +:+ format_number (Z.of_nat (total_unique_domains results));
    "Domains removed (no valid TLD): "
      +:+ format_number (Z.of_nat (domains_removed results)) ].

(** The arguments pass the three checks of [main_cli]. *)
Definition valid_args (a : args) : bool :=
  negb (below 0 (arg_top a)) && negb (below 0 (arg_bottom a))
  && negb (below 1 (arg_workers a)).

(** The arguments with neither [--patterns] nor [--no-patterns]. *)
Definition without_pattern_options (a : args) : args :=
  {| arg_browser := arg_browser a;
     arg_top := arg_top a;
     arg_bottom := arg_bottom a;
     arg_pattern_file_path := None;
     arg_no_patterns := false;
     arg_temp_path := arg_temp_path a;
     arg_quiet := arg_quiet a;
     arg_verbose := arg_verbose a;
     arg_workers := arg_workers a;
     arg_redact := arg_redact a |}.

(** Arguments and an analysis for the examples. *)
Definition sample_args : args :=
  {| arg_browser := "Vivaldi";
     arg_top := Some 2%Z;
     arg_bottom := None;
     arg_pattern_file_path := Some "rules.txt";
     arg_no_patterns := true;
     arg_temp_path := None;
     arg_quiet := false;
     arg_verbose := false;
     arg_workers := None;
     arg_redact := true |}.

Definition sample_items : list (string * nat) :=
  [("b.org", 1); ("mail.example.com", 3); ("c.net", 2)].

Definition sample_result : result :=
  {| domains := {["b.org"; "mail.example.com"; "c.net"]};
     counts := {["b.org" := 1; "mail.example.com" := 3; "c.net" := 2]};
     removed := 4 |}.

Definition sample_analyze (browser_name : string) (temp_path : option string)
    (top : Z) (pattern_file_path : option string) (max_workers : option Z)
    : list string * (string + analysis) :=
  ([], inr (analysis_results ("May 1st, 2024", "May 22nd, 2024", 21%Z)
              sample_result sample_items top)).

(** A text with its commas taken out. *)
Fixpoint remove_commas (s : string) : string :=
  match s with
  | EmptyString => EmptyString
  | String a s' =>
      if Ascii.eqb a "," then remove_commas s' else String a (remove_commas s')
  end.

(** A decimal digit. *)
Definition is_digit (c : ascii) : bool := PyStr.between 48 57 c.

(** [name] is [word], a word of lowercase ASCII letters, with any of its
    letters in upper case. *)
Fixpoint spells (name word : string) : bool :=
  match name, word with
  | EmptyString, EmptyString => true
  | String c name', String l word' =>
      (Ascii.eqb c l || (PyStr.code c + 32 =? PyStr.code l)%N)
      && spells name' word'
  | _, _ => false
  end.

(** * Proofs *)

(** ** Strings *)

Section StringFacts.

Import PyStr.

Lemma contains_cons c a s :
  contains c (String a s) = Ascii.eqb c a || contains c s.
Proof. reflexivity. Qed.

Lemma after_last_shorter c s :
  contains c s = true -> String.length (after_last c s) < String.length s.
Proof.
  induction s as [|a s IH]; simpl; [discriminate|].
  rewrite contains_cons.
  destruct (contains c s) eqn:Hs.
  - intros _. specialize (IH eq_refl). lia.
  - rewrite orb_false_r. intros ->. lia.
Qed.

Lemma rfind_from_spec c s i found :
  rfind_from c s i found =
    if contains c s
    then (i + Z.of_nat (String.length s - S (String.length (after_last c s))))%Z
    else found.
Proof.
  revert i found. induction s as [|a s IH]; intros i found; simpl; [done|].
  rewrite IH, contains_cons, (Ascii.eqb_sym a c).
  destruct (contains c s) eqn:Hs.
  - rewrite orb_true_r. pose proof (after_last_shorter c s Hs). lia.
  - rewrite orb_false_r. destruct (Ascii.eqb c a); [|done].
    replace (S (String.length s) - S (String.length s)) with 0 by lia. lia.
Qed.

Lemma rfind_absent c s : contains c s = false -> rfind c s = (-1)%Z.
Proof. intros H. unfold rfind. by rewrite rfind_from_spec, H. Qed.

Lemma rfind_present c s :
  contains c s = true ->
  rfind c s = Z.of_nat (String.length s - S (String.length (after_last c s))).
Proof. intros H. unfold rfind. rewrite rfind_from_spec, H. lia. Qed.

Lemma drop_after_last c s :
  contains c s = true ->
  drop (String.length s - String.length (after_last c s)) s = after_last c s.
Proof.
  induction s as [|a s IH]; simpl; [discriminate|].
  rewrite contains_cons. destruct (contains c s) eqn:Hs.
  - intros _. pose proof (after_last_shorter c s Hs).
    replace (S (String.length s) - String.length (after_last c s))
      with (S (String.length s - String.length (after_last c s))) by lia.
    simpl. by apply IH.
  - rewrite orb_false_r. intros ->.
    replace (S (String.length s) - String.length s) with 1 by lia. done.
Qed.

(** The slice the code takes after the last dot is [after_last]. *)
Lemma slice_after_rfind c s :
  contains c s = true -> slice_from s (rfind c s + 1) = after_last c s.
Proof.
  intros H. unfold slice_from, slice_start. rewrite (rfind_present c s H).
  pose proof (after_last_shorter c s H).
  destruct (Z.ltb_spec (Z.of_nat (String.length s - S (String.length (after_last c s))) + 1) 0);
    [lia|].
  etransitivity; [|exact (drop_after_last c s H)].
  f_equal. lia.
Qed.

Lemma all_false_iff p s :
  all p s = false <-> exists c, contains c s = true /\ p c = false.
Proof.
  induction s as [|a s IH]; simpl.
  - split; [discriminate | intros (c & H & _); discriminate].
  - rewrite andb_false_iff, IH. split.
    + intros [H | (c & Hc & Hp)].
      * exists a. rewrite contains_cons, Ascii.eqb_refl. done.
      * exists c. rewrite contains_cons, Hc, orb_true_r. done.
    + intros (c & Hc & Hp). rewrite contains_cons in Hc.
      apply orb_true_iff in Hc as [Heq | Hc].
      * apply Ascii.eqb_eq in Heq as ->. by left.
      * right. eauto.
Qed.

Lemma any_true_iff p s :
  any p s = true <-> exists c, contains c s = true /\ p c = true.
Proof.
  induction s as [|a s IH]; simpl.
  - split; [discriminate | intros (c & H & _); discriminate].
  - rewrite orb_true_iff, IH. split.
    + intros [H | (c & Hc & Hp)].
      * exists a. rewrite contains_cons, Ascii.eqb_refl. done.
      * exists c. rewrite contains_cons, Hc, orb_true_r. done.
    + intros (c & Hc & Hp). rewrite contains_cons in Hc.
      apply orb_true_iff in Hc as [Heq | Hc].
      * apply Ascii.eqb_eq in Heq as ->. by left.
      * right. eauto.
Qed.

Lemma islower_loop_spec cased s :
  islower_loop cased s = negb (any char_isupper s) && (cased || any char_islower s).
Proof.
  revert cased. induction s as [|a s IH]; intros cased; simpl.
  - by rewrite orb_false_r.
  - unfold char_istitle. rewrite orb_false_r.
    destruct (char_isupper a); simpl; [done|].
    rewrite IH. by rewrite orb_assoc.
Qed.

(** Below code point 256 a letter that is not uppercase is lowercase. *)
Lemma alpha_not_upper_lower c :
  char_isalpha c = true -> char_isupper c = false -> char_islower c = true.
Proof. destruct c as [[] [] [] [] [] [] [] []]; vm_compute; congruence. Qed.

Lemma all_alpha_any_lower s :
  falsy s = false -> all char_isalpha s = true -> any char_isupper s = false ->
  any char_islower s = true.
Proof.
  destruct s as [|a s]; simpl; [discriminate|].
  intros _ [Ha _]%andb_true_iff [Hu _]%orb_false_iff.
  by rewrite (alpha_not_upper_lower a Ha Hu).
Qed.

(** [t.islower() and t.isalpha()] fails exactly on the empty string, on a
    character that is no letter and on an uppercase letter. *)
Lemma falsy_true s : falsy s = true <-> s = EmptyString.
Proof. destruct s; simpl; split; congruence. Qed.

Lemma lower_alpha_false_iff t :
  islower t && isalpha t = false <->
    t = EmptyString
    \/ (exists c, contains c t = true /\ char_isalpha c = false)
    \/ (exists c, contains c t = true /\ char_isupper c = true).
Proof.
  rewrite <- all_false_iff, <- any_true_iff.
  unfold islower, isalpha. rewrite islower_loop_spec, orb_false_l.
  destruct (falsy t) eqn:Hf; simpl negb.
  { rewrite andb_false_l, andb_false_r. apply falsy_true in Hf. tauto. }
  assert (Hne : t <> EmptyString) by (intros ->; discriminate).
  rewrite andb_true_l.
  destruct (all char_isalpha t) eqn:Halpha; [|rewrite andb_false_r; split; auto].
  destruct (any char_isupper t) eqn:Hupper; [split; auto|].
  rewrite (all_alpha_any_lower t Hf Halpha Hupper).
  split; [discriminate|]. intros [? | [? | ?]]; done.
Qed.

End StringFacts.

(** ** TLDValidator *)

(** On strings of code points below 256 [has_valid_tld d] is [False]
    exactly when [d] is empty, or is shorter than 3 characters, or has no
    dot, or the text after its last dot is empty, or is shorter than 2
    characters, or holds a character that is not alphabetic, or holds an
    uppercase character: below 256 there is no titlecase letter, and a
    letter that is not uppercase is lowercase.  [example.com] is valid;
    [example.c1], [EXAMPLE.COM] and [noTLD] are not. *)
Lemma has_valid_tld_latin1 :
  (forall d : string,
     has_valid_tld (Some d) = false <->
       d = EmptyString
       \/ String.length d < 3
       \/ PyStr.contains "." d = false
       \/ after_last "." d = EmptyString
       \/ String.length (after_last "." d) < 2
       \/ (exists c, PyStr.contains c (after_last "." d) = true
                     /\ PyStr.char_isalpha c = false)
       \/ (exists c, PyStr.contains c (after_last "." d) = true
                     /\ PyStr.char_isupper c = true))
  /\ has_valid_tld (Some "example.com") = true
  /\ has_valid_tld (Some "example.c1") = false
  /\ has_valid_tld (Some "EXAMPLE.COM") = false
  /\ has_valid_tld (Some "noTLD") = false.
Proof.
  split; [|done].
  intros d. unfold has_valid_tld.
  destruct (PyStr.falsy d) eqn:Hempty.
  { apply falsy_true in Hempty. tauto. }
  assert (Hne : d <> EmptyString) by (intros ->; discriminate).
  destruct (Nat.ltb_spec (String.length d) 3) as [Hlen | Hlen]; cbn [orb negb].
  { split; auto. }
  destruct (PyStr.contains "." d) eqn:Hdot; cbn [orb negb].
  2: { split; auto. }
  rewrite (slice_after_rfind "." d Hdot), (rfind_present "." d Hdot).
  pose proof (after_last_shorter "." d Hdot) as Hshort.
  set (tld := after_last "." d) in *.
  destruct (Z.eqb_spec (Z.of_nat (String.length d - S (String.length tld))) (-1));
    [lia|].
  cbn [orb].
  destruct (Z.eqb_spec (Z.of_nat (String.length d - S (String.length tld)))
              (Z.of_nat (String.length d) - 1)) as [Hlast | Hlast].
  { split; [intros _ | done].
    do 3 right. left. destruct tld; [done | simpl in *; lia]. }
  assert (Htld : tld <> EmptyString) by (intros E; rewrite E in *; simpl in *; lia).
  rewrite <- andb_assoc, andb_false_iff, lower_alpha_false_iff.
  destruct (Nat.leb_spec 2 (String.length tld)) as [H2 | H2].
  - split.
    + intros [? | [? | [? | ?]]]; try done; auto 10.
    + intros [? | [? | [? | [? | [? | [? | ?]]]]]]; try done; try lia; auto.
  - split; [intros _; auto 10 | auto].
Qed.

(** *** All code points *)

Section UnicodeFacts.

Import Unicode.

Lemma contains_point c a s :
  contains c (a :: s) = N.eqb c a || contains c s.
Proof. reflexivity. Qed.

Lemma contains_elem_of c s : contains c s = true <-> c ∈ s.
Proof.
  induction s as [|a s IH]; [by rewrite elem_of_nil|].
  rewrite contains_point, orb_true_iff, N.eqb_eq, IH, elem_of_cons. done.
Qed.

Lemma after_last_point_shorter c s :
  contains c s = true -> length (after_last_point c s) < length s.
Proof.
  induction s as [|a s IH]; [discriminate|].
  rewrite contains_point. cbn [after_last_point length].
  destruct (contains c s) eqn:Hs.
  - intros _. specialize (IH eq_refl). lia.
  - rewrite orb_false_r. intros ->. lia.
Qed.

Lemma rfind_from_point c s i found :
  rfind_from c s i found =
    if contains c s
    then (i + Z.of_nat (length s - S (length (after_last_point c s))))%Z
    else found.
Proof.
  revert i found. induction s as [|a s IH]; intros i found; [done|].
  cbn [rfind_from after_last_point length].
  rewrite IH, contains_point, (N.eqb_sym a c).
  destruct (contains c s) eqn:Hs.
  - rewrite orb_true_r. pose proof (after_last_point_shorter c s Hs). lia.
  - rewrite orb_false_r. destruct (N.eqb c a); [|done].
    replace (S (length s) - S (length s)) with 0 by lia. lia.
Qed.

Lemma rfind_point c s :
  contains c s = true ->
  rfind c s = Z.of_nat (length s - S (length (after_last_point c s))).
Proof. intros H. unfold rfind. rewrite rfind_from_point, H. lia. Qed.

Lemma skipn_after_last_point c s :
  contains c s = true ->
  skipn (length s - length (after_last_point c s)) s = after_last_point c s.
Proof.
  induction s as [|a s IH]; [discriminate|].
  rewrite contains_point. cbn [after_last_point length].
  destruct (contains c s) eqn:Hs.
  - intros _. pose proof (after_last_point_shorter c s Hs).
    replace (S (length s) - length (after_last_point c s))
      with (S (length s - length (after_last_point c s))) by lia.
    by apply IH.
  - rewrite orb_false_r. intros ->.
    by replace (S (length s) - length s) with 1 by lia.
Qed.

(** The slice the code takes after the last dot is [after_last_point]. *)
Lemma slice_after_rfind_point c s :
  contains c s = true -> slice_from s (rfind c s + 1) = after_last_point c s.
Proof.
  intros H. unfold slice_from, PyStr.slice_start. rewrite (rfind_point c s H).
  pose proof (after_last_point_shorter c s H).
  destruct (Z.ltb_spec
              (Z.of_nat (length s - S (length (after_last_point c s))) + 1) 0);
    [lia|].
  etransitivity; [|exact (skipn_after_last_point c s H)].
  f_equal. lia.
Qed.

(** [s.islower()]: no uppercase and no titlecase character, and some
    lowercase one. *)
Lemma islower_loop_point cased s :
  islower_loop cased s =
    negb (existsb char_isupper s) && negb (existsb char_istitle s)
    && (cased || existsb char_islower s).
Proof.
  revert cased. induction s as [|a s IH]; intros cased.
  - simpl. by rewrite orb_false_r.
  - cbn [islower_loop existsb]. rewrite IH.
    destruct (char_isupper a), (char_istitle a); cbn [orb negb andb]; try done.
    + by rewrite andb_false_r.
    + by rewrite orb_assoc.
Qed.

Lemma existsb_true_point (p : N -> bool) t :
  existsb p t = true <-> exists c, c ∈ t /\ p c = true.
Proof.
  rewrite existsb_exists. split; intros (c & Hc & Hp); exists c;
    (split; [|done]); by apply list_elem_of_In.
Qed.

Lemma existsb_false_point (p : N -> bool) t :
  existsb p t = false <-> forall c, c ∈ t -> p c = false.
Proof.
  rewrite <- not_true_iff_false, existsb_true_point. split.
  - intros Hnot c Hc. destruct (p c) eqn:E; [|done]. destruct Hnot. eauto.
  - intros Hno (c & Hc & Hp). rewrite (Hno c Hc) in Hp. done.
Qed.

Lemma forallb_false_point (p : N -> bool) t :
  forallb p t = false <-> exists c, c ∈ t /\ p c = false.
Proof.
  induction t as [|a t IH]; cbn [forallb].
  - split; [done | intros (c & Hc & _); by apply elem_of_nil in Hc].
  - rewrite andb_false_iff, IH. split.
    + intros [Ha | (c & Hc & Hp)]; [exists a | exists c];
        (split; [|done]); [left | by right].
    + intros (c & Hc & Hp). apply elem_of_cons in Hc as [-> | Hc];
        [by left | right; eauto].
Qed.

(** [t.islower() and t.isalpha()] fails exactly on the empty string, on a
    character that is no letter, on an uppercase or titlecase letter, and
    on a text that holds no lowercase character. *)
Lemma lower_alpha_point t :
  islower t && isalpha t = false <->
    t = []
    \/ (exists c, c ∈ t /\ char_isalpha c = false)
    \/ (exists c, c ∈ t /\ char_isupper c = true)
    \/ (exists c, c ∈ t /\ char_istitle c = true)
    \/ (forall c, c ∈ t -> char_islower c = false).
Proof.
  unfold islower, isalpha. rewrite islower_loop_point, orb_false_l.
  rewrite !andb_false_iff, !negb_false_iff.
  rewrite !existsb_true_point, forallb_false_point, existsb_false_point.
  destruct t as [|a t]; cbn [falsy negb].
  - split; [by left | intros _; right; by left].
  - split.
    + intros [[[? | ?] | ?] | [? | ?]]; auto 10. done.
    + intros [? | [? | [? | [? | ?]]]]; auto 10. done.
Qed.

Lemma length_of_string s : length (of_string s) = String.length s.
Proof. induction s as [|a s IH]; [done|]. simpl. by rewrite IH. Qed.

Lemma code_eqb a b : N.eqb (PyStr.code a) (PyStr.code b) = Ascii.eqb a b.
Proof.
  unfold PyStr.code. destruct (Ascii.eqb_spec a b) as [-> | Hne].
  - apply N.eqb_refl.
  - apply N.eqb_neq. intros E. apply Hne.
    by rewrite <- (ascii_N_embedding a), <- (ascii_N_embedding b), E.
Qed.

(** The tables for the code points below 256 are those of [PyStr]. *)
Lemma tables_below_256 a :
  char_isalpha (PyStr.code a) = PyStr.char_isalpha a
  /\ char_isupper (PyStr.code a) = PyStr.char_isupper a
  /\ char_islower (PyStr.code a) = PyStr.char_islower a
  /\ char_istitle (PyStr.code a) = PyStr.char_istitle a.
Proof. destruct a as [[] [] [] [] [] [] [] []]; by vm_compute. Qed.

Lemma contains_of_string c s :
  contains (PyStr.code c) (of_string s) = PyStr.contains c s.
Proof.
  induction s as [|a s IH]; [done|].
  cbn [of_string]. rewrite contains_point, contains_cons, IH. f_equal.
  apply code_eqb.
Qed.

Lemma rfind_from_of_string c s i found :
  rfind_from (PyStr.code c) (of_string s) i found = PyStr.rfind_from c s i found.
Proof.
  revert i found. induction s as [|a s IH]; intros i found; [done|].
  cbn [of_string rfind_from PyStr.rfind_from]. by rewrite IH, code_eqb.
Qed.

Lemma skipn_of_string n s : skipn n (of_string s) = of_string (PyStr.drop n s).
Proof.
  revert s. induction n as [|n IH]; intros [|a s]; try done. apply IH.
Qed.

Lemma islower_loop_of_string cased s :
  islower_loop cased (of_string s) = PyStr.islower_loop cased s.
Proof.
  revert cased. induction s as [|a s IH]; intros cased; [done|].
  cbn [of_string islower_loop PyStr.islower_loop].
  destruct (tables_below_256 a) as (_ & -> & -> & ->). by rewrite IH.
Qed.

Lemma isalpha_of_string s : isalpha (of_string s) = PyStr.isalpha s.
Proof.
  unfold isalpha, PyStr.isalpha. f_equal; [by destruct s|].
  induction s as [|a s IH]; [done|].
  cbn [of_string forallb PyStr.all].
  destruct (tables_below_256 a) as (-> & _). by rewrite IH.
Qed.

End UnicodeFacts.

(** On a string of code points below 256 the check is the check of
    [has_valid_tld] above. *)
Lemma has_valid_tld_of_string s :
  Unicode.has_valid_tld (Some (Unicode.of_string s)) = has_valid_tld (Some s).
Proof.
  unfold Unicode.has_valid_tld, has_valid_tld, Unicode.rfind, PyStr.rfind,
    Unicode.slice_from, PyStr.slice_from, Unicode.islower, PyStr.islower.
  change Unicode.dot with (PyStr.code ".").
  rewrite length_of_string, contains_of_string, rfind_from_of_string,
    skipn_of_string, length_of_string, islower_loop_of_string,
    isalpha_of_string.
  by destruct s.
Qed.

(** C5, as stated, fails: [a.中国] is not empty, has four characters and a
    dot, and the text after its last dot has two characters, both
    alphabetic and neither uppercase; yet [has_valid_tld] is [False],
    because [islower] wants a lowercase character and these letters have
    no case.  The same holds of [a.ǅa], whose suffix has a lowercase
    letter: [islower] refuses the titlecase letter before it. *)
Lemma has_valid_tld_caseless :
  (Unicode.has_valid_tld (Some caseless_domain) = false
   /\ caseless_domain <> []
   /\ ~ length caseless_domain < 3
   /\ Unicode.contains Unicode.dot caseless_domain = true
   /\ after_last_point Unicode.dot caseless_domain = [20013; 22269]%N
   /\ ~ length (after_last_point Unicode.dot caseless_domain) < 2
   /\ forallb Unicode.char_isalpha
        (after_last_point Unicode.dot caseless_domain) = true
   /\ existsb Unicode.char_isupper
        (after_last_point Unicode.dot caseless_domain) = false)
  /\ (Unicode.has_valid_tld (Some titlecase_domain) = false
      /\ titlecase_domain <> []
      /\ ~ length titlecase_domain < 3
      /\ Unicode.contains Unicode.dot titlecase_domain = true
      /\ after_last_point Unicode.dot titlecase_domain = [453; 97]%N
      /\ ~ length (after_last_point Unicode.dot titlecase_domain) < 2
      /\ forallb Unicode.char_isalpha
           (after_last_point Unicode.dot titlecase_domain) = true
      /\ existsb Unicode.char_isupper
           (after_last_point Unicode.dot titlecase_domain) = false
      /\ existsb Unicode.char_islower
           (after_last_point Unicode.dot titlecase_domain) = true).
Proof.
  split.
  - split; [by vm_compute|]. split; [done|]. split; [simpl; lia|].
    split; [by vm_compute|]. split; [by vm_compute|]. split; [simpl; lia|].
    split; by vm_compute.
  - split; [by vm_compute|]. split; [done|]. split; [simpl; lia|].
    split; [by vm_compute|]. split; [by vm_compute|]. split; [simpl; lia|].
    split; [by vm_compute|]. split; by vm_compute.
Qed.

(** C5, amended.  For every string [d] of code points, [has_valid_tld d] is
    [False] exactly when [d] is empty, or is shorter than 3 characters, or
    has no dot, or the text after its last dot is empty, or is shorter than
    2 characters, or holds a character that is not alphabetic, or holds an
    uppercase or a titlecase character, or holds no lowercase character;
    otherwise it is [True].  [example.com] is valid; [example.c1],
    [EXAMPLE.COM] and [noTLD] are not.  On the strings of code points
    below 256 the check is the one the other theorems use. *)
Theorem has_valid_tld_unicode :
  (forall d : Unicode.str,
     Unicode.has_valid_tld (Some d) = false <->
       d = []
       \/ length d < 3
       \/ Unicode.contains Unicode.dot d = false
       \/ after_last_point Unicode.dot d = []
       \/ length (after_last_point Unicode.dot d) < 2
       \/ (exists c, c ∈ after_last_point Unicode.dot d
                     /\ Unicode.char_isalpha c = false)
       \/ (exists c, c ∈ after_last_point Unicode.dot d
                     /\ Unicode.char_isupper c = true)
       \/ (exists c, c ∈ after_last_point Unicode.dot d
                     /\ Unicode.char_istitle c = true)
       \/ (forall c, c ∈ after_last_point Unicode.dot d ->
                     Unicode.char_islower c = false))
  /\ Unicode.has_valid_tld (Some (Unicode.of_string "example.com")) = true
  /\ Unicode.has_valid_tld (Some (Unicode.of_string "example.c1")) = false
  /\ Unicode.has_valid_tld (Some (Unicode.of_string "EXAMPLE.COM")) = false
  /\ Unicode.has_valid_tld (Some (Unicode.of_string "noTLD")) = false
  /\ (forall s : string,
        Unicode.has_valid_tld (Some (Unicode.of_string s)) =
          has_valid_tld (Some s)).
Proof.
  split; [|split; [by vm_compute|split; [by vm_compute|split; [by vm_compute|
           split; [by vm_compute | apply has_valid_tld_of_string]]]]].
  intros d. unfold Unicode.has_valid_tld.
  destruct d as [|a d'] eqn:Ed; [split; [by left | done]|].
  rewrite <- Ed. cbn [Unicode.falsy].
  assert (Hne : d <> []) by (by rewrite Ed).
  replace (Unicode.falsy d) with false by (by rewrite Ed).
  clear Ed a d'.
  destruct (Nat.ltb_spec (length d) 3) as [Hlen | Hlen]; cbn [orb negb].
  { split; auto. }
  destruct (Unicode.contains Unicode.dot d) eqn:Hdot; cbn [orb negb].
  2: { split; auto. }
  rewrite (slice_after_rfind_point Unicode.dot d Hdot),
          (rfind_point Unicode.dot d Hdot).
  pose proof (after_last_point_shorter Unicode.dot d Hdot) as Hshort.
  set (tld := after_last_point Unicode.dot d) in *.
  destruct (Z.eqb_spec (Z.of_nat (length d - S (length tld))) (-1)); [lia|].
  cbn [orb].
  destruct (Z.eqb_spec (Z.of_nat (length d - S (length tld)))
              (Z.of_nat (length d) - 1)) as [Hlast | Hlast].
  { split; [intros _ | done].
    do 3 right. left. destruct tld; [done | simpl in *; lia]. }
  assert (Htld : tld <> []) by (intros E; rewrite E in *; simpl in *; lia).
  rewrite <- andb_assoc, andb_false_iff, lower_alpha_point.
  destruct (Nat.leb_spec 2 (length tld)) as [H2 | H2].
  - split.
    + intros [? | [? | [? | [? | [? | ?]]]]]; try done; auto 15.
    + intros [? | [? | [? | [? | [? | [? | [? | [? | ?]]]]]]]];
        try done; try lia; auto 10.
  - split; [intros _; auto 10 | auto].
Qed.

(** ** DomainNormalizer *)

Section Labels.

Import PyStr.

Lemma append_cons a s t : String a s +:+ t = String a (s +:+ t).
Proof. reflexivity. Qed.

Lemma split_nonempty sep s : split sep s <> [].
Proof.
  destruct s as [|a s]; simpl; [done|].
  destruct (Ascii.eqb a sep); [done|]. by destruct (split sep s).
Qed.

Lemma dot_free_cons a s :
  dot_free (String a s) = true -> Ascii.eqb a "." = false /\ dot_free s = true.
Proof.
  unfold dot_free. rewrite contains_cons, negb_orb, andb_true_iff.
  rewrite (Ascii.eqb_sym "."%char a). intros [Ha Hs].
  split; [by destruct (Ascii.eqb a ".") | done].
Qed.

Lemma split_dot_free label :
  dot_free label = true -> split "." label = [label].
Proof.
  induction label as [|a s IH]; [done|].
  intros [Ha Hs]%dot_free_cons. simpl. by rewrite Ha, (IH Hs).
Qed.

Lemma split_label_dot label s :
  dot_free label = true ->
  split "." (label +:+ String "." s) = label :: split "." s.
Proof.
  induction label as [|a l IH]; [done|].
  intros [Ha Hs]%dot_free_cons.
  rewrite append_cons. simpl. by rewrite Ha, (IH Hs).
Qed.

Lemma count_dot_free label : dot_free label = true -> count "." label = 0.
Proof.
  induction label as [|a s IH]; [done|].
  intros [Ha Hs]%dot_free_cons. simpl. by rewrite Ha, (IH Hs).
Qed.

Lemma count_label_dot label s :
  dot_free label = true ->
  count "." (label +:+ String "." s) = S (count "." s).
Proof.
  induction label as [|a l IH]; [done|].
  intros [Ha Hs]%dot_free_cons.
  rewrite append_cons. simpl. by rewrite Ha, (IH Hs).
Qed.

(** Splitting a domain written as dot-joined labels gives the labels back. *)
Lemma split_join labels :
  labels <> [] -> Forall (fun l => dot_free l = true) labels ->
  split "." (join "." labels) = labels.
Proof.
  induction labels as [|l [|l' rest] IH]; [done | |]; intros _ Hall.
  - apply split_dot_free. by inversion Hall.
  - inversion Hall as [|? ? Hl Hrest]; subst.
    change (join "." (l :: l' :: rest))
      with (l +:+ String "." (join "." (l' :: rest))).
    rewrite (split_label_dot _ _ Hl). f_equal. by apply IH.
Qed.

(** A domain of [n] labels has [n - 1] dots. *)
Lemma count_join labels :
  Forall (fun l => dot_free l = true) labels ->
  count "." (join "." labels) = length labels - 1.
Proof.
  induction labels as [|l [|l' rest] IH]; [done | |]; intros Hall.
  - simpl. apply count_dot_free. by inversion Hall.
  - inversion Hall as [|? ? Hl Hrest]; subst.
    change (join "." (l :: l' :: rest))
      with (l +:+ String "." (join "." (l' :: rest))).
    rewrite (count_label_dot _ _ Hl), (IH Hrest). simpl. lia.
Qed.

(** Every string is the dot-join of its labels. *)
Lemma join_split d : join "." (split "." d) = d.
Proof.
  induction d as [|a d IH]; [done|]. simpl.
  destruct (Ascii.eqb_spec a "."%char) as [-> | Hne].
  - pose proof (split_nonempty "." d) as Hs.
    destruct (split "." d) as [|p ps] eqn:E; [done|].
    change (join "." (EmptyString :: p :: ps)) with (String "." (join "." (p :: ps))).
    by rewrite IH.
  - pose proof (split_nonempty "." d) as Hs.
    destruct (split "." d) as [|p ps] eqn:E; [done|].
    destruct ps as [|p' ps]; simpl in *; [by rewrite IH|].
    rewrite append_cons. by rewrite IH.
Qed.

Lemma split_all_dot_free d : Forall (fun l => dot_free l = true) (split "." d).
Proof.
  induction d as [|a d IH]; simpl; [by repeat constructor|].
  destruct (Ascii.eqb_spec a "."%char) as [-> | Hne].
  - by constructor.
  - pose proof (split_nonempty "." d) as Hs.
    destruct (split "." d) as [|p ps]; [done|].
    inversion IH as [|? ? Hp Hps]; subst. constructor; [|done].
    unfold dot_free in *. rewrite contains_cons, negb_orb, Hp, andb_true_r.
    destruct (Ascii.eqb_spec "."%char a); [congruence | done].
Qed.

Lemma list_slice_last_three {A} (xs : list A) :
  list_slice_from xs (-3) = skipn (length xs - 3) xs.
Proof.
  unfold list_slice_from, slice_start. change (-3 <? 0)%Z with true.
  cbn iota. f_equal. lia.
Qed.

End Labels.



Lemma length_split d : length (PyStr.split "." d) = S (PyStr.count "." d).
Proof.
  pose proof (count_join (PyStr.split "." d) (split_all_dot_free d)) as H.
  rewrite join_split in H.
  pose proof (split_nonempty "." d).
  destruct (PyStr.split "." d); [done | simpl in *; lia].
Qed.

(** What the structural step keeps has at most two dots. *)
Lemma truncated_dots d :
  PyStr.count "." (PyStr.join "." (list_slice_from (PyStr.split "." d) (-3))) <= 2.
Proof.
  rewrite list_slice_last_three, count_join.
  - rewrite length_skipn. lia.
  - apply Forall_drop, split_all_dot_free.
Qed.

Lemma settled_fixed d R : settled d R -> normalize_domain (Some d) R = Some d.
Proof.
  intros [Hdots Hrules]. unfold normalize_domain.
  destruct (PyStr.falsy d); [done|].
  destruct (Nat.leb_spec (PyStr.count "." d) 2); [|lia].
  by destruct R.
Qed.

(** *** Suffix rules *)

Section SuffixRules.

Import Re.

(** A repetition hands its continuation a cursor with the captures it got. *)
Lemma star_loop_caps step fuel c k r :
  (forall c k r, step c k = Some r ->
                 exists c', caps c' = caps c /\ k c' = Some r) ->
  star_loop step fuel c k = Some r ->
  exists c', caps c' = caps c /\ k c' = Some r.
Proof.
  intros Hstep. revert c. induction fuel as [|fuel IH]; intros c; simpl.
  - intros Hk. by exists c.
  - destruct (step c _) as [x|] eqn:Hx.
    + intros [= ->]. apply Hstep in Hx as (c1 & Hcaps & Hk).
      destruct (_ <? _); [|done].
      apply IH in Hk as (c2 & Hcaps2 & Hk). exists c2. split; congruence.
    + intros Hk. by exists c.
Qed.

Lemma run_any_caps c k r :
  run AnyChar c k = Some r -> exists c', caps c' = caps c /\ k c' = Some r.
Proof.
  simpl. destruct (rest c) as [|b s]; [done|].
  destruct (Ascii.eqb b newline); [done|].
  intros Hk. by exists (advance c s).
Qed.

Lemma run_plus_any_caps c k r :
  run (Plus AnyChar) c k = Some r ->
  exists c', caps c' = caps c /\ k c' = Some r.
Proof.
  intros H. change (run (Plus AnyChar) c k) with
    (run AnyChar c (fun c' =>
       star_loop (run AnyChar) (String.length (rest c')) c' k)) in H.
  apply run_any_caps in H as (c1 & Hcaps1 & H).
  apply (star_loop_caps _ _ _ _ _ run_any_caps) in H as (c2 & Hcaps2 & H).
  exists c2. split; congruence.
Qed.

(** A literal consumes exactly its text. *)
Lemma run_literal l c k r :
  run (literal l) c k = Some r ->
  exists c', rest c = l +:+ rest c' /\ caps c' = caps c /\ k c' = Some r.
Proof.
  revert c. induction l as [|a l IH]; intros c; simpl.
  - intros Hk. by exists c.
  - destruct (rest c) as [|b s] eqn:Hrest; [done|].
    destruct (Ascii.eqb_spec a b) as [<- | _]; [|done].
    intros H. apply IH in H as (c' & Hs & Hcaps & Hk).
    exists c'. simpl in Hs. rewrite Hs. done.
Qed.

Lemma take_append l s :
  PyStr.take (String.length (l +:+ s) - String.length s) (l +:+ s) = l.
Proof.
  induction l as [|a l IH].
  - change (EmptyString +:+ s) with s. rewrite Nat.sub_diag. by destruct s.
  - change (String a l +:+ s) with (String a (l +:+ s)).
    assert (Hlen : String.length s <= String.length (l +:+ s)).
    { clear. induction l; simpl; [done | lia]. }
    simpl String.length.
    replace (S (String.length (l +:+ s)) - String.length s)
      with (S (String.length (l +:+ s) - String.length s)) by lia.
    simpl. by rewrite IH.
Qed.

(** A suffix rule that matches captures its suffix. *)
Lemma suffix_rule_groups l d m :
  match_ (suffix_rule l) d = Some m -> m_groups m = [Some l].
Proof.
  unfold match_.
  destruct (run (ast (suffix_rule l)) (start (suffix_rule l) d) Some)
    as [r|] eqn:Hrun; [|done].
  intros [= <-]. simpl. revert Hrun.
  unfold suffix_rule, start. simpl ast. simpl ngroups.
  change (run (Seq Bol ?x) ?c ?k) with (if at_start c then run x c k else None).
  cbn [at_start]. 
  change (run (Seq ?x ?y) ?c ?k) with (run x c (fun c' => run y c' k)).
  intros H. apply run_plus_any_caps in H as (c1 & Hcaps1 & H).
  simpl in Hcaps1.
  change (run (Seq ?x ?y) ?c ?k) with (run x c (fun c' => run y c' k)) in H.
  cbn [run] in H. destruct (rest c1) as [|b s]; [done|].
  destruct (Ascii.eqb "." b); [|done].
  apply run_literal in H as (c3 & Hrest & Hcaps3 & H).
  destruct (at_end _); [|done].
  injection H as <-. unfold capture, consumed. cbn [caps rest advance].
  cbn [caps rest advance] in Hrest, Hcaps3.
  rewrite Hcaps3, Hcaps1, Hrest, take_append. done.
Qed.

Lemma count_append c s t :
  PyStr.count c (s +:+ t) = PyStr.count c s + PyStr.count c t.
Proof.
  induction s as [|a s IH]; [done|].
  change (String a s +:+ t) with (String a (s +:+ t)). simpl. rewrite IH. lia.
Qed.

Lemma append_assoc (s t u : string) : (s +:+ t) +:+ u = s +:+ (t +:+ u).
Proof.
  induction s as [|a s IH]; [done|].
  change (String a s +:+ t) with (String a (s +:+ t)).
  change (String a (s +:+ t) +:+ u) with (String a ((s +:+ t) +:+ u)).
  by rewrite IH.
Qed.

Lemma reaches_here c k r : k c = Some r -> reaches 0 c k r.
Proof. intros Hk. exists c, EmptyString. split; [done|]. split; [simpl; lia | done]. Qed.

Lemma reaches_char b s c k r n :
  rest c = String b s -> n <= PyStr.count "." (String b EmptyString) ->
  k (advance c s) = Some r -> reaches n c k r.
Proof. intros Hrest Hn Hk. exists (advance c s), (String b EmptyString). by rewrite Hrest. Qed.

Lemma reaches_seq n1 n2 c (k1 : cont) k r :
  reaches n1 c k1 r ->
  (forall c1, k1 c1 = Some r -> reaches n2 c1 k r) ->
  reaches (n1 + n2) c k r.
Proof.
  intros (c1 & w1 & Hrest1 & Hn1 & Hk1) H2.
  destruct (H2 c1 Hk1) as (c2 & w2 & Hrest2 & Hn2 & Hk2).
  exists c2, (w1 +:+ w2). rewrite append_assoc, <- Hrest2, count_append.
  split; [done|]. split; [lia | done].
Qed.

Lemma reaches_weaken n m c k r : m <= n -> reaches n c k r -> reaches m c k r.
Proof.
  intros Hle (c' & w & Hrest & Hn & Hk). exists c', w.
  split; [done|]. split; [lia | done].
Qed.

Lemma star_loop_reaches step fuel c k r :
  (forall c k r, step c k = Some r -> reaches 0 c k r) ->
  star_loop step fuel c k = Some r -> reaches 0 c k r.
Proof.
  intros Hstep. revert c. induction fuel as [|fuel IH]; intros c; simpl.
  - apply reaches_here.
  - destruct (step c _) as [x|] eqn:Hx; [|apply reaches_here].
    intros [= ->]. apply Hstep in Hx.
    apply (reaches_seq 0 0 _ _ _ _ Hx). intros c1 Hc1.
    destruct (_ <? _); [|done]. by apply IH.
Qed.

(** A run that succeeds consumed at least [min_dots] dots. *)
Lemma run_reaches re c k r :
  run re c k = Some r -> reaches (min_dots re) c k r.
Proof.
  revert c k r. induction re as [| a | | negated ranges | | | r1 IH1 r2 IH2
                                 | r1 IH1 r2 IH2 | r' IH | r' IH | r' IH
                                 | index r' IH]; intros c k r; simpl.
  - apply reaches_here.
  - destruct (rest c) as [|b s] eqn:Hrest; [done|].
    destruct (Ascii.eqb_spec a b) as [<- | _]; [|done].
    intros Hk. apply (reaches_char a s); [done | simpl; lia | done].
  - destruct (rest c) as [|b s] eqn:Hrest; [done|].
    destruct (Ascii.eqb b newline); [done|].
    intros Hk. apply (reaches_char b s); [done | lia | done].
  - destruct (rest c) as [|b s] eqn:Hrest; [done|].
    destruct (xorb _ _); [|done].
    intros Hk. apply (reaches_char b s); [done | lia | done].
  - destruct (at_start c); [apply reaches_here | done].
  - destruct (at_end (rest c)); [apply reaches_here | done].
  - intros H. apply IH1 in H.
    apply (reaches_seq _ _ _ _ _ _ H). intros c1 Hc1. by apply IH2.
  - destruct (run r1 c k) as [x|] eqn:H1.
    + intros [= ->]. apply IH1 in H1. eapply reaches_weaken; [|exact H1]. lia.
    + intros H2. apply IH2 in H2. eapply reaches_weaken; [|exact H2]. lia.
  - apply star_loop_reaches. intros c0 k0 r0 H0.
    eapply reaches_weaken; [|by apply IH]. lia.
  - intros H. apply IH in H.
    rewrite <- (Nat.add_0_r (min_dots r')).
    apply (reaches_seq _ _ _ _ _ _ H). intros c1 Hc1.
    apply star_loop_reaches in Hc1; [done|]. intros c0 k0 r0 H0.
    eapply reaches_weaken; [|by apply IH]. lia.
  - destruct (run r' c k) as [x|] eqn:H1; [|apply reaches_here].
    intros [= ->]. apply IH in H1. eapply reaches_weaken; [|exact H1]. lia.
  - intros H. apply IH in H as (c' & w & Hrest & Hn & Hk).
    exists (capture index c c'), w. done.
Qed.

(** A rule that matches a domain finds its [min_dots] dots in it. *)
Lemma match_min_dots p d m :
  match_ p d = Some m -> min_dots (ast p) <= PyStr.count "." d.
Proof.
  unfold match_. destruct (run (ast p) (start p d) Some) as [r|] eqn:H; [|done].
  intros _. apply run_reaches in H as (c' & w & Hrest & Hn & _).
  simpl in Hrest. rewrite Hrest, count_append. lia.
Qed.

Lemma rule_step_result (rules : list Pattern) (compiled : list Re.compiled) d g :
  PyStr.count "." d <= 2 ->
  Forall (fun p => 2 < min_dots (ast p)
                   \/ exists l, p = suffix_rule l /\ settled l rules) compiled ->
  apply_pattern_normalization d (map to_pattern compiled) = Some g ->
  g = d \/ settled g rules.
Proof.
  intros Hdots. induction compiled as [|p ps IH]; simpl.
  - intros _ [= ->]. by left.
  - intros Hall. inversion Hall as [|? ? Hp Hps]; subst.
    destruct (match_ p d) as [m|] eqn:Hm; [|by apply IH].
    destruct Hp as [Hdeep | (l & -> & Hl)].
    + apply match_min_dots in Hm. lia.
    + rewrite (suffix_rule_groups l d m Hm). unfold group1.
      rewrite (suffix_rule_groups l d m Hm). intros [= <-]. by right.
Qed.

(** Rules each of which needs more than two dots, or is a suffix rule
    whose suffix the rules leave alone, only ever return settled domains. *)
Lemma rules_settling (compiled : list Re.compiled) :
  let rules := map to_pattern compiled in
  Forall (fun p => 2 < min_dots (ast p)
                   \/ exists l, p = suffix_rule l /\ settled l rules) compiled ->
  settling rules.
Proof.
  intros rules Hall d g Hdots Hg.
  destruct (rule_step_result rules compiled d g Hdots Hall Hg)
    as [-> | Hsettled]; [by split | done].
Qed.

(** One rule of a list: it needs three dots, or it is the suffix rule of
    the text in its group and that text is settled. *)
Ltac rule_settles :=
  first
    [ left; vm_compute; lia
    | lazymatch goal with
      | |- _ \/ (exists l, {| ast := Seq _ (Seq _ (Seq _ (Seq (Group _ ?g) _)));
                              ngroups := _ |} = _ /\ _) =>
          let l := eval vm_compute in (text_of g) in
          right; exists l; split;
          [reflexivity | split; [vm_compute; lia | vm_compute; reflexivity]]
      end ].

(** The built-in rules only ever return settled domains: the two rules
    for [s3] hosts need three dots, and the suffix of no other rule is
    rewritten by a rule. *)
Lemma builtin_rules_settling : settling (map to_pattern builtin_rules).
Proof.
  apply rules_settling. unfold builtin_rules.
  repeat (apply Forall_cons; split; [rule_settles|]).
  by apply Forall_nil.
Qed.

End SuffixRules.

(** C7, as stated, fails: [aab.com] is in canonical form for the one rule
    that drops a leading [a] (it is what [aaab.com] normalizes to, and has
    two labels), and normalizing it once more and twice more differ. *)
Lemma canonical_not_idempotent :
  Re.compile_ast "^a(.*)$" = inr strip_a_rule
  /\ canonical "aab.com" [Re.to_pattern strip_a_rule]
  /\ normalize_domain (Some "aab.com") [Re.to_pattern strip_a_rule]
     = Some "ab.com"
  /\ normalize_domain
       (normalize_domain (Some "aab.com") [Re.to_pattern strip_a_rule])
       [Re.to_pattern strip_a_rule]
     = Some "b.com".
Proof.
  split; [reflexivity|]. split; [|split; reflexivity].
  split; [vm_compute; lia | by exists "aaab.com"].
Qed.

(** C7, amended.  For a domain [d] of at most three labels on which the
    rule step of [R] returns [d] itself, [normalize(d, R) = d], and so
    [normalize(normalize(d, R), R) = normalize(d, R)].  If the rule step of
    [R] only ever returns such domains, the equation holds for every
    domain (and for [None]); the built-in rules, compiled by the fragment
    matcher, are such a list. *)
Theorem normalize_domain_idempotent :
  (forall (d : string) (R : list Pattern),
     settled d R ->
     normalize_domain (Some d) R = Some d
     /\ normalize_domain (normalize_domain (Some d) R) R
        = normalize_domain (Some d) R)
  /\ (forall R : list Pattern,
        settling R ->
        forall d : option string,
          normalize_domain (normalize_domain d R) R = normalize_domain d R)
  /\ (let builtin := compiled_of Re.compile (enumerate default_patterns 1) in
      settling builtin
      /\ forall d : option string,
           normalize_domain (normalize_domain d builtin) builtin
           = normalize_domain d builtin).
Proof.
  assert (Hsettling : forall R : list Pattern,
            settling R ->
            forall d : option string,
              normalize_domain (normalize_domain d R) R = normalize_domain d R).
  2: { split; [|split; [exact Hsettling|]].
       - intros d R Hd. pose proof (settled_fixed d R Hd) as Hfix.
         by rewrite Hfix, Hfix.
       - change (compiled_of Re.compile (enumerate default_patterns 1))
           with (map Re.to_pattern builtin_rules).
         split; [apply builtin_rules_settling|].
         apply Hsettling, builtin_rules_settling. }
  - intros R HR [d|]; [|done].
    destruct (PyStr.falsy d) eqn:Hempty.
    { unfold normalize_domain at 2 3. rewrite Hempty.
      unfold normalize_domain. by rewrite Hempty. }
    assert (Hstep : exists e, PyStr.count "." e <= 2
              /\ normalize_domain (Some d) R =
                   match R with
                   | _ :: _ => apply_pattern_normalization e R
                   | [] => Some e
                   end).
    { unfold normalize_domain. rewrite Hempty.
      destruct (Nat.leb_spec (PyStr.count "." d) 2).
      - by exists d.
      - eexists. split; [apply truncated_dots | done]. }
    destruct Hstep as (e & He & ->).
    destruct R as [|r R'].
    + apply settled_fixed. by split.
    + destruct (apply_pattern_normalization e (r :: R')) as [g|] eqn:Hg; [|done].
      apply settled_fixed. by apply (HR e g).
Qed.

(** [cloudfront.net] is settled for the cloudfront rule. *)
Lemma normalize_domain_idempotent_witness :
  normalize_domain
    (normalize_domain (Some "cloudfront.net") [Re.to_pattern cloudfront_rule])
    [Re.to_pattern cloudfront_rule]
  = normalize_domain (Some "cloudfront.net") [Re.to_pattern cloudfront_rule].
Proof.
  apply (proj1 normalize_domain_idempotent
           "cloudfront.net" [Re.to_pattern cloudfront_rule]).
  split; [vm_compute; lia | reflexivity].
Defined.

(** C4, as stated, fails: the rule [^.+\.(cdn\.com)] has no [$]; it
    matches the start of [a.cdn.community], not all of it, and the code
    returns its group, where a rule step anchored at both ends leaves the
    domain unchanged. *)
Lemma rule_step_not_anchored :
  Re.compile_ast "^.+\.(cdn\.com)" = inr open_ended_rule
  /\ Re.fullmatch open_ended_rule "a.cdn.community" = None
  /\ anchored_rule_step "a.cdn.community" [open_ended_rule]
     = Some "a.cdn.community"
  /\ apply_pattern_normalization "a.cdn.community" [Re.to_pattern open_ended_rule]
     = Some "cdn.com".
Proof. repeat split. Qed.

(** The group of the first match is returned also when it is empty. *)
Example rule_step_empty_capture :
  apply_pattern_normalization "b.com" [Re.to_pattern empty_capture_rule]
  = Some EmptyString.
Proof. reflexivity. Qed.

(** C4, amended.  [apply_pattern_normalization] returns [group(1)] of the
    first rule, in list order, whose [match] finds a match at the start of
    the domain and which has a capture group, and stops there; the match
    need not reach the end of the domain and the group may be empty or
    [None].  If no rule matches so, the domain is returned unchanged.  With
    the one rule [^.+\.(cloudfront\.net)$], normalizing
    [x.y.cloudfront.net] gives [cloudfront.net]. *)
Theorem apply_pattern_normalization_first_match :
  (forall (domain : string) (rules : list Pattern),
     (exists before rule after m,
        rules = before ++ rule :: after
        /\ Forall (fun q => group_match domain q = false) before
        /\ p_match rule domain = Some m
        /\ m_groups m <> []
        /\ apply_pattern_normalization domain rules = group1 m)
     \/ (Forall (fun q => group_match domain q = false) rules
         /\ apply_pattern_normalization domain rules = Some domain))
  /\ Re.compile_ast "^.+\.(cloudfront\.net)$" = inr cloudfront_rule
  /\ normalize_domain (Some "x.y.cloudfront.net") [Re.to_pattern cloudfront_rule]
     = Some "cloudfront.net".
Proof.
  split; [|by repeat split].
  intros domain rules. induction rules as [|rule rules IH].
  - right. by split.
  - destruct (group_match domain rule) eqn:Hrule.
    + left. unfold group_match in Hrule.
      destruct (p_match rule domain) as [m|] eqn:Hm; [|done].
      exists [], rule, rules, m.
      assert (Hg : m_groups m <> []).
      { intros E. rewrite E in Hrule. done. }
      repeat split; try done.
      simpl. rewrite Hm. by destruct (m_groups m).
    + assert (Hskip : apply_pattern_normalization domain (rule :: rules)
                      = apply_pattern_normalization domain rules).
      { unfold group_match in Hrule. simpl.
        destruct (p_match rule domain) as [m|]; [|done].
        destruct (m_groups m); [done|]. done. }
      destruct IH as [(before & r & after & m & -> & Hbefore & Hm & Hg & Hres)
                     | [Hall Hres]].
      * left. exists (rule :: before), r, after, m.
        repeat split; try done; [by constructor | congruence].
      * right. split; [by constructor | congruence].
Qed.

(** ** PatternStore *)

Section PatternStoreFacts.

Variable re_compile : string -> compile_result.




End PatternStoreFacts.







(** ** Counters and the merge *)


Lemma total_count_empty : total_count ∅ = 0.
Proof. apply map_fold_empty. Qed.

Lemma total_count_insert_fresh (m : gmap string nat) k n :
  m !! k = None -> total_count (<[k := n]> m) = n + total_count m.
Proof.
  intros Hk. unfold total_count.
  rewrite map_fold_insert_L; [done | intros; lia | done].
Qed.

(** Setting a key's count changes the total by the difference. *)
Lemma total_count_insert (m : gmap string nat) k n :
  total_count (<[k := n]> m) + count_of m k = total_count m + n.
Proof.
  unfold count_of. destruct (m !! k) as [c|] eqn:Hk; simpl.
  - rewrite <- (insert_delete_eq m k n).
    rewrite <- (insert_id m k c Hk) at 2.
    rewrite <- (insert_delete_eq m k c).
    rewrite !total_count_insert_fresh by apply lookup_delete_eq. lia.
  - rewrite total_count_insert_fresh by done. lia.
Qed.

Lemma counter_update_lookup (a b : gmap string nat) k :
  counter_update a b !! k =
    match a !! k, b !! k with
    | Some x, Some y => Some (x + y)
    | Some x, None => Some x
    | None, other => other
    end.
Proof.
  unfold counter_update. rewrite lookup_union_with.
  by destruct (a !! k), (b !! k).
Qed.

(** The counts of a merged counter are the sums of the counts. *)
Lemma count_of_counter_update (a b : gmap string nat) k :
  count_of (counter_update a b) k = count_of a k + count_of b k.
Proof.
  unfold count_of. rewrite counter_update_lookup.
  destruct (a !! k), (b !! k); simpl; lia.
Qed.

Lemma counter_update_comm (a b : gmap string nat) :
  counter_update a b = counter_update b a.
Proof.
  apply map_eq. intros k. rewrite !counter_update_lookup.
  destruct (a !! k), (b !! k); try done. f_equal. lia.
Qed.

Lemma counter_update_assoc (a b c : gmap string nat) :
  counter_update (counter_update a b) c = counter_update a (counter_update b c).
Proof.
  apply map_eq. intros k. rewrite !counter_update_lookup.
  destruct (a !! k), (b !! k), (c !! k); try done. f_equal. lia.
Qed.

Lemma counter_update_empty_r (a : gmap string nat) : counter_update a ∅ = a.
Proof.
  apply map_eq. intros k. rewrite counter_update_lookup, lookup_empty.
  by destruct (a !! k).
Qed.

Lemma counter_update_empty_l (a : gmap string nat) : counter_update ∅ a = a.
Proof. by rewrite counter_update_comm, counter_update_empty_r. Qed.

Lemma merge_comm a b : merge a b = merge b a.
Proof.
  unfold merge. f_equal; [apply (comm_L (∪)) | apply counter_update_comm | lia].
Qed.

Lemma merge_assoc a b c : merge (merge a b) c = merge a (merge b c).
Proof.
  unfold merge. simpl.
  f_equal; [by rewrite (assoc_L (∪)) | apply counter_update_assoc | lia].
Qed.

Lemma merge_empty_r a : merge a empty_result = a.
Proof.
  destruct a as [d c r]. unfold merge. simpl.
  f_equal; [apply (right_id_L ∅ (∪)) | apply counter_update_empty_r | lia].
Qed.

Lemma merge_empty_l a : merge empty_result a = a.
Proof. by rewrite merge_comm, merge_empty_r. Qed.

Lemma merge_reject a b : merge a (reject b) = reject (merge a b).
Proof. unfold merge, reject. simpl. f_equal. lia. Qed.

Lemma merge_accept a b n : merge a (accept b n) = accept (merge a b) n.
Proof.
  unfold merge, accept. simpl. f_equal.
  - by rewrite (assoc_L (∪)).
  - apply map_eq. intros k. rewrite counter_update_lookup.
    destruct (decide (k = n)) as [-> | Hne].
    + rewrite !lookup_insert_eq. unfold count_of.
      rewrite counter_update_lookup.
      destruct (counts a !! n), (counts b !! n); simpl; f_equal; lia.
    + rewrite !lookup_insert_ne by done. by rewrite counter_update_lookup.
Qed.

Lemma well_formed_empty : well_formed empty_result.
Proof.
  split; simpl; [by rewrite dom_empty_L | apply map_Forall_empty].
Qed.

Lemma well_formed_reject a : well_formed a -> well_formed (reject a).
Proof. by intros [? ?]. Qed.

Lemma well_formed_accept a n : well_formed a -> well_formed (accept a n).
Proof.
  intros [Hdom Hpos]. split; simpl.
  - rewrite dom_insert_L, Hdom. apply (comm_L (∪)).
  - apply map_Forall_insert_2; [lia | done].
Qed.

Lemma well_formed_merge a b :
  well_formed a -> well_formed b -> well_formed (merge a b).
Proof.
  intros [Hda Hpa] [Hdb Hpb]. split; simpl.
  - rewrite Hda, Hdb. apply set_eq. intros k.
    rewrite elem_of_union, !elem_of_dom, counter_update_lookup.
    destruct (counts a !! k), (counts b !! k); split; eauto;
      intros [[? ?] | [? ?]]; done.
  - intros k n. rewrite counter_update_lookup.
    destruct (counts a !! k) as [x|] eqn:Ha, (counts b !! k) as [y|] eqn:Hb;
      intros Hn; simplify_eq.
    + specialize (Hpa k x Ha). simpl in Hpa. lia.
    + by apply (Hpa k).
    + by apply (Hpb k).
Qed.

(** ** BatchProcessor *)

Section BatchFacts.

Variable netloc : string -> option string.
Variable patterns : list Pattern.

Local Abbreviation step := (process_url netloc patterns).
Local Abbreviation process urls := (process_url_batch netloc urls patterns).

(** What the loop body does, case by case. *)
Lemma process_url_cases acc url :
  (classified netloc patterns url Skipped /\ step acc url = acc)
  \/ (classified netloc patterns url RejectedRaw /\ step acc url = reject acc)
  \/ (classified netloc patterns url RejectedNormalized
      /\ step acc url = reject acc)
  \/ (exists n, classified netloc patterns url (Counted n)
                /\ step acc url = accept acc n).
Proof.
  unfold process_url.
  destruct (netloc url) as [host|] eqn:Hhost.
  2: { left. split; [constructor; by left | done]. }
  destruct (PyStr.falsy host) eqn:Hfalsy.
  { apply falsy_true in Hfalsy as ->. left. split; [constructor; by right | done]. }
  assert (Hne : host <> EmptyString) by (intros ->; discriminate).
  destruct (has_valid_tld (Some host)) eqn:Hraw; cbn [negb].
  2: { right. left. split; [by econstructor | done]. }
  destruct (has_valid_tld (normalize_domain (Some host) patterns)) eqn:Hnorm;
    cbn [negb].
  2: { right. right. left. split; [by econstructor | done]. }
  destruct (normalize_domain (Some host) patterns) as [n|] eqn:Hn; [|done].
  right. right. right. exists n. split; [by econstructor | done].
Qed.

Lemma classified_unique url c1 c2 :
  classified netloc patterns url c1 -> classified netloc patterns url c2 ->
  c1 = c2.
Proof.
  intros H1 H2.
  destruct H1 as [[? | ?] | | |]; destruct H2 as [[? | ?] | | |];
    simplify_eq; try done; congruence.
Qed.

(** One step from [acc] is the merge of [acc] with one step from nothing. *)
Lemma process_url_merge acc url :
  step acc url = merge acc (step empty_result url).
Proof.
  destruct (process_url_cases acc url)
    as [[Hc ->] | [[Hc ->] | [[Hc ->] | (n & Hc & ->)]]];
  destruct (process_url_cases empty_result url)
    as [[Hc' ->] | [[Hc' ->] | [[Hc' ->] | (n' & Hc' & ->)]]];
  pose proof (classified_unique _ _ _ Hc Hc') as E; try discriminate E.
  - by rewrite merge_empty_r.
  - by rewrite merge_reject, merge_empty_r.
  - by rewrite merge_reject, merge_empty_r.
  - injection E as ->. by rewrite merge_accept, merge_empty_r.
Qed.

Lemma foldl_process_url acc urls :
  foldl step acc urls = merge acc (process urls).
Proof.
  unfold process_url_batch. revert acc.
  induction urls as [|url urls IH]; intros acc; simpl.
  - by rewrite merge_empty_r.
  - rewrite (IH (step acc url)), (IH (step empty_result url)).
    by rewrite (process_url_merge acc url), merge_assoc.
Qed.

(** Processing a concatenation is merging the two parts' results. *)
Lemma process_url_batch_app urls1 urls2 :
  process (urls1 ++ urls2) = merge (process urls1) (process urls2).
Proof.
  unfold process_url_batch at 1. rewrite foldl_app.
  fold (process_url_batch netloc urls1 patterns). apply foldl_process_url.
Qed.

Lemma well_formed_process_url acc url :
  well_formed acc -> well_formed (step acc url).
Proof.
  intros Hacc.
  destruct (process_url_cases acc url)
    as [[_ ->] | [[_ ->] | [[_ ->] | (n & _ & ->)]]];
    auto using well_formed_reject, well_formed_accept.
Qed.

Lemma well_formed_foldl acc urls :
  well_formed acc -> well_formed (foldl step acc urls).
Proof.
  revert acc. induction urls as [|url urls IH]; intros acc Hacc; simpl; [done|].
  by apply IH, well_formed_process_url.
Qed.

Lemma well_formed_process urls : well_formed (process urls).
Proof. apply well_formed_foldl, well_formed_empty. Qed.

(** One URL adds 1 to counts plus rejections if it has a host, else 0. *)
Lemma conservation_step acc url :
  total_count (counts (step acc url)) + removed (step acc url) =
    total_count (counts acc) + removed acc
    + (if has_host netloc url then 1 else 0).
Proof.
  unfold has_host.
  destruct (process_url_cases acc url)
    as [[Hc ->] | [[Hc ->] | [[Hc ->] | (n & Hc & ->)]]]; inversion Hc; subst.
  - destruct H as [-> | ->]; simpl; lia.
  - rewrite H. destruct host; [done|]. simpl. lia.
  - rewrite H. destruct host; [done|]. simpl. lia.
  - rewrite H0. destruct host; [done|]. simpl.
    pose proof (total_count_insert (counts acc) n (count_of (counts acc) n + 1)).
    lia.
Qed.

Lemma conservation_foldl acc urls :
  total_count (counts (foldl step acc urls)) + removed (foldl step acc urls) =
    total_count (counts acc) + removed acc
    + length (List.filter (has_host netloc) urls).
Proof.
  revert acc. induction urls as [|url urls IH]; intros acc; simpl; [lia|].
  rewrite IH, conservation_step.
  destruct (has_host netloc url); simpl; lia.
Qed.

(** *** Batches *)

Lemma batch_urls_take_drop all_urls size batch_num :
  batch_urls all_urls size batch_num = take size (drop (batch_num * size) all_urls).
Proof.
  unfold batch_urls.
  destruct (Nat.le_gt_cases (batch_num * size + size) (length all_urls)) as [H | H].
  - f_equal. lia.
  - rewrite Nat.min_r by lia.
    rewrite !take_ge; [done | | ]; rewrite length_drop; lia.
Qed.

Lemma take_add_drop {A} (xs : list A) a b :
  take (a + b) xs = take a xs ++ take b (drop a xs).
Proof.
  revert xs. induction a as [|a IH]; intros [|x xs]; simpl; try done.
  - by rewrite take_nil.
  - by rewrite IH.
Qed.

Lemma total_batches_cover n size :
  0 < size -> n <= total_batches n size * size.
Proof.
  intros Hsize. unfold total_batches.
  pose proof (Nat.div_mod (n + size - 1) size ltac:(lia)) as Hdiv.
  pose proof (Nat.mod_upper_bound (n + size - 1) size ltac:(lia)) as Hmod.
  nia.
Qed.

(** Merging the first [k] batches in order is processing the first
    [k * size] URLs as one batch. *)
Lemma merge_batches_prefix all_urls size k :
  merge_batches netloc all_urls patterns size (seq 0 k) =
    process (take (k * size) all_urls).
Proof.
  unfold merge_batches. induction k as [|k IH].
  - by rewrite take_0.
  - rewrite seq_S, foldl_app, IH. simpl.
    rewrite batch_urls_take_drop, <- process_url_batch_app.
    rewrite <- take_add_drop. do 2 f_equal. lia.
Qed.

Lemma merge_batches_in_order all_urls size :
  0 < size ->
  merge_batches netloc all_urls patterns size
    (seq 0 (total_batches (length all_urls) size)) = process all_urls.
Proof.
  intros Hsize. rewrite merge_batches_prefix, take_ge; [done|].
  by apply total_batches_cover.
Qed.

(** The order in which batches are merged does not matter. *)
Lemma merge_batches_permutation all_urls size order1 order2 :
  order1 ≡ₚ order2 ->
  merge_batches netloc all_urls patterns size order1 =
    merge_batches netloc all_urls patterns size order2.
Proof.
  unfold merge_batches. generalize empty_result.
  intros acc Hperm. revert acc.
  induction Hperm as [|x l l' _ IH | x y l | l l' l'' _ IH1 _ IH2];
    intros acc; simpl.
  - done.
  - apply IH.
  - f_equal. rewrite !merge_assoc. f_equal. apply merge_comm.
  - by rewrite IH1.
Qed.

Lemma well_formed_merge_batches all_urls size order :
  well_formed (merge_batches netloc all_urls patterns size order).
Proof.
  unfold merge_batches.
  assert (H : forall acc, well_formed acc ->
            well_formed (foldl (fun acc batch_num =>
              merge acc (process (batch_urls all_urls size batch_num)))
              acc order)).
  { induction order as [|i order IH]; intros acc Hacc; simpl; [done|].
    apply IH, well_formed_merge; [done | apply well_formed_process]. }
  apply H, well_formed_empty.
Qed.

(** Whatever the mode, the orchestrator returns what one batch holding all
    the URLs returns. *)
Lemma extract_domains_with_one_batch size cpu_count completion all_urls max_workers :
  0 < size ->
  (1 <= resolve_workers cpu_count max_workers)%Z ->
  completion ≡ₚ seq 0 (total_batches (length all_urls) size) ->
  extract_domains_with netloc size cpu_count completion (Rows all_urls)
    patterns max_workers = inr (process all_urls).
Proof.
  intros Hsize Hworkers Hperm. unfold extract_domains_with.
  destruct (_ || _); [f_equal; by apply merge_batches_in_order|].
  destruct (Z.leb_spec (resolve_workers cpu_count max_workers) 0); [lia|].
  f_equal. rewrite (merge_batches_permutation _ _ _ _ Hperm).
  by apply merge_batches_in_order.
Qed.

End BatchFacts.

Lemma batch_size_positive : 0 < batch_size.
Proof. apply Nat.ltb_lt. by vm_compute. Qed.


(** C10.  The result of a batch is well formed: its set of domains is the
    key set of its counts, and every count is at least 1.  The loop body
    and the merge keep a result well formed, and so the result of the
    orchestrator is well formed, in whatever order batches are merged. *)
Theorem result_well_formed
    (netloc : string -> option string) (patterns : list Pattern) :
  (forall batch, well_formed (process_url_batch netloc batch patterns))
  /\ (forall acc url,
        well_formed acc -> well_formed (process_url netloc patterns acc url))
  /\ (forall a b, well_formed a -> well_formed b -> well_formed (merge a b))
  /\ (forall cpu_count completion all_urls max_workers,
        (1 <= resolve_workers cpu_count max_workers)%Z ->
        exists r,
          extract_domains_from_urls netloc cpu_count completion (Rows all_urls)
            patterns max_workers = inr r
          /\ well_formed r).
Proof.
  split; [apply well_formed_process|].
  split; [apply well_formed_process_url|].
  split; [apply well_formed_merge|].
  intros cpu_count completion all_urls max_workers Hworkers.
  unfold extract_domains_from_urls, extract_domains_with.
  destruct (_ || _);
    [eexists; (split; [done|]); apply well_formed_merge_batches|].
  destruct (Z.leb_spec (resolve_workers cpu_count max_workers) 0); [lia|].
  eexists; (split; [done|]); apply well_formed_merge_batches.
Qed.

(** Two well-formed results and their merge. *)
Lemma result_well_formed_witness :
  well_formed
    (merge {| domains := {["github.io"]}; counts := {["github.io" := 2]}; removed := 1 |}
           {| domains := {["github.io"]}; counts := {["github.io" := 1]}; removed := 0 |}).
Proof.
  apply (proj1 (proj2 (proj2 (result_well_formed Url.netloc [])))).
  - unfold well_formed. apply (bool_decide_unpack _). by vm_compute.
  - unfold well_formed. apply (bool_decide_unpack _). by vm_compute.
Defined.

(** C1.  For a batch, and for the whole input whatever the batch size, the
    worker count and the order of completion: the sum of the counts plus
    the rejected count is the number of URLs whose host is extracted and
    not empty.  A URL with no host adds to neither. *)
Theorem conservation
    (netloc : string -> option string) (patterns : list Pattern) :
  (forall batch,
     let r := process_url_batch netloc batch patterns in
     total_count (counts r) + removed r =
       length (List.filter (has_host netloc) batch))
  /\ (forall size cpu_count completion all_urls max_workers,
        0 < size ->
        (1 <= resolve_workers cpu_count max_workers)%Z ->
        completion ≡ₚ seq 0 (total_batches (length all_urls) size) ->
        exists r,
          extract_domains_with netloc size cpu_count completion (Rows all_urls)
            patterns max_workers = inr r
          /\ total_count (counts r) + removed r =
               length (List.filter (has_host netloc) all_urls))
  /\ (forall cpu_count completion all_urls max_workers,
        (1 <= resolve_workers cpu_count max_workers)%Z ->
        completion ≡ₚ seq 0 (total_batches (length all_urls) batch_size) ->
        exists r,
          extract_domains_from_urls netloc cpu_count completion (Rows all_urls)
            patterns max_workers = inr r
          /\ total_count (counts r) + removed r =
               length (List.filter (has_host netloc) all_urls)).
Proof.
  assert (Hbatch : forall batch,
            let r := process_url_batch netloc batch patterns in
            total_count (counts r) + removed r =
              length (List.filter (has_host netloc) batch)).
  { intros batch. cbv zeta. unfold process_url_batch.
    rewrite conservation_foldl. simpl. by rewrite total_count_empty. }
  split; [exact Hbatch|].
  assert (Hall : forall size cpu_count completion all_urls max_workers,
            0 < size ->
            (1 <= resolve_workers cpu_count max_workers)%Z ->
            completion ≡ₚ seq 0 (total_batches (length all_urls) size) ->
            exists r,
              extract_domains_with netloc size cpu_count completion
                (Rows all_urls) patterns max_workers = inr r
              /\ total_count (counts r) + removed r =
                   length (List.filter (has_host netloc) all_urls)).
  { intros size cpu_count completion all_urls max_workers Hsize Hworkers Hperm.
    exists (process_url_batch netloc all_urls patterns).
    split; [by apply extract_domains_with_one_batch | apply Hbatch]. }
  split; [exact Hall|].
  intros cpu_count completion all_urls max_workers Hworkers Hperm.
  apply Hall; [apply batch_size_positive | done | done].
Qed.

(** Seven URLs in batches of two, merged out of order by four workers:
    five of them have a host. *)
Lemma conservation_witness :
  exists r,
    extract_domains_with Url.netloc 2 4%Z [2; 0; 3; 1] (Rows sample_urls)
      [Re.to_pattern github_rule] None = inr r
    /\ total_count (counts r) + removed r = 5.
Proof.
  destruct (proj1 (proj2 (conservation Url.netloc [Re.to_pattern github_rule]))
              2 4%Z [2; 0; 3; 1] sample_urls None) as (r & Hr & Hsum).
  - lia.
  - vm_compute. discriminate.
  - apply (bool_decide_unpack _). by vm_compute.
  - exists r. split; [exact Hr | rewrite Hsum; reflexivity].
Defined.

(** C2.  The merge unites the sets, adds the counts key by key and adds the
    rejected counts; it is commutative and associative.  Merging the
    batches in any order of completion gives what merging them in order
    gives, and for any batch size, worker count and order of completion the
    orchestrator returns what one batch holding all the URLs returns: the
    result depends on none of them, and the sequential and the parallel
    path agree. *)
Theorem merge_invariance
    (netloc : string -> option string) (patterns : list Pattern) :
  (forall a b,
     domains (merge a b) = domains a ∪ domains b
     /\ (forall k, count_of (counts (merge a b)) k
                   = count_of (counts a) k + count_of (counts b) k)
     /\ removed (merge a b) = removed a + removed b)
  /\ (forall a b, merge a b = merge b a)
  /\ (forall a b c, merge (merge a b) c = merge a (merge b c))
  /\ (forall all_urls size completion,
        completion ≡ₚ seq 0 (total_batches (length all_urls) size) ->
        merge_batches netloc all_urls patterns size completion =
          merge_batches netloc all_urls patterns size
            (seq 0 (total_batches (length all_urls) size)))
  /\ (forall size cpu_count completion all_urls max_workers,
        0 < size ->
        (1 <= resolve_workers cpu_count max_workers)%Z ->
        completion ≡ₚ seq 0 (total_batches (length all_urls) size) ->
        extract_domains_with netloc size cpu_count completion (Rows all_urls)
          patterns max_workers =
          inr (process_url_batch netloc all_urls patterns))
  /\ (forall cpu_count completion all_urls max_workers,
        (1 <= resolve_workers cpu_count max_workers)%Z ->
        completion ≡ₚ seq 0 (total_batches (length all_urls) batch_size) ->
        extract_domains_from_urls netloc cpu_count completion (Rows all_urls)
          patterns max_workers =
          inr (process_url_batch netloc all_urls patterns)).
Proof.
  split.
  { intros a b. split; [done|]. split; [|done].
    intros k. apply count_of_counter_update. }
  split; [apply merge_comm|].
  split; [apply merge_assoc|].
  split; [intros; by apply merge_batches_permutation|].
  split; [intros; by apply extract_domains_with_one_batch|].
  intros. by apply extract_domains_with_one_batch; [apply batch_size_positive | |].
Qed.

(** One worker with batches of three, and four workers with batches of two
    merged out of order, return the same. *)
Lemma merge_invariance_witness :
  extract_domains_with Url.netloc 3 4%Z [] (Rows sample_urls)
    [Re.to_pattern github_rule] (Some 1%Z)
  = extract_domains_with Url.netloc 2 4%Z [2; 0; 3; 1] (Rows sample_urls)
      [Re.to_pattern github_rule] None.
Proof.
  rewrite (proj1 (proj2 (proj2 (proj2 (proj2
             (merge_invariance Url.netloc [Re.to_pattern github_rule])))))
             2 4%Z [2; 0; 3; 1] sample_urls None).
  - reflexivity.
  - lia.
  - vm_compute. discriminate.
  - apply (bool_decide_unpack _). by vm_compute.
Defined.

(** * Further properties *)

(** ** The batches of the orchestrator *)

Lemma total_batches_more_than_two n size :
  0 < size -> (2 < total_batches n size <-> 2 * size < n).
Proof.
  intros Hsize. unfold total_batches.
  pose proof (Nat.div_mod (n + size - 1) size ltac:(lia)) as Hdiv.
  pose proof (Nat.mod_upper_bound (n + size - 1) size ltac:(lia)) as Hmod.
  split; intros H; nia.
Qed.

Lemma total_batches_start n size i :
  0 < size -> i < total_batches n size -> i * size < n.
Proof.
  intros Hsize. unfold total_batches.
  pose proof (Nat.div_mod (n + size - 1) size ltac:(lia)) as Hdiv.
  pose proof (Nat.mod_upper_bound (n + size - 1) size ltac:(lia)) as Hmod.
  intros H. nia.
Qed.

Lemma concat_batch_urls all_urls size k :
  concat (map (batch_urls all_urls size) (seq 0 k)) = take (k * size) all_urls.
Proof.
  induction k as [|k IH].
  - by rewrite take_0.
  - rewrite seq_S, map_app, concat_app, IH. simpl. rewrite app_nil_r.
    rewrite batch_urls_take_drop, <- take_add_drop. f_equal. lia.
Qed.

Lemma length_batch_urls all_urls size i :
  length (batch_urls all_urls size i) = Nat.min size (length all_urls - i * size).
Proof. by rewrite batch_urls_take_drop, length_take, length_drop. Qed.

(** X1.  The batches the orchestrator cuts are the URL list, cut: joined in
    order they give the list back, none of them is empty, none holds more
    than the batch size, all but the last hold exactly the batch size, and
    past the last there is nothing. *)
Theorem batches_partition (all_urls : list string) (size : nat) :
  0 < size ->
  concat (map (batch_urls all_urls size)
              (seq 0 (total_batches (length all_urls) size))) = all_urls
  /\ (forall i, i < total_batches (length all_urls) size ->
        0 < length (batch_urls all_urls size i) <= size)
  /\ (forall i, S i < total_batches (length all_urls) size ->
        length (batch_urls all_urls size i) = size)
  /\ (forall i, total_batches (length all_urls) size <= i ->
        batch_urls all_urls size i = []).
Proof.
  intros Hsize. split; [|split; [|split]].
  - rewrite concat_batch_urls. apply take_ge. by apply total_batches_cover.
  - intros i Hi. rewrite length_batch_urls.
    pose proof (total_batches_start _ _ _ Hsize Hi). lia.
  - intros i Hi. rewrite length_batch_urls.
    pose proof (total_batches_start _ _ _ Hsize Hi). lia.
  - intros i Hi. rewrite batch_urls_take_drop, drop_ge; [by rewrite take_nil|].
    pose proof (total_batches_cover (length all_urls) size Hsize). nia.
Qed.

(** Seven URLs in batches of three. *)
Lemma batches_partition_witness :
  concat (map (batch_urls sample_urls 3) (seq 0 3)) = sample_urls
  /\ length (batch_urls sample_urls 3 2) = 1.
Proof.
  pose proof (batches_partition sample_urls 3 ltac:(lia)) as [H _].
  split; [exact H | reflexivity].
Defined.

(** ** The tally of a batch *)

Section TallyFacts.

Variable netloc : string -> option string.
Variable patterns : list Pattern.

Local Abbreviation step := (process_url netloc patterns).
Local Abbreviation process urls := (process_url_batch netloc urls patterns).

Lemma process_url_swap acc x y : step (step acc x) y = step (step acc y) x.
Proof.
  rewrite (process_url_merge netloc patterns (step acc x) y),
          (process_url_merge netloc patterns acc x),
          (process_url_merge netloc patterns (step acc y) x),
          (process_url_merge netloc patterns acc y).
  rewrite !merge_assoc. f_equal. apply merge_comm.
Qed.

Lemma foldl_process_url_permutation acc urls urls' :
  urls ≡ₚ urls' -> foldl step acc urls = foldl step acc urls'.
Proof.
  intros Hperm. revert acc.
  induction Hperm as [|x xs ys _ IH|x y xs|xs ys zs _ IH1 _ IH2]; intros acc; simpl.
  - done.
  - apply IH.
  - by rewrite process_url_swap.
  - by rewrite IH1.
Qed.

Lemma process_url_batch_cons url urls :
  process (url :: urls) = merge (step empty_result url) (process urls).
Proof. unfold process_url_batch at 1. simpl. apply foldl_process_url. Qed.

Lemma counted_as_classified d url :
  counted_as netloc patterns d url = true <->
    classified netloc patterns url (Counted d).
Proof.
  unfold counted_as. split.
  - destruct (netloc url) as [host|] eqn:Hhost; [|done].
    rewrite !andb_true_iff, negb_true_iff, bool_decide_eq_true.
    intros [[[Hne Hraw] Hnorm] Hvalid].
    apply (class_counted netloc patterns url host d); try done.
    by intros ->.
  - intros Hc. inversion Hc as [| | |host n Hhost Hne Hraw Hnorm Hvalid]; subst.
    rewrite Hhost, Hraw, Hvalid, bool_decide_true by done.
    by destruct host.
Qed.

(** What one URL adds to an empty result. *)
Lemma process_url_tally url d :
  (d ∈ domains (step empty_result url) <-> counted_as netloc patterns d url = true)
  /\ count_of (counts (step empty_result url)) d =
       (if counted_as netloc patterns d url then 1 else 0)
  /\ removed (step empty_result url) =
       (if rejected netloc patterns url then 1 else 0).
Proof.
  unfold process_url, counted_as, rejected.
  assert (Hempty : d ∈ domains empty_result <-> false = true)
    by (simpl; rewrite elem_of_empty; split; [done | discriminate]).
  destruct (netloc url) as [host|]; [|done].
  destruct (PyStr.falsy host); [done|].
  destruct (has_valid_tld (Some host)); [|done].
  cbn [negb andb].
  destruct (normalize_domain (Some host) patterns) as [n|] eqn:Hnorm; [|done].
  destruct (has_valid_tld (Some n)) eqn:Hvalid; cbn [negb andb].
  - unfold accept, count_of. cbn [domains counts removed empty_result].
    destruct (decide (n = d)) as [-> | Hd].
    + rewrite bool_decide_true, Hvalid, lookup_insert_eq by done.
      split; [|done]. split; [done | intros _].
      by apply elem_of_union_r, elem_of_singleton.
    + rewrite bool_decide_false, lookup_insert_ne, lookup_empty by congruence.
      split; [|done]. split; [|done].
      rewrite elem_of_union, elem_of_empty, elem_of_singleton.
      intros [[] | ?]; congruence.
  - assert (E : bool_decide (Some n = Some d) && has_valid_tld (Some d) = false).
    { destruct (bool_decide_reflect (Some n = Some d)) as [E|]; [|done].
      injection E as ->. by rewrite Hvalid. }
    rewrite E. unfold reject. cbn [domains counts removed]. by split.
Qed.

Lemma process_url_batch_tally urls d :
  (d ∈ domains (process urls) <-> exists url, url ∈ urls
                                   /\ counted_as netloc patterns d url = true)
  /\ count_of (counts (process urls)) d =
       length (List.filter (counted_as netloc patterns d) urls)
  /\ removed (process urls) = length (List.filter (rejected netloc patterns) urls).
Proof.
  induction urls as [|url urls (IHd & IHc & IHr)].
  - split; [|done]. unfold process_url_batch. simpl. rewrite elem_of_empty.
    split; [done|]. intros (url & Hin & _). by apply elem_of_nil in Hin.
  - rewrite process_url_batch_cons.
    destruct (process_url_tally url d) as (Hd & Hc & Hr).
    split; [|split].
    + simpl. rewrite elem_of_union, Hd, IHd. split.
      * intros [H | (u & Hin & H)]; [exists url | exists u];
          (split; [|done]); [left | by right].
      * intros (u & Hin & H). apply elem_of_cons in Hin as [-> | Hin];
          [by left | right; eauto].
    + simpl counts. rewrite count_of_counter_update, Hc, IHc. simpl.
      by destruct (counted_as netloc patterns d url).
    + simpl removed. rewrite Hr, IHr. simpl.
      by destruct (rejected netloc patterns url).
Qed.

Lemma size_le_total_count (m : gmap string nat) :
  map_Forall (fun _ n => 1 <= n) m -> size m <= total_count m.
Proof.
  induction m as [|k n m Hk _ IH] using map_first_key_ind.
  - intros _. by rewrite map_size_empty.
  - intros Hall. apply map_Forall_insert in Hall as [Hn Hall]; [|done].
    rewrite map_size_insert_None, total_count_insert_fresh by done.
    specialize (IH Hall). lia.
Qed.

End TallyFacts.

(** X2.  The result does not depend on the order of the URLs: two lists
    that hold the same URLs the same number of times give the same set,
    counts and rejected count, for one batch and for the orchestrator
    (whose query names no order for its rows). *)
Theorem url_order_independence
    (netloc : string -> option string) (patterns : list Pattern)
    (urls urls' : list string) :
  urls ≡ₚ urls' ->
  process_url_batch netloc urls patterns = process_url_batch netloc urls' patterns
  /\ (forall cpu_count completion completion' max_workers,
        (1 <= resolve_workers cpu_count max_workers)%Z ->
        completion ≡ₚ seq 0 (total_batches (length urls) batch_size) ->
        completion' ≡ₚ seq 0 (total_batches (length urls') batch_size) ->
        extract_domains_from_urls netloc cpu_count completion (Rows urls)
          patterns max_workers =
        extract_domains_from_urls netloc cpu_count completion' (Rows urls')
          patterns max_workers).
Proof.
  intros Hperm.
  assert (H : process_url_batch netloc urls patterns =
              process_url_batch netloc urls' patterns)
    by apply (foldl_process_url_permutation netloc patterns _ _ _ Hperm).
  split; [exact H|].
  intros cpu_count completion completion' max_workers Hworkers Hc Hc'.
  unfold extract_domains_from_urls.
  rewrite !extract_domains_with_one_batch by (done || apply batch_size_positive).
  by rewrite H.
Qed.

(** The sample URLs, and the same read backwards. *)
Lemma url_order_independence_witness :
  process_url_batch Url.netloc sample_urls [Re.to_pattern github_rule] =
    process_url_batch Url.netloc (rev sample_urls) [Re.to_pattern github_rule].
Proof.
  apply (url_order_independence Url.netloc [Re.to_pattern github_rule]
           sample_urls (rev sample_urls)).
  apply (bool_decide_unpack _). by vm_compute.
Defined.

(** X3.  What a batch returns, URL by URL: a domain is in the set exactly
    when some URL of the batch is counted under it (its host passes the TLD
    check and normalizes to that domain, which passes too); the count of a
    domain is the number of URLs counted under it; the rejected count is
    the number of URLs whose host, or its normal form, fails the check. *)
Theorem process_url_batch_closed_form
    (netloc : string -> option string) (patterns : list Pattern)
    (urls : list string) (d : string) :
  let r := process_url_batch netloc urls patterns in
  (d ∈ domains r <-> exists url, url ∈ urls
                       /\ classified netloc patterns url (Counted d))
  /\ count_of (counts r) d =
       length (List.filter (counted_as netloc patterns d) urls)
  /\ removed r = length (List.filter (rejected netloc patterns) urls)
  /\ (forall url, counted_as netloc patterns d url = true <->
                  classified netloc patterns url (Counted d))
  /\ (forall url, rejected netloc patterns url = true <->
                  classified netloc patterns url RejectedRaw
                  \/ classified netloc patterns url RejectedNormalized).
Proof.
  cbv zeta.
  destruct (process_url_batch_tally netloc patterns urls d) as (Hd & Hc & Hr).
  split; [|split; [done|split; [done|split]]].
  - rewrite Hd. split; intros (url & Hin & H); exists url; (split; [done|]);
      by apply counted_as_classified.
  - apply counted_as_classified.
  - intros url. unfold rejected. split.
    + destruct (netloc url) as [host|] eqn:Hhost; [|done].
      rewrite andb_true_iff, !negb_true_iff, andb_false_iff.
      intros [Hne Hcheck].
      assert (host <> EmptyString) by (by intros ->).
      destruct (has_valid_tld (Some host)) eqn:Hraw.
      * right. apply (class_rejected_normalized netloc patterns url host);
          try done. by destruct Hcheck.
      * left. by apply (class_rejected_raw netloc patterns url host).
    + intros [Hc' | Hc']; inversion Hc' as [|host Hhost Hne Hraw
                                            |host Hhost Hne Hraw Hnorm|]; subst;
        rewrite Hhost, Hraw, ?Hnorm; by destruct host.
Qed.

(** X4.  A batch returns no more unique domains than it counted visits, and
    unique domains plus rejections never exceed the number of URLs with a
    host, so never the number of URLs: a report whose figures add up to
    more than the URLs read is impossible. *)
Theorem unique_domains_bound
    (netloc : string -> option string) (patterns : list Pattern)
    (urls : list string) :
  let r := process_url_batch netloc urls patterns in
  size (domains r) <= total_count (counts r)
  /\ size (domains r) + removed r <= length (List.filter (has_host netloc) urls)
  /\ size (domains r) + removed r <= length urls.
Proof.
  cbv zeta.
  destruct (well_formed_process netloc patterns urls) as [Hdom Hpos].
  assert (H1 : size (domains (process_url_batch netloc urls patterns))
               <= total_count (counts (process_url_batch netloc urls patterns))).
  { rewrite Hdom, size_dom. by apply size_le_total_count. }
  pose proof (conservation_foldl netloc patterns empty_result urls) as H2.
  fold (process_url_batch netloc urls patterns) in H2.
  simpl (total_count (counts empty_result)) in H2.
  rewrite total_count_empty in H2. simpl (removed empty_result) in H2.
  pose proof (filter_length_le (has_host netloc) urls) as H3.
  repeat split; lia.
Qed.

(** X5.  The orchestrator raises for its rows in one case only: the worker
    count is below 1 and the URLs fill more than two batches; then the
    thread pool refuses the count.  In every other case it returns a
    result: a worker count of zero or less goes unnoticed up to two
    batches, and no list of URLs makes a count of 1 or more fail. *)
Theorem extract_domains_from_urls_raises
    (netloc : string -> option string) (patterns : list Pattern)
    (cpu_count : Z) (completion : list nat) (all_urls : list string)
    (max_workers : option Z) :
  let run := extract_domains_from_urls netloc cpu_count completion
               (Rows all_urls) patterns max_workers in
  ((exists e, run = inl e) <->
     (resolve_workers cpu_count max_workers <= 0)%Z
     /\ 2 * batch_size < length all_urls)
  /\ (forall e, run = inl e -> e = ValueError "max_workers must be greater than 0")
  /\ (length all_urls <= 2 * batch_size ->
      run = inr (process_url_batch netloc all_urls patterns)).
Proof.
  cbv zeta. unfold extract_domains_from_urls, extract_domains_with.
  pose proof (total_batches_more_than_two (length all_urls) batch_size
                batch_size_positive) as Htotal.
  set (total := total_batches (length all_urls) batch_size) in *.
  assert (Hseq : merge_batches netloc all_urls patterns batch_size (seq 0 total)
                 = process_url_batch netloc all_urls patterns)
    by apply merge_batches_in_order, batch_size_positive.
  generalize dependent batch_size. intros size total Htotal Hseq.
  destruct (Z.eqb_spec (resolve_workers cpu_count max_workers) 1) as [H1 | H1];
    cbn [orb].
  { split; [|split]; [|done|by rewrite Hseq].
    split; [intros [e He]; done | lia]. }
  destruct (Nat.leb_spec total 2) as [H2 | H2].
  { split; [|split]; [|done|by rewrite Hseq].
    split; [intros [e He]; done | lia]. }
  destruct (Z.leb_spec (resolve_workers cpu_count max_workers) 0) as [H0 | H0].
  - split; [|split]; [|congruence|lia].
    split; [intros _; lia | eauto].
  - split; [|split]; [|done|lia].
    split; [intros [e He]; done | lia].
Qed.

(** ** The TLD check and the truncation *)

Section TldFacts.

Import PyStr.

Lemma after_last_absent c s : contains c s = false -> after_last c s = s.
Proof.
  destruct s as [|a s]; [done|]. rewrite contains_cons. cbn [after_last].
  destruct (Ascii.eqb c a); [done|]. cbn [orb]. by intros ->.
Qed.

Lemma contains_label_dot label s :
  contains "." (label +:+ String "." s) = true.
Proof.
  induction label as [|a label IH]; [done|].
  rewrite append_cons, contains_cons, IH. apply orb_true_r.
Qed.

Lemma after_last_label_dot label s :
  dot_free label = true ->
  after_last "." (label +:+ String "." s) = after_last "." s.
Proof.
  induction label as [|a label IH]; intros Hfree.
  - change (EmptyString +:+ String "." s) with (String "." s).
    cbn [after_last]. destruct (contains "." s) eqn:Hs; [done|].
    by rewrite after_last_absent.
  - apply dot_free_cons in Hfree as [_ Hfree].
    rewrite append_cons. cbn [after_last].
    by rewrite contains_label_dot, IH.
Qed.

(** Dropping leading labels keeps the text after the last dot. *)
Lemma after_last_join_skipn labels k :
  Forall (fun l => dot_free l = true) labels -> k < length labels ->
  after_last "." (join "." (skipn k labels)) = after_last "." (join "." labels).
Proof.
  revert k. induction labels as [|l [|l' rest] IH]; intros k Hall Hk.
  - simpl in Hk. lia.
  - simpl in Hk. by replace k with 0 by lia.
  - destruct k as [|k]; [done|].
    inversion Hall as [|? ? Hl Hrest]; subst.
    change (skipn (S k) (l :: l' :: rest)) with (skipn k (l' :: rest)).
    rewrite (IH k Hrest) by (simpl in *; lia).
    change (join "." (l :: l' :: rest))
      with (l +:+ String "." (join "." (l' :: rest))).
    by rewrite after_last_label_dot.
Qed.

Lemma contains_count c s : contains c s = true <-> 0 < count c s.
Proof.
  induction s as [|a s IH]; [simpl; split; [done | lia]|].
  rewrite contains_cons. cbn [count]. rewrite (Ascii.eqb_sym a c).
  destruct (Ascii.eqb c a); cbn [orb]; [split; [lia | done]|].
  by rewrite IH.
Qed.

(** With a dot in the domain, the check is the check of the text after the
    last dot. *)
Lemma has_valid_tld_after_last d :
  contains "." d = true ->
  has_valid_tld (Some d) = valid_tld (after_last "." d).
Proof.
  intros Hdot. unfold has_valid_tld, valid_tld.
  pose proof (after_last_shorter "." d Hdot) as Hshort.
  rewrite Hdot, (slice_after_rfind "." d Hdot), (rfind_present "." d Hdot).
  set (tld := after_last "." d) in *.
  destruct (falsy d) eqn:Hempty.
  { apply falsy_true in Hempty. by subst d. }
  destruct (Z.eqb_spec (Z.of_nat (String.length d - S (String.length tld))) (-1));
    [lia|].
  cbn [orb negb].
  destruct (Nat.leb_spec 2 (String.length tld)) as [H2 | H2]; cbn [andb].
  - destruct (Nat.ltb_spec (String.length d) 3); [lia|].
    destruct (Z.eqb_spec (Z.of_nat (String.length d - S (String.length tld)))
                (Z.of_nat (String.length d) - 1)); [lia | done].
  - destruct (_ || _); [done|]. by destruct (_ =? _)%Z.
Qed.

End TldFacts.

(** X6.  Cutting a host down to its last three labels keeps the text after
    its last dot, so the cut host passes the TLD check exactly when the
    host does.  With an empty rule list the second TLD check of the batch
    loop therefore never rejects what the first one let through. *)
Theorem truncation_keeps_tld :
  (forall host : string,
     2 < PyStr.count "." host ->
     let cut := PyStr.join "." (list_slice_from (PyStr.split "." host) (-3)) in
     normalize_domain (Some host) [] = Some cut
     /\ after_last "." cut = after_last "." host
     /\ has_valid_tld (Some cut) = has_valid_tld (Some host))
  /\ (forall host : string,
        has_valid_tld (normalize_domain (Some host) []) = has_valid_tld (Some host))
  /\ (forall (netloc : string -> option string) (url : string),
        ~ classified netloc [] url RejectedNormalized).
Proof.
  assert (Hcut : forall host : string,
            2 < PyStr.count "." host ->
            let cut :=
              PyStr.join "." (list_slice_from (PyStr.split "." host) (-3)) in
            normalize_domain (Some host) [] = Some cut
            /\ after_last "." cut = after_last "." host
            /\ has_valid_tld (Some cut) = has_valid_tld (Some host)).
  { intros host Hdots cut.
    assert (Hnorm : normalize_domain (Some host) [] = Some cut).
    { unfold normalize_domain.
      destruct (PyStr.falsy host) eqn:Hempty.
      { apply falsy_true in Hempty. subst host. simpl in Hdots. lia. }
      destruct (Nat.leb_spec (PyStr.count "." host) 2); [lia | done]. }
    assert (Hlast : after_last "." cut = after_last "." host).
    { subst cut. rewrite list_slice_last_three.
      rewrite after_last_join_skipn, join_split;
        [done | apply split_all_dot_free |].
      rewrite length_split. lia. }
    split; [done|]. split; [done|].
    rewrite !has_valid_tld_after_last, Hlast; [done | |].
    - apply contains_count. lia.
    - apply contains_count. subst cut.
      rewrite list_slice_last_three, count_join
        by apply Forall_drop, split_all_dot_free.
      rewrite length_skipn, length_split. lia. }
  assert (Hsame : forall host : string,
            has_valid_tld (normalize_domain (Some host) []) =
              has_valid_tld (Some host)).
  { intros host.
    destruct (Nat.le_gt_cases (PyStr.count "." host) 2) as [Hdots | Hdots].
    - unfold normalize_domain. destruct (PyStr.falsy host); [done|].
      by destruct (Nat.leb_spec (PyStr.count "." host) 2); [|lia].
    - destruct (Hcut host Hdots) as (-> & _ & ->). done. }
  split; [exact Hcut|]. split; [exact Hsame|].
  intros netloc url Hc. inversion Hc as [| |host Hhost Hne Hraw Hnorm|]; subst.
  rewrite Hsame in Hnorm. congruence.
Qed.

(** A host of five labels and its cut. *)
Lemma truncation_keeps_tld_witness :
  after_last "." "c.d.example" = after_last "." "a.b.c.d.example"
  /\ has_valid_tld (Some "c.d.example") = has_valid_tld (Some "a.b.c.d.example").
Proof.
  refine (proj2 (proj1 truncation_keeps_tld "a.b.c.d.example" _)).
  vm_compute. lia.
Defined.

(** ** Redaction *)

Lemma list_index_last {A} (xs : list A) (x : A) :
  list_index (xs ++ [x]) (-1) = Some x.
Proof.
  unfold list_index. rewrite length_app. simpl length.
  change (-1 <? 0)%Z with true. cbn iota.
  destruct (Z.ltb_spec (-1 + Z.of_nat (length xs + 1)) 0); [lia|].
  destruct (Z.leb_spec (Z.of_nat (length xs + 1))
              (-1 + Z.of_nat (length xs + 1))); [lia|].
  cbn [orb].
  replace (Z.to_nat (-1 + Z.of_nat (length xs + 1))) with (length xs) by lia.
  apply list_lookup_middle. done.
Qed.

Lemma list_index_last_but_one {A} (xs : list A) (x y : A) :
  list_index (xs ++ [x; y]) (-2) = Some x.
Proof.
  unfold list_index. rewrite length_app. simpl length.
  change (-2 <? 0)%Z with true. cbn iota.
  destruct (Z.ltb_spec (-2 + Z.of_nat (length xs + 2)) 0); [lia|].
  destruct (Z.leb_spec (Z.of_nat (length xs + 2))
              (-2 + Z.of_nat (length xs + 2))); [lia|].
  cbn [orb].
  replace (Z.to_nat (-2 + Z.of_nat (length xs + 2))) with (length xs) by lia.
  apply list_lookup_middle. done.
Qed.

Lemma list_slice_to_last {A} (xs : list A) (x : A) :
  list_slice_to (xs ++ [x]) (-1) = xs.
Proof.
  unfold list_slice_to, PyStr.slice_start. rewrite length_app. simpl length.
  change (-1 <? 0)%Z with true. cbn iota.
  replace (Z.to_nat (Z.max 0 (-1 + Z.of_nat (length xs + 1))))
    with (length xs) by lia.
  by rewrite take_app_length.
Qed.

(** What [redact_domain] returns, by the labels of the domain: the labels
    before the last one, and the last one. *)
Lemma redact_domain_labels domain labels tld :
  PyStr.split "." domain = labels ++ [tld] ->
  redact_domain domain =
    Some match last labels with
         | None => domain
         | Some second =>
             if String.length second <=? 3 then "???." +:+ tld
             else PyStr.join "."
                    (map (fun part => str_mul "*" (String.length part)) labels
                       ++ [tld])
         end.
Proof.
  intros Hparts. unfold redact_domain. rewrite Hparts.
  destruct (PyStr.falsy domain) eqn:Hempty.
  { apply falsy_true in Hempty. subst domain.
    destruct labels as [|l [|l' ls]]; [done | done | done]. }
  rewrite length_app. simpl length.
  destruct labels as [|l ls _] using rev_ind; [done|].
  rewrite length_app. simpl length.
  destruct (Nat.leb_spec (length ls + 1 + 1) 1); [lia|].
  destruct (Nat.leb_spec 2 (length ls + 1 + 1)); [|lia].
  rewrite <- (assoc_L (++)). simpl ([l] ++ [tld]).
  rewrite list_index_last_but_one. cbn [mbind option_bind].
  rewrite last_snoc.
  replace (ls ++ [l; tld]) with ((ls ++ [l]) ++ [tld])
    by by rewrite <- (assoc_L (++)).
  rewrite list_index_last, list_slice_to_last.
  by destruct (String.length l <=? 3).
Qed.

Lemma split_snoc domain :
  exists labels tld, PyStr.split "." domain = labels ++ [tld].
Proof.
  pose proof (split_nonempty "." domain) as Hne.
  destruct (PyStr.split "." domain) as [|l ls _] using rev_ind; [done|].
  by exists ls, l.
Qed.

Lemma length_append s t :
  String.length (s +:+ t) = String.length s + String.length t.
Proof. induction s as [|a s IH]; [done|]. rewrite append_cons. simpl. by rewrite IH. Qed.

Lemma length_str_mul n : String.length (str_mul "*" n) = n.
Proof.
  induction n as [|n IH]; [done|].
  change (str_mul "*" (S n)) with (String "*" (str_mul "*" n)).
  cbn [String.length]. by rewrite IH.
Qed.

Lemma starred_str_mul n : starred (str_mul "*" n) = true.
Proof. induction n as [|n IH]; [done|]. exact IH. Qed.

Lemma dot_free_str_mul n : dot_free (str_mul "*" n) = true.
Proof. induction n as [|n IH]; [done|]. exact IH. Qed.

(** The length of a dot-joined domain, from the lengths of its labels. *)
Lemma length_join labels :
  String.length (PyStr.join "." labels) =
    foldr (fun l n => String.length l + n) 0 labels + (length labels - 1).
Proof.
  induction labels as [|l [|l' rest] IH]; [done | simpl; lia |].
  change (PyStr.join "." (l :: l' :: rest))
    with (l +:+ String "." (PyStr.join "." (l' :: rest))).
  rewrite length_append. cbn [String.length]. rewrite IH. simpl. lia.
Qed.

Lemma length_masks labels tld :
  String.length
    (PyStr.join "."
       (map (fun part => str_mul "*" (String.length part)) labels ++ [tld])) =
  String.length (PyStr.join "." (labels ++ [tld])).
Proof.
  rewrite !length_join, !length_app, length_map. f_equal.
  induction labels as [|l labels IH]; [done|].
  simpl. rewrite length_str_mul. simpl in IH. by rewrite IH.
Qed.

(** The labels of a domain: the last one is the text after the last dot,
    and there is one more label than dots. *)
Lemma split_labels domain labels tld :
  PyStr.split "." domain = labels ++ [tld] ->
  Forall (fun l => dot_free l = true) labels
  /\ dot_free tld = true
  /\ after_last "." domain = tld
  /\ PyStr.count "." domain = length labels
  /\ domain = PyStr.join "." (labels ++ [tld]).
Proof.
  intros Hparts.
  pose proof (split_all_dot_free domain) as Hfree. rewrite Hparts in Hfree.
  pose proof (length_split domain) as Hlen.
  rewrite Hparts, length_app in Hlen. simpl in Hlen.
  pose proof (join_split domain) as Hjoin. rewrite Hparts in Hjoin.
  apply Forall_app in Hfree as [Hlabels Htld].
  rewrite Forall_singleton in Htld.
  split; [done|]. split; [done|]. split; [|split; [lia | done]].
  rewrite <- Hjoin.
  rewrite <- (after_last_join_skipn (labels ++ [tld]) (length labels)).
  - rewrite drop_app_length. simpl. apply after_last_absent.
    unfold dot_free in Htld. by destruct (PyStr.contains "." tld).
  - apply Forall_app. split; [done|]. by rewrite Forall_singleton.
  - rewrite length_app. simpl. lia.
Qed.

(** X7.  [redact_domain] never raises.  A domain without a dot is shown as
    it is.  Of a domain with a dot, the text after the last dot is shown,
    and in front of it masks only: when the label before the last has at
    most three characters, the single mask [???], whatever the other labels
    are; when it has more, one run of asterisks for every label, each of
    the length of its label, so that the redacted text is as long as the
    domain. *)
Theorem redact_domain_masks (domain : string) :
  exists shown,
    redact_domain domain = Some shown
    /\ (PyStr.contains "." domain = false -> shown = domain)
    /\ (PyStr.contains "." domain = true ->
        exists labels second,
          PyStr.split "." domain = labels ++ [second; after_last "." domain]
          /\ (String.length second <= 3 ->
              shown = "???." +:+ after_last "." domain
              /\ PyStr.split "." shown = ["???"; after_last "." domain])
          /\ (3 < String.length second ->
              exists masks,
                shown = PyStr.join "." (masks ++ [after_last "." domain])
                /\ PyStr.split "." shown = masks ++ [after_last "." domain]
                /\ Forall2 (fun mask label =>
                              starred mask = true
                              /\ String.length mask = String.length label)
                           masks (labels ++ [second])
                /\ String.length shown = String.length domain)).
Proof.
  destruct (split_snoc domain) as (labels & tld & Hparts).
  destruct (split_labels domain labels tld Hparts)
    as (Hlabels & Htld & Hlast & Hcount & Hjoin).
  rewrite (redact_domain_labels domain labels tld Hparts).
  eexists. split; [done|].
  destruct labels as [|second labels _] using rev_ind.
  { split; [done|]. intros Hdot. apply contains_count in Hdot.
    simpl in Hcount. lia. }
  rewrite last_snoc. split.
  { intros Hdot.
    assert (0 < PyStr.count "." domain)
      by (rewrite Hcount, length_app; simpl; lia).
    apply contains_count in H. congruence. }
  intros _. rewrite Hlast. exists labels, second.
  split; [by rewrite Hparts, <- (assoc_L (++))|].
  destruct (Nat.leb_spec (String.length second) 3) as [Hshort | Hlong].
  - split; [|lia]. intros _. split; [done|].
    change ("???." +:+ tld) with ("???" +:+ String "." tld).
    rewrite split_label_dot by done. by rewrite split_dot_free.
  - split; [lia|]. intros _.
    exists (map (fun part => str_mul "*" (String.length part))
                (labels ++ [second])).
    split; [done|]. split; [|split].
    + apply split_join.
      * intros E. apply app_eq_nil in E as [_ E]. done.
      * apply Forall_app. split; [|by rewrite Forall_singleton].
        apply Forall_map, Forall_true. intros l. apply dot_free_str_mul.
    + generalize (labels ++ [second]). intros parts.
      induction parts as [|part parts IH]; constructor; [|done].
      split; [apply starred_str_mul | apply length_str_mul].
    + rewrite length_masks. by rewrite <- Hjoin.
Qed.

(** X8.  Redacting is idempotent: a redacted domain is redacted to
    itself. *)
Theorem redact_domain_idempotent (domain shown : string) :
  redact_domain domain = Some shown -> redact_domain shown = Some shown.
Proof.
  destruct (split_snoc domain) as (labels & tld & Hparts).
  destruct (split_labels domain labels tld Hparts)
    as (Hlabels & Htld & _ & _ & _).
  rewrite (redact_domain_labels domain labels tld Hparts).
  destruct labels as [|second labels _] using rev_ind.
  { intros [= <-]. by rewrite (redact_domain_labels domain [] tld Hparts). }
  rewrite last_snoc.
  destruct (Nat.leb_spec (String.length second) 3) as [Hshort | Hlong];
    intros [= <-].
  - rewrite (redact_domain_labels _ ["???"] tld); [done|].
    change ("???." +:+ tld) with ("???" +:+ String "." tld).
    rewrite split_label_dot by done. by rewrite split_dot_free.
  - set (stars := fun part => str_mul "*" (String.length part)).
    rewrite (redact_domain_labels _ (map stars (labels ++ [second])) tld).
    + assert (Hlast : last (map stars (labels ++ [second])) = Some (stars second))
        by (rewrite map_app; apply last_snoc).
      rewrite Hlast. unfold stars at 1. rewrite length_str_mul.
      destruct (Nat.leb_spec (String.length second) 3); [lia|].
      do 3 f_equal. rewrite map_map. apply map_ext. intros l. unfold stars.
      by rewrite length_str_mul.
    + apply split_join.
      * intros E. apply app_eq_nil in E as [_ E]. done.
      * apply Forall_app. split; [|by rewrite Forall_singleton].
        apply Forall_map, Forall_true. intros l. apply dot_free_str_mul.
Qed.

(** A domain, its redacted text, and the same redacted again. *)
Lemma redact_domain_idempotent_witness :
  redact_domain "mail.example.com" = Some "****.*******.com"
  /\ redact_domain "****.*******.com" = Some "****.*******.com".
Proof.
  split; [reflexivity|].
  apply (redact_domain_idempotent "mail.example.com"). reflexivity.
Defined.

(** ** The date range *)

(** X9.  For every day of a month, 1 to 31, the suffix [format_date] picks
    is the suffix of the English ordinal (1st, 2nd, 3rd, 4th, 11th, 12th,
    13th, 21st, 22nd, 23rd, 31st), and the index into the list of suffixes
    is never out of range. *)
Theorem day_suffix_ordinal (day : Z) :
  (1 <= day <= 31)%Z -> day_suffix day = Some (ordinal_suffix day).
Proof.
  intros Hday.
  assert (H : exists n, n < 31 /\ day = Z.of_nat (S n))
    by (exists (Z.to_nat (day - 1)); lia).
  destruct H as (n & Hn & ->). clear Hday.
  do 31 (destruct n as [|n]; [by vm_compute|]). lia.
Qed.

(** The 22nd. *)
Lemma day_suffix_ordinal_witness : day_suffix 22 = Some "nd".
Proof. apply (day_suffix_ordinal 22). lia. Defined.

(** ** The top and the bottom list *)

Section SortFacts.

Context {A : Type}.
Variable before : A -> A -> bool.

Lemma insert_sorted_permutation x ys : insert_sorted before x ys ≡ₚ x :: ys.
Proof.
  induction ys as [|y ys IH]; simpl; [done|].
  destruct (before y x); [|done].
  rewrite IH. apply Permutation_swap.
Qed.

Lemma sorted_permutation xs : sorted before xs ≡ₚ xs.
Proof.
  induction xs as [|x xs IH]; simpl; [done|].
  by rewrite insert_sorted_permutation, IH.
Qed.

(** [R] is the order the sort goes by. *)
Variable R : relation A.
Hypothesis R_transitive : Transitive R.
Hypothesis before_false : forall x y, before y x = false -> R x y.
Hypothesis before_true : forall x y, before y x = true -> R y x.

Lemma insert_sorted_sorted x ys :
  StronglySorted R ys -> StronglySorted R (insert_sorted before x ys).
Proof.
  induction 1 as [|y ys Hys IH Hy]; simpl.
  - by repeat constructor.
  - destruct (before y x) eqn:Hb.
    + constructor; [done|].
      rewrite insert_sorted_permutation. constructor; [|done].
      by apply before_true.
    + constructor; [by constructor|].
      constructor; [by apply before_false|].
      eapply Forall_impl; [exact Hy|]. intros z Hz. simpl in Hz.
      etransitivity; [|exact Hz]. by apply before_false.
Qed.

Lemma sorted_sorted xs : StronglySorted R (sorted before xs).
Proof.
  induction xs as [|x xs IH]; simpl; [constructor|].
  by apply insert_sorted_sorted.
Qed.

(** The first [k] of the sorted list: in order, all from the list, and
    before everything left out. *)
Lemma take_sorted xs k :
  StronglySorted R (take k (sorted before xs))
  /\ (forall x, x ∈ take k (sorted before xs) -> x ∈ xs)
  /\ (forall x y, x ∈ take k (sorted before xs) -> y ∈ xs ->
        y ∈ take k (sorted before xs) \/ R x y).
Proof.
  pose proof (sorted_sorted xs) as Hsorted.
  pose proof (sorted_permutation xs) as Hperm.
  rewrite <- (take_drop k (sorted before xs)) in Hsorted.
  split; [by apply StronglySorted_app_1_l in Hsorted|]. split.
  - intros x Hx. rewrite <- Hperm, <- (take_drop k (sorted before xs)).
    apply elem_of_app. by left.
  - intros x y Hx Hy. rewrite <- Hperm in Hy.
    rewrite <- (take_drop k (sorted before xs)) in Hy.
    apply elem_of_app in Hy as [Hy | Hy]; [by left | right].
    by apply (StronglySorted_app_1_elem_of _ _ _ _ _ Hsorted).
Qed.

End SortFacts.

Lemma falling_sorted items : falling (sorted more items).
Proof.
  apply (sorted_sorted more (fun x y => snd y <= snd x)).
  - intros x y z Hxy Hyz. lia.
  - intros x y Hb. unfold more in Hb. apply Nat.ltb_ge in Hb. lia.
  - intros x y Hb. unfold more in Hb. apply Nat.ltb_lt in Hb. lia.
Qed.

Lemma rising_sorted items : rising (sorted fewer items).
Proof.
  apply (sorted_sorted fewer (fun x y => snd x <= snd y)).
  - intros x y z Hxy Hyz. lia.
  - intros x y Hb. unfold fewer in Hb. apply Nat.ltb_ge in Hb. lia.
  - intros x y Hb. unfold fewer in Hb. apply Nat.ltb_lt in Hb. lia.
Qed.

Lemma take_sorted_more items k :
  falling (take k (sorted more items))
  /\ (forall x, x ∈ take k (sorted more items) -> x ∈ items)
  /\ (forall x y, x ∈ take k (sorted more items) -> y ∈ items ->
        y ∈ take k (sorted more items) \/ snd y <= snd x).
Proof.
  apply (take_sorted more (fun x y => snd y <= snd x)).
  - intros x y z Hxy Hyz. lia.
  - intros x y Hb. unfold more in Hb. apply Nat.ltb_ge in Hb. lia.
  - intros x y Hb. unfold more in Hb. apply Nat.ltb_lt in Hb. lia.
Qed.

Lemma take_sorted_fewer items k :
  rising (take k (sorted fewer items))
  /\ (forall x, x ∈ take k (sorted fewer items) -> x ∈ items)
  /\ (forall x y, x ∈ take k (sorted fewer items) -> y ∈ items ->
        y ∈ take k (sorted fewer items) \/ snd x <= snd y).
Proof.
  apply (take_sorted fewer (fun x y => snd x <= snd y)).
  - intros x y z Hxy Hyz. lia.
  - intros x y Hb. unfold fewer in Hb. apply Nat.ltb_ge in Hb. lia.
  - intros x y Hb. unfold fewer in Hb. apply Nat.ltb_lt in Hb. lia.
Qed.

Lemma list_slice_to_take {A} (xs : list A) (n : Z) :
  (0 <= n)%Z -> list_slice_to xs n = take (Z.to_nat n) xs.
Proof.
  intros Hn. unfold list_slice_to, PyStr.slice_start.
  by destruct (Z.ltb_spec n 0); [lia|].
Qed.

Lemma most_common_take items n :
  most_common items n = take (Z.to_nat n) (sorted more items).
Proof.
  unfold most_common. destruct (Z.leb_spec n 0); [|done].
  by replace (Z.to_nat n) with 0 by lia.
Qed.

(** The first [k] items of a sorted list of the items of a counter. *)
Lemma take_sorted_items (before : string * nat -> string * nat -> bool)
    (counter : gmap string nat) items k :
  items_of counter items ->
  length (take k (sorted before items)) = Nat.min k (size counter)
  /\ NoDup (take k (sorted before items)).*1
  /\ (forall d c, (d, c) ∈ take k (sorted before items) ->
        counter !! d = Some c).
Proof.
  unfold items_of. intros Hitems.
  pose proof (sorted_permutation before items) as Hperm.
  split; [|split].
  - by rewrite length_take, Hperm, Hitems, length_map_to_list.
  - rewrite fmap_take. eapply sublist_NoDup; [|apply sublist_take].
    rewrite Hperm, Hitems. apply NoDup_fst_map_to_list.
  - intros d c Hin. apply elem_of_map_to_list. rewrite <- Hitems, <- Hperm.
    rewrite <- (take_drop k (sorted before items)). apply elem_of_app. by left.
Qed.

(** X10.  The top list is made of the [n] most visited domains and the
    bottom list of the [n] least visited: each holds [n] items of the
    counter, or all of them if there are fewer, no domain twice, in falling
    (rising) order of count, and no domain left out has a higher (lower)
    count than a listed one. *)
Theorem report_lists_extreme (counter : gmap string nat)
    (items : list (string * nat)) (n : Z) :
  items_of counter items ->
  (let listed := most_common items n in
   length listed = Z.to_nat (Z.min n (Z.of_nat (size counter)))
   /\ falling listed
   /\ NoDup listed.*1
   /\ (forall d c, (d, c) ∈ listed -> counter !! d = Some c)
   /\ (forall d c d' c',
         (d, c) ∈ listed -> counter !! d' = Some c' ->
         (d', c') ∈ listed \/ c' <= c))
  /\ ((0 < n)%Z ->
      let listed := list_slice_to (sorted fewer items) n in
      length listed = Z.to_nat (Z.min n (Z.of_nat (size counter)))
      /\ rising listed
      /\ NoDup listed.*1
      /\ (forall d c, (d, c) ∈ listed -> counter !! d = Some c)
      /\ (forall d c d' c',
            (d, c) ∈ listed -> counter !! d' = Some c' ->
            (d', c') ∈ listed \/ c <= c')).
Proof.
  intros Hitems. split.
  - cbv zeta. rewrite most_common_take.
    destruct (take_sorted_items more counter items (Z.to_nat n) Hitems)
      as (Hlen & Hdup & Hin).
    destruct (take_sorted_more items (Z.to_nat n)) as (Hsorted & _ & Hout).
    split; [rewrite Hlen; lia|]. split; [done|]. split; [done|].
    split; [done|].
    intros d c d' c' Hlisted Hcounter.
    apply (Hout (d, c) (d', c') Hlisted).
    unfold items_of in Hitems. rewrite Hitems.
    by apply elem_of_map_to_list.
  - intros Hn. cbv zeta. rewrite list_slice_to_take by lia.
    destruct (take_sorted_items fewer counter items (Z.to_nat n) Hitems)
      as (Hlen & Hdup & Hin).
    destruct (take_sorted_fewer items (Z.to_nat n)) as (Hsorted & _ & Hout).
    split; [rewrite Hlen; lia|]. split; [done|]. split; [done|].
    split; [done|].
    intros d c d' c' Hlisted Hcounter.
    apply (Hout (d, c) (d', c') Hlisted).
    unfold items_of in Hitems. rewrite Hitems.
    by apply elem_of_map_to_list.
Qed.

(** A counter of three domains, its items in some order, and the two most
    visited. *)
Lemma report_lists_extreme_witness :
  falling (most_common [("b.org", 1); ("a.com", 3); ("c.net", 2)] 2)
  /\ most_common [("b.org", 1); ("a.com", 3); ("c.net", 2)] 2 =
       [("a.com", 3); ("c.net", 2)].
Proof.
  split; [|reflexivity].
  refine (proj1 (proj2 (proj1
            (report_lists_extreme {["a.com" := 3; "b.org" := 1; "c.net" := 2]}
               [("b.org", 1); ("a.com", 3); ("c.net", 2)] 2 _)))).
  unfold items_of. apply (bool_decide_unpack _). by vm_compute.
Defined.

Lemma elem_of_fmap_inj {A B} (f : A -> B) (l : list A) x y :
  NoDup (f <$> l) -> x ∈ l -> y ∈ l -> f x = f y -> x = y.
Proof.
  induction l as [|z l IH]; [by intros _ ?%elem_of_nil|].
  rewrite fmap_cons, NoDup_cons. intros [Hz Hl] Hx Hy Hf.
  apply elem_of_cons in Hx as [-> | Hx]; apply elem_of_cons in Hy as [-> | Hy].
  - done.
  - destruct Hz. rewrite Hf. by apply list_elem_of_fmap_2.
  - destruct Hz. rewrite <- Hf. by apply list_elem_of_fmap_2.
  - by apply IH.
Qed.

(** X11.  The counts of the top list depend on the counter only, not on
    the order of its items, which the order of the URLs and of the batches
    decides: two orders give the same counts, position by position, and
    the same list when no two domains have the same count.  Only among
    domains of equal count can the order of the items show. *)
Theorem most_common_order (items items' : list (string * nat)) (n : Z) :
  items ≡ₚ items' ->
  (most_common items n).*2 = (most_common items' n).*2
  /\ (NoDup items.*2 -> most_common items n = most_common items' n).
Proof.
  intros Hperm. rewrite !most_common_take. split.
  - rewrite !fmap_take. f_equal.
    assert (Hanti : AntiSymm eq (fun a b : nat => b <= a))
      by (intros a b ? ?; lia).
    apply (StronglySorted_unique (fun a b : nat => b <= a)).
    + eapply StronglySorted_fmap; [|apply falling_sorted]. done.
    + eapply StronglySorted_fmap; [|apply falling_sorted]. done.
    + by rewrite !sorted_permutation, Hperm.
  - intros Hdup. f_equal.
    apply (StronglySorted_unique_strong (fun x y => snd y <= snd x)).
    + intros x y Hx Hy Hxy Hyx.
      rewrite sorted_permutation in Hx. rewrite sorted_permutation in Hy.
      rewrite <- Hperm in Hy.
      apply (elem_of_fmap_inj snd items); [done | done | done | lia].
    + apply falling_sorted.
    + apply falling_sorted.
    + by rewrite !sorted_permutation.
Qed.

(** Two orders of the items of one counter with a tie. *)
Lemma most_common_order_witness :
  (most_common [("b.org", 3); ("a.com", 3); ("c.net", 2)] 1).*2 =
    (most_common [("a.com", 3); ("c.net", 2); ("b.org", 3)] 1).*2.
Proof.
  apply (most_common_order [("b.org", 3); ("a.com", 3); ("c.net", 2)]
           [("a.com", 3); ("c.net", 2); ("b.org", 3)] 1).
  apply (bool_decide_unpack _). by vm_compute.
Defined.

(** ** The report *)

Lemma redact_domain_total domain : is_Some (redact_domain domain).
Proof.
  destruct (split_snoc domain) as (labels & tld & Hparts).
  by rewrite (redact_domain_labels domain labels tld Hparts).
Qed.

Lemma print_domains_lines redact listed :
  print_domains redact listed = (map (domain_line redact) listed, true).
Proof.
  induction listed as [|[domain count] listed IH]; [done|].
  cbn [print_domains map]. rewrite IH. unfold domain_line. cbn [fst snd].
  destruct redact; [|done].
  by destruct (redact_domain_total domain) as [shown ->].
Qed.

Lemma report_head_eq results browser_name :
  (let '(earliest_date, latest_date, days_between) := date_range results in
   [ ""; "--- " +:+ browser_name +:+ " History Analysis ---";
     (if (0 <? days_between)%Z
      then "Date range: " +:+ earliest_date +:+ " to " +:+ latest_date
             +:+ " (" +:+ format_number days_between +:+ " days)"
      else "Date range: " +:+ earliest_date +:+ " to " +:+ latest_date);
     "Total unique domains found: "
       +:+ format_number (Z.of_nat (total_unique_domains results));
     "Domains removed (no valid TLD): "
       +:+ format_number (Z.of_nat (domains_removed results)) ])
  = report_head results browser_name.
Proof. unfold report_head. by destruct (date_range results) as [[? ?] ?]. Qed.

(** The whole of [print_analysis_results], with the loops written as maps. *)
Lemma print_analysis_results_lines results browser_name top bottom redact :
  print_analysis_results results browser_name top bottom redact =
    (report_head results browser_name
       ++ match top with
          | Some n =>
              [ "";
                "Top " +:+ show_int (Z.min n (Z.of_nat (length (top_domains results))))
                       +:+ " most visited domains:" ]
                ++ map (domain_line redact) (list_slice_to (top_domains results) n)
          | None => []
          end
       ++ match bottom with
          | Some n =>
              if (0 <? n)%Z
              then
                let listed :=
                  list_slice_to (sorted fewer (domain_counts results)) n in
                [ ""; "Bottom " +:+ PyStr.show_nat (length listed)
                                +:+ " least visited domains:" ]
                  ++ map (domain_line redact) listed
              else []
          | None => []
          end,
     true).
Proof.
  unfold print_analysis_results. rewrite <- report_head_eq.
  destruct (date_range results) as [[earliest_date latest_date] days_between].
  destruct top as [n|], bottom as [m|]; rewrite ?print_domains_lines;
    cbn [negb]; try destruct (0 <? m)%Z; rewrite ?print_domains_lines;
    by rewrite ?app_nil_r.
Qed.

Lemma show_int_nat (n : nat) : show_int (Z.of_nat n) = PyStr.show_nat n.
Proof.
  unfold show_int. destruct (Z.ltb_spec (Z.of_nat n) 0); [lia|].
  by rewrite Nat2Z.id.
Qed.

Lemma take_most_common items n :
  take (Z.to_nat n) (most_common items n) = most_common items n.
Proof.
  rewrite most_common_take. apply take_ge. rewrite length_take. lia.
Qed.

(** X12.  When the report is asked for the top list with the count the
    analysis was run with, and the count is not negative, as in
    [main_cli]: the report does not raise, the number its [Top] line
    announces is the number of domain lines under it, and those lines are
    the lines of the [n] most visited domains, in order. *)
Theorem report_top_block (dates : string * string * Z) (r : result)
    (items : list (string * nat)) (browser_name : string) (n : Z)
    (bottom : option Z) (redact : bool) :
  (0 <= n)%Z ->
  let results := analysis_results dates r items n in
  let listed := most_common items n in
  exists rest,
    print_analysis_results results browser_name (Some n) bottom redact =
      (report_head results browser_name
         ++ [ ""; "Top " +:+ PyStr.show_nat (length listed)
                         +:+ " most visited domains:" ]
         ++ map (domain_line redact) listed ++ rest,
       true).
Proof.
  intros Hn. cbv zeta. rewrite print_analysis_results_lines.
  cbn [top_domains analysis_results].
  rewrite list_slice_to_take, take_most_common by done.
  assert (Hmin : Z.min n (Z.of_nat (length (most_common items n))) =
                 Z.of_nat (length (most_common items n))).
  { rewrite most_common_take, length_take. lia. }
  rewrite Hmin, show_int_nat.
  eexists. by rewrite <- !(assoc_L (++)).
Qed.

(** The two most visited of three domains, redacted. *)
Lemma report_top_block_witness :
  exists rest,
    print_analysis_results
      (analysis_results ("May 1st, 2024", "May 22nd, 2024", 21%Z)
         sample_result sample_items 2)
      "Vivaldi" (Some 2%Z) None true =
      (report_head
         (analysis_results ("May 1st, 2024", "May 22nd, 2024", 21%Z)
            sample_result sample_items 2) "Vivaldi"
         ++ [ ""; "Top " +:+ PyStr.show_nat (length (most_common sample_items 2))
                         +:+ " most visited domains:" ]
         ++ map (domain_line true) (most_common sample_items 2) ++ rest,
       true).
Proof.
  apply (report_top_block ("May 1st, 2024", "May 22nd, 2024", 21%Z)
           sample_result sample_items "Vivaldi" 2 None true).
  lia.
Defined.

(** ** The command line *)

Section CommandLineFacts.

Local Abbreviation analyzer :=
  (string -> option string -> Z -> option string -> option Z ->
   list string * (string + analysis)).


End CommandLineFacts.

Lemma load_lenient_not_empty (re_compile : string -> compile_result)
    (fs : filesystem) printed rules :
  load_domain_patterns re_compile fs None = (printed, inr rules) -> rules <> [].
Proof.
  unfold load_domain_patterns, load_lenient.
  destruct (match fs default_file with Some _ => _ | None => _ end)
    as [read_warning patterns].
  destruct (compile_patterns re_compile default_file patterns)
    as [e | [compiled errors]]; [done|].
  destruct compiled as [|rule compiled]; [|by intros [= _ <-]].
  destruct (compile_patterns re_compile "default_patterns.txt" _)
    as [e | [[|rule defaults] default_errors]]; [done | done |].
  by intros [= _ <-].
Qed.


(** X14.  [--no-patterns] does not switch the rules off.  With it the
    analysis is called with no pattern file, whatever [--patterns] says:
    the run is the run without either option, and the loader, called with
    no file, returns the rules of [domain_patterns.txt] or the built-in
    ones, never an empty list. *)
Theorem no_patterns_still_loads
    (analyze analyze' :
       string -> option string -> Z -> option string -> option Z ->
       list string * (string + analysis))
    (re_compile : string -> compile_result) (fs : filesystem) (a : args) :
  arg_no_patterns a = true ->
  ((forall browser_name temp_path n workers,
      analyze browser_name temp_path n None workers =
        analyze' browser_name temp_path n None workers) ->
   main_cli analyze a = main_cli analyze' a)
  /\ main_cli analyze a = main_cli analyze (without_pattern_options a)
  /\ (forall printed rules,
        load_domain_patterns re_compile fs None = (printed, inr rules) ->
        rules <> []).
Proof.
  intros Hno. split; [|split].
  - intros Hsame. unfold main_cli. rewrite Hno.
    destruct (below 0 (arg_top a)); [done|].
    destruct (below 0 (arg_bottom a)); [done|].
    destruct (below 1 (arg_workers a)); [done|].
    by destruct (arg_top a) as [n|]; [|destruct (arg_bottom a)];
      rewrite Hsame.
  - unfold main_cli, without_pattern_options. by rewrite Hno.
  - apply load_lenient_not_empty.
Qed.

(** A run with [--patterns rules.txt --no-patterns] and the same run with
    neither. *)
Lemma no_patterns_still_loads_witness :
  main_cli sample_analyze sample_args =
    main_cli sample_analyze (without_pattern_options sample_args).
Proof.
  apply (no_patterns_still_loads sample_analyze sample_analyze Re.compile
           (fun _ => None) sample_args).
  reflexivity.
Defined.

(** X15.  [main] lists no domain: when the analysis succeeds it prints the
    title, the date range and the two totals and nothing else, whatever
    its [top_domains] and [redact] arguments are. *)
Theorem main_lists_no_domain
    (analyze :
       string -> option string -> Z -> option string -> option Z ->
       list string * (string + analysis))
    (browser_name : string) (n : Z) (temp_path pattern_file_path : option string)
    (redact : bool) (printed : list string) (results : analysis) :
  analyze browser_name temp_path n pattern_file_path None = (printed, inr results) ->
  main analyze browser_name n temp_path pattern_file_path redact =
    printed ++ report_head results browser_name.
Proof.
  intros Hrun. unfold main.
  by rewrite Hrun, print_analysis_results_lines, !app_nil_r.
Qed.

(** [main] with a top count of 10: five lines. *)
Lemma main_lists_no_domain_witness :
  length (main sample_analyze "Vivaldi" 10 None None true) = 5.
Proof.
  rewrite (main_lists_no_domain sample_analyze "Vivaldi" 10 None None true []
             (analysis_results ("May 1st, 2024", "May 22nd, 2024", 21%Z)
                sample_result sample_items 10)).
  - reflexivity.
  - reflexivity.
Defined.

(** ** From the URLs to the report *)

(** X16.  Every entry of the top list of an analysis stands for counted
    URLs: its domain passes the TLD check, its count is the number of URLs
    of the input counted under that domain, which is at least 1, and the
    number of unique domains the analysis reports is the number of items
    of its counter. *)
Theorem top_domains_counted
    (netloc : string -> option string) (patterns : list Pattern)
    (urls : list string) (items : list (string * nat))
    (dates : string * string * Z) (n : Z) (d : string) (c : nat) :
  let r := process_url_batch netloc urls patterns in
  let results := analysis_results dates r items n in
  items_of (counts r) items ->
  (d, c) ∈ top_domains results ->
  has_valid_tld (Some d) = true
  /\ c = length (List.filter (counted_as netloc patterns d) urls)
  /\ 1 <= c
  /\ d ∈ unique_domains results
  /\ total_unique_domains results = length (domain_counts results).
Proof.
  cbv zeta. cbn [top_domains unique_domains total_unique_domains domain_counts
                 analysis_results].
  intros Hitems Hin. rewrite most_common_take in Hin.
  destruct (take_sorted_items more _ items (Z.to_nat n) Hitems) as (_ & _ & Hc).
  specialize (Hc d c Hin).
  destruct (well_formed_process netloc patterns urls) as [Hdom Hpos].
  destruct (process_url_batch_tally netloc patterns urls d) as (Hd & Hcount & _).
  assert (Hmember : d ∈ domains (process_url_batch netloc urls patterns)).
  { rewrite Hdom. apply elem_of_dom. by exists c. }
  split; [|split; [|split; [|split]]].
  - apply Hd in Hmember as (url & _ & Hcounted).
    apply counted_as_classified in Hcounted.
    by inversion Hcounted.
  - rewrite <- Hcount. unfold count_of. by rewrite Hc.
  - by apply (Hpos d c).
  - done.
  - unfold items_of in Hitems.
    by rewrite Hitems, length_map_to_list, Hdom, size_dom.
Qed.

(** The sample URLs under the rule for [github.io]: [github.io] is counted
    twice. *)
Lemma top_domains_counted_witness :
  has_valid_tld (Some "github.io") = true
  /\ 2 = length (List.filter
                   (counted_as Url.netloc [Re.to_pattern github_rule] "github.io")
                   sample_urls).
Proof.
  pose proof (top_domains_counted Url.netloc [Re.to_pattern github_rule]
                sample_urls [("example.com", 2); ("github.io", 2)]
                ("", "", 0%Z) 2 "github.io" 2) as H.
  cbv zeta in H.
  destruct H as (H1 & H2 & _).
  - unfold items_of. apply (bool_decide_unpack _). by vm_compute.
  - apply (bool_decide_unpack _). by vm_compute.
  - by split.
Defined.

(** X17.  A command line that passes the checks of [main_cli] cannot make
    the thread pool refuse the worker count: on a machine with at least
    one processor the orchestrator, given the [--workers] of such a
    command line, returns the result of one pass over all the URLs. *)
Theorem checked_workers_never_refused
    (netloc : string -> option string) (patterns : list Pattern)
    (a : args) (cpu_count : Z) (completion : list nat) (all_urls : list string) :
  valid_args a = true ->
  (1 <= cpu_count)%Z ->
  completion ≡ₚ seq 0 (total_batches (length all_urls) batch_size) ->
  extract_domains_from_urls netloc cpu_count completion (Rows all_urls)
    patterns (arg_workers a) =
    inr (process_url_batch netloc all_urls patterns).
Proof.
  intros Hvalid Hcpu Hperm.
  apply extract_domains_with_one_batch; [apply batch_size_positive | | done].
  unfold valid_args in Hvalid. apply andb_true_iff in Hvalid as [_ Hworkers].
  apply negb_true_iff in Hworkers. unfold resolve_workers.
  destruct (arg_workers a) as [w|]; [simpl in Hworkers; lia | lia].
Qed.

(** The sample arguments on four processors, with more URLs than two
    batches hold: the thread pool is used, and the batches come back out of
    order. *)
Lemma checked_workers_never_refused_witness :
  extract_domains_from_urls Url.netloc 4 [2; 0; 1]
    (Rows (replicate (2 * batch_size + 1) "http://example.com/"))
    [Re.to_pattern github_rule] (arg_workers sample_args) =
    inr (process_url_batch Url.netloc
           (replicate (2 * batch_size + 1) "http://example.com/")
           [Re.to_pattern github_rule]).
Proof.
  apply (checked_workers_never_refused Url.netloc [Re.to_pattern github_rule]
           sample_args 4 [2; 0; 1]
           (replicate (2 * batch_size + 1) "http://example.com/")).
  - reflexivity.
  - lia.
  - apply (bool_decide_unpack _). by vm_compute.
Defined.

(** ** Numbers with thousands separators *)

Section NumberFacts.

Import PyStr.

Lemma is_digit_digit k : k < 10 -> is_digit (digit k) = true.
Proof. intros Hk. do 10 (destruct k as [|k]; [done|]). lia. Qed.

Lemma show_nat_go_digits fuel n acc :
  all is_digit acc = true -> all is_digit (show_nat_go fuel n acc) = true.
Proof.
  revert n acc. induction fuel as [|fuel IH]; intros n acc Hacc; [done|].
  cbn [show_nat_go].
  assert (Hstep : all is_digit (String (digit (n mod 10)) acc) = true).
  { cbn [all]. rewrite Hacc, is_digit_digit; [done|].
    apply Nat.mod_upper_bound. lia. }
  destruct (n / 10 =? 0); [done|]. by apply IH.
Qed.

Lemma show_nat_go_nonempty fuel n acc :
  acc <> EmptyString \/ 0 < fuel -> show_nat_go fuel n acc <> EmptyString.
Proof.
  revert n acc. induction fuel as [|fuel IH]; intros n acc Hne.
  - by destruct Hne as [? | ?]; [|lia].
  - cbn [show_nat_go]. destruct (n / 10 =? 0); [done|]. apply IH. by left.
Qed.

Lemma show_nat_digits n :
  all is_digit (show_nat n) = true /\ show_nat n <> EmptyString.
Proof.
  split; [by apply show_nat_go_digits|].
  apply show_nat_go_nonempty. right. lia.
Qed.

Lemma remove_commas_digits s : all is_digit s = true -> remove_commas s = s.
Proof.
  induction s as [|a s IH]; [done|]. cbn [all remove_commas].
  intros [Ha Hs]%andb_true_iff. rewrite (IH Hs).
  destruct (Ascii.eqb_spec a ","%char) as [-> | _]; [done | done].
Qed.

Lemma remove_commas_group_digits s :
  remove_commas (group_digits s) = remove_commas s.
Proof.
  induction s as [|a s IH]; [done|]. cbn [group_digits].
  destruct (_ && _); cbn [remove_commas]; rewrite ?IH;
    by destruct (Ascii.eqb a ",").
Qed.

(** The groups of a run of digits: the first holds what is left over, one
    to three digits, and the others three each. *)
Lemma split_group_digits s :
  all is_digit s = true -> s <> EmptyString ->
  exists group groups,
    split "," (group_digits s) = group :: groups
    /\ String.length group = (String.length s - 1) mod 3 + 1
    /\ Forall (fun g => String.length g = 3) groups.
Proof.
  induction s as [|a s IH]; [done|]. cbn [all].
  intros [Ha Hs]%andb_true_iff _.
  assert (Hcomma : Ascii.eqb a "," = false).
  { destruct (Ascii.eqb_spec a ","%char) as [-> | _]; [done | done]. }
  cbn [group_digits String.length].
  destruct s as [|b s].
  { exists (String a EmptyString), [].
    change (0 <? String.length EmptyString) with false.
    cbn [andb group_digits split]. rewrite Hcomma. by repeat split. }
  destruct (IH Hs ltac:(done)) as (group & groups & Hsplit & Hlen & Hall).
  set (rest := String b s) in *.
  assert (Hpos : 0 < String.length rest) by (subst rest; simpl; lia).
  destruct (Nat.ltb_spec 0 (String.length rest)) as [_ | ?]; [|lia].
  cbn [andb].
  destruct (Nat.eqb_spec (String.length rest mod 3) 0) as [Hmod | Hmod].
  - exists (String a EmptyString), (group :: groups).
    cbn [split]. rewrite Hcomma. cbn [Ascii.eqb]. 
    change (Ascii.eqb "," ",") with true. cbn iota. rewrite Hsplit.
    split; [done|]. split.
    + change (String.length (String a EmptyString)) with 1.
      replace (S (String.length rest) - 1) with (String.length rest) by lia.
      by rewrite Hmod.
    + constructor; [|done]. rewrite Hlen.
      pose proof (Nat.div_mod_eq (String.length rest) 3).
      pose proof (Nat.div_mod_eq (String.length rest - 1) 3).
      pose proof (Nat.mod_upper_bound (String.length rest - 1) 3).
      lia.
  - exists (String a group), groups.
    cbn [split]. rewrite Hcomma, Hsplit.
    split; [done|]. split; [|done].
    change (String.length (String a group)) with (S (String.length group)).
    replace (S (String.length rest) - 1) with (String.length rest) by lia.
    rewrite Hlen.
    pose proof (Nat.div_mod_eq (String.length rest) 3).
    pose proof (Nat.div_mod_eq (String.length rest - 1) 3).
    pose proof (Nat.mod_upper_bound (String.length rest - 1) 3).
    pose proof (Nat.mod_upper_bound (String.length rest) 3).
    lia.
Qed.

End NumberFacts.

(** X18.  [format_number] writes the decimal digits of the number with
    commas put in: taking the commas out gives [str(num)] back, and for a
    number that is not negative the commas cut the digits into a first
    group of one to three digits and groups of exactly three. *)
Theorem format_number_groups (num : Z) :
  remove_commas (format_number num) = show_int num
  /\ ((0 <= num)%Z ->
      exists group groups,
        PyStr.split "," (format_number num) = group :: groups
        /\ 1 <= String.length group <= 3
        /\ Forall (fun g => String.length g = 3) groups).
Proof.
  unfold format_number, show_int. split.
  - destruct (num <? 0)%Z; cbn [remove_commas];
      rewrite ?remove_commas_group_digits;
      change (Ascii.eqb "-" ",") with false; cbn iota;
      by rewrite remove_commas_digits by apply show_nat_digits.
  - intros Hnum. destruct (Z.ltb_spec num 0); [lia|].
    destruct (show_nat_digits (Z.to_nat num)) as [Hdigits Hne].
    destruct (split_group_digits _ Hdigits Hne)
      as (group & groups & Hsplit & Hlen & Hall).
    exists group, groups. split; [done|]. split; [|done].
    pose proof (Nat.mod_upper_bound
                  (String.length (PyStr.show_nat (Z.to_nat num)) - 1) 3).
    lia.
Qed.

(** 1,234,567. *)
Lemma format_number_groups_witness :
  exists group groups,
    PyStr.split "," (format_number 1234567) = group :: groups
    /\ 1 <= String.length group <= 3
    /\ Forall (fun g => String.length g = 3) groups.
Proof. apply (proj2 (format_number_groups 1234567)). lia. Defined.

(** ** The history path *)

Lemma lower_char_letter c l :
  PyStr.between 97 122 l = true ->
  Ascii.eqb (lower_char c) l =
    Ascii.eqb c l || (PyStr.code c + 32 =? PyStr.code l)%N.
Proof.
  assert (Hall : forallb (fun n =>
            forallb (fun m =>
              implb (PyStr.between 97 122 (ascii_of_nat m))
                (Bool.eqb
                   (Ascii.eqb (lower_char (ascii_of_nat n)) (ascii_of_nat m))
                   (Ascii.eqb (ascii_of_nat n) (ascii_of_nat m)
                    || (PyStr.code (ascii_of_nat n) + 32 =?
                        PyStr.code (ascii_of_nat m))%N)))
              (seq 97 26)) (seq 0 256) = true) by (by vm_compute).
  intros Hl. rewrite forallb_forall in Hall.
  specialize (Hall (nat_of_ascii c)).
  rewrite ascii_nat_embedding in Hall.
  assert (Hc : List.In (nat_of_ascii c) (seq 0 256))
    by (apply in_seq; pose proof (nat_ascii_bounded c); lia).
  specialize (Hall Hc). rewrite forallb_forall in Hall.
  specialize (Hall (nat_of_ascii l)).
  rewrite ascii_nat_embedding, Hl in Hall.
  assert (Hin : List.In (nat_of_ascii l) (seq 97 26)).
  { apply in_seq. unfold PyStr.between, PyStr.code in Hl.
    apply andb_true_iff in Hl as [H1 H2].
    apply N.leb_le in H1, H2. unfold nat_of_ascii. lia. }
  specialize (Hall Hin). by apply eqb_prop in Hall.
Qed.

Lemma lower_spells word name :
  PyStr.all (PyStr.between 97 122) word = true ->
  String.eqb (lower name) word = spells name word.
Proof.
  revert name. induction word as [|l word IH]; intros [|c name] Hword; try done.
  cbn [PyStr.all] in Hword. apply andb_true_iff in Hword as [Hl Hword].
  cbn [lower spells String.eqb].
  rewrite <- (lower_char_letter c l Hl), (IH name Hword).
  by destruct (Ascii.eqb (lower_char c) l).
Qed.

(** X19.  The history path is found exactly when the browser name spells
    [vivaldi], in any mix of upper and lower case, and the system is
    Linux, Darwin, or Windows with [LOCALAPPDATA] set; the path found does
    not depend on the spelling.  Any other name, on any system, raises
    [OSError] with the name and the system as they were given. *)
Theorem get_browser_history_path_supported
    (system : string) (environ : string -> option string)
    (expanduser : string -> string) (path_join : list string -> string)
    (browser_name : string) :
  let find := get_browser_history_path system environ expanduser path_join in
  ((exists path, find browser_name = inr path) <->
     spells browser_name "vivaldi" = true
     /\ (system = "Linux" \/ system = "Darwin"
         \/ system = "Windows" /\ is_Some (environ "LOCALAPPDATA")))
  /\ (forall path, find browser_name = inr path -> find "vivaldi" = inr path)
  /\ (spells browser_name "vivaldi" = false ->
      find browser_name = inl (unsupported browser_name system)).
Proof.
  cbv zeta. unfold get_browser_history_path.
  rewrite (lower_spells "vivaldi" browser_name) by done.
  change (String.eqb (lower "vivaldi") "vivaldi") with true. cbn iota.
  destruct (spells browser_name "vivaldi").
  2: { split; [|done]. split; [by intros [path ?] | by intros [? _]]. }
  destruct (String.eqb_spec system "Windows") as [-> | Hwindows].
  { destruct (environ "LOCALAPPDATA") as [local|].
    - split; [|done]. split; [intros _ | by eauto].
      split; [done|]. right. right. by split.
    - split; [|done]. split; [by intros [path ?]|].
      intros [_ [? | [? | [_ [? ?]]]]]; done. }
  destruct (String.eqb_spec system "Darwin") as [-> | Hdarwin].
  { split; [|done]. split; [intros _; split; [done | by right; left] | by eauto]. }
  destruct (String.eqb_spec system "Linux") as [-> | Hlinux].
  { split; [|done]. split; [intros _; split; [done | by left] | by eauto]. }
  split; [|done]. split; [by intros [path ?]|].
  intros [_ [? | [? | [? _]]]]; done.
Qed.

(** ** What the report can hold *)

Lemma has_valid_tld_contains d :
  has_valid_tld (Some d) = true -> PyStr.contains "." d = true.
Proof.
  unfold has_valid_tld. destruct (PyStr.falsy d); [done|].
  destruct (String.length d <? 3); [done|].
  by destruct (PyStr.contains "." d).
Qed.

(** What [normalize_domain] returns under settling rules is settled. *)
Lemma normalize_domain_settled host rules d :
  settling rules -> host <> EmptyString ->
  normalize_domain (Some host) rules = Some d -> settled d rules.
Proof.
  intros Hrules Hhost. unfold normalize_domain.
  destruct (PyStr.falsy host) eqn:Hempty.
  { by apply falsy_true in Hempty. }
  set (cut := if PyStr.count "." host <=? 2 then host
              else PyStr.join "." (list_slice_from (PyStr.split "." host) (-3))).
  assert (Hcut : PyStr.count "." cut <= 2).
  { subst cut. destruct (Nat.leb_spec (PyStr.count "." host) 2); [done|].
    apply truncated_dots. }
  destruct rules as [|rule rules].
  - intros [= <-]. by split.
  - intros Hstep. by apply (Hrules cut d).
Qed.

(** X20.  Under rules that settle, every domain a batch reports is a
    normal form: it has one or two dots, it passes the TLD check, and
    normalizing it again returns it unchanged.  The empty rule list
    settles, and so do the built-in rules. *)
Theorem reported_domains_settled :
  (forall (netloc : string -> option string) (rules : list Pattern)
          (urls : list string) (d : string),
     settling rules ->
     d ∈ domains (process_url_batch netloc urls rules) ->
     1 <= PyStr.count "." d <= 2
     /\ has_valid_tld (Some d) = true
     /\ normalize_domain (Some d) rules = Some d)
  /\ settling []
  /\ settling (map Re.to_pattern builtin_rules).
Proof.
  split; [|split; [|apply builtin_rules_settling]].
  - intros netloc rules urls d Hrules Hd.
    apply (process_url_batch_tally netloc rules urls d) in Hd
      as (url & _ & Hcounted).
    apply counted_as_classified in Hcounted.
    inversion Hcounted as [| | |host n Hhost Hne Hraw Hnorm Hvalid]; subst.
    pose proof (normalize_domain_settled host rules d Hrules Hne Hnorm)
      as Hsettled.
    split; [|split; [done | by apply settled_fixed]].
    split; [|by destruct Hsettled].
    by apply contains_count, has_valid_tld_contains.
  - intros d g Hd [= <-]. by split.
Qed.

(** [github.io], reported for the sample URLs under the built-in rules. *)
Lemma reported_domains_settled_witness :
  normalize_domain (Some "github.io") (map Re.to_pattern builtin_rules) =
    Some "github.io".
Proof.
  apply (proj1 reported_domains_settled Url.netloc
           (map Re.to_pattern builtin_rules) sample_urls "github.io").
  - apply builtin_rules_settling.
  - apply (bool_decide_unpack _). by vm_compute.
Defined.

(** Inserting an item into a list sorted by count puts it in front of the
    items of its own count. *)
Lemma filter_insert_sorted (before : string * nat -> string * nat -> bool)
    (c : nat) x ys :
  (forall y, before y x = true -> snd y <> snd x) ->
  filter (fun item => snd item = c) (insert_sorted before x ys) =
    filter (fun item => snd item = c) (x :: ys).
Proof.
  intros Hbefore. induction ys as [|y ys IH]; [done|].
  cbn [insert_sorted]. destruct (before y x) eqn:Hb; [|done].
  rewrite filter_cons, IH, !filter_cons.
  destruct (decide (snd y = c)) as [Hy|]; [|done].
  destruct (decide (snd x = c)) as [Hx|]; [|done].
  destruct (Hbefore y Hb). congruence.
Qed.

Lemma filter_sorted (before : string * nat -> string * nat -> bool)
    (c : nat) items :
  (forall x y, before y x = true -> snd y <> snd x) ->
  filter (fun item => snd item = c) (sorted before items) =
    filter (fun item => snd item = c) items.
Proof.
  intros Hbefore. induction items as [|x items IH]; [done|].
  cbn [sorted foldr]. fold (sorted before items).
  rewrite filter_insert_sorted by (intros y; apply Hbefore).
  by rewrite !filter_cons, IH.
Qed.

Lemma filter_take_prefix {A} (P : A -> Prop) `{!forall x, Decision (P x)}
    (xs : list A) k :
  filter P (take k xs) `prefix_of` filter P xs.
Proof.
  assert (E : filter P xs = filter P (take k xs) ++ filter P (drop k xs))
    by (by rewrite <- filter_app, take_drop).
  rewrite E. by apply prefix_app_r.
Qed.

(** X21.  Among domains of equal count the order of the dict decides: in
    the top list and in the bottom list the domains of any one count
    stand in the order they have among the items of the counter, and they
    are the first of them. *)
Theorem report_lists_ties (items : list (string * nat)) (n : Z) (c : nat) :
  filter (fun item => snd item = c) (most_common items n)
    `prefix_of` filter (fun item => snd item = c) items
  /\ filter (fun item => snd item = c) (list_slice_to (sorted fewer items) n)
       `prefix_of` filter (fun item => snd item = c) items.
Proof.
  split.
  - rewrite most_common_take.
    rewrite <- (filter_sorted more c items).
    + apply filter_take_prefix.
    + intros x y Hb. unfold more in Hb. apply Nat.ltb_lt in Hb. lia.
  - unfold list_slice_to.
    rewrite <- (filter_sorted fewer c items).
    + apply (filter_take_prefix (fun item : string * nat => snd item = c)).
    + intros x y Hb. unfold fewer in Hb. apply Nat.ltb_lt in Hb. lia.
Qed.

(** Two domains of count 3: the one that comes first among the items is
    the one listed. *)
Lemma report_lists_ties_witness :
  filter (fun item => snd item = 3)
         (most_common [("b.org", 3); ("a.com", 3); ("c.net", 2)] 1)
    `prefix_of`
  filter (fun item => snd item = 3) [("b.org", 3); ("a.com", 3); ("c.net", 2)].
Proof.
  apply (proj1 (report_lists_ties [("b.org", 3); ("a.com", 3); ("c.net", 2)] 1 3)).
Defined.


